(** * sweep: the recon pipeline, embedded and verified

    A shallow embedding of the Go packages [internal/engine] and
    [internal/recon] of vulnverified/sweep, and of what the command line,
    [pkg/ports], [internal/wordlist] and [internal/output] contribute to a
    run.  Network answers (HTTP replies, DNS lookups, zone transfers) and
    the scheduling of goroutines are inputs of the embedded functions, so
    every theorem quantifies over them. *)

From Stdlib Require Import ZArith NArith Ascii String DecimalString DecimalPos List Bool Lia.
From Stdlib Require OrderedTypeEx.
From stdpp Require Import base option list sorting gmap strings.

Local Open Scope string_scope.
Local Open Scope list_scope.
Local Open Scope Z_scope.

(** ** Go runtime notions shared by the packages *)

(** A [context.Context] as one goroutine observes it: the number of polls
    of [ctx.Done()] that still find it open.  [None] is a context that is
    never cancelled, [Some 0%nat] one that is cancelled already. *)
Definition Ctx : Type := option nat.

Definition Background : Ctx := None.
Definition Cancelled : Ctx := Some 0%nat.

(** One poll of [ctx.Done()]: whether it is closed, and the context after. *)
Definition poll (ctx : Ctx) : bool * Ctx :=
  match ctx with
  | None => (false, None)
  | Some O => (true, Some O)
  | Some (S n) => (false, Some n)
  end.

(** A Go [error] value is kept by its message, [err.Error()]. *)
Definition error : Type := string.

Definition ctxErr : error := "context canceled".

(** Go's [(T, error)] results. *)
Inductive result (A : Type) : Type :=
| Ok (a : A)
| Err (e : error).
Arguments Ok {A} a.
Arguments Err {A} e.

(** ** Package [strings] of the Go library, on byte strings

    Characters are bytes; case folding and white space are the ASCII ones,
    the range host names live in. *)
Module GoStrings.

Definition isUpper (c : ascii) : bool :=
  let n := N_of_ascii c in ((65 <=? n) && (n <=? 90))%N.

Definition lowerChar (c : ascii) : ascii :=
  if isUpper c then ascii_of_N (N_of_ascii c + 32) else c.

Fixpoint ToLower (s : string) : string :=
  match s with
  | EmptyString => EmptyString
  | String c r => String (lowerChar c) (ToLower r)
  end.

Definition isSpace (c : ascii) : bool :=
  let n := N_of_ascii c in (((9 <=? n) && (n <=? 13)) || (n =? 32))%N.

Fixpoint HasPrefix (s p : string) : bool :=
  match p, s with
  | EmptyString, _ => true
  | String _ _, EmptyString => false
  | String a p', String b s' => if Ascii.eqb a b then HasPrefix s' p' else false
  end.

Fixpoint HasSuffix (s suf : string) : bool :=
  String.eqb s suf ||
  match s with
  | EmptyString => false
  | String _ r => HasSuffix r suf
  end.

Fixpoint Contains (s sub : string) : bool :=
  HasPrefix s sub ||
  match s with
  | EmptyString => false
  | String _ r => Contains r sub
  end.

Fixpoint dropN (n : nat) (s : string) : string :=
  match n, s with
  | O, _ => s
  | S _, EmptyString => EmptyString
  | S n', String _ r => dropN n' r
  end.

Definition TrimPrefix (s p : string) : string :=
  if HasPrefix s p then dropN (String.length p) s else s.

Fixpoint TrimSuffix (s suf : string) : string :=
  if String.eqb s suf then EmptyString
  else match s with
       | EmptyString => EmptyString
       | String c r => if HasSuffix r suf then String c (TrimSuffix r suf) else s
       end.

Fixpoint trimLeft (s : string) : string :=
  match s with
  | EmptyString => EmptyString
  | String c r => if isSpace c then trimLeft r else s
  end.

Fixpoint trimRight (s : string) : string :=
  match s with
  | EmptyString => EmptyString
  | String c r =>
      match trimRight r with
      | EmptyString => if isSpace c then EmptyString else String c EmptyString
      | r' => String c r'
      end
  end.

Definition TrimSpace (s : string) : string := trimRight (trimLeft s).

(** [strings.Split(s, sep)] for a one-byte separator: never empty. *)
Fixpoint Split (s : string) (sep : ascii) : list string :=
  match s with
  | EmptyString => [EmptyString]
  | String c r =>
      if Ascii.eqb c sep then EmptyString :: Split r sep
      else match Split r sep with
           | h :: t => String c h :: t
           | [] => [String c EmptyString]
           end
  end.

(** [strings.SplitN(s, sep, 2)[0]]: what precedes the first separator. *)
Fixpoint SplitN2_0 (s : string) (sep : ascii) : string :=
  match s with
  | EmptyString => EmptyString
  | String c r => if Ascii.eqb c sep then EmptyString else String c (SplitN2_0 r sep)
  end.

(** [fmt.Sprintf("%d", n)]. *)
Definition itoa (n : Z) : string :=
  NilZero.string_of_int (Z.to_int n).

(** [io.LimitReader]: at most [n] bytes of the stream. *)
Fixpoint limit (n : N) (s : string) : string :=
  match s with
  | EmptyString => EmptyString
  | String c r => if (n =? 0)%N then EmptyString else String c (limit (N.pred n) r)
  end.

Definition newline : ascii := ascii_of_N 10.
Definition comma : ascii := ascii_of_N 44.

(** [strings.Join(elems, sep)]. *)
Fixpoint Join (elems : list string) (sep : string) : string :=
  match elems with
  | [] => EmptyString
  | [s] => s
  | s :: rest => s +:+ sep +:+ Join rest sep
  end.

(** [s[:n]], for [n] within the string. *)
Fixpoint takeN (n : nat) (s : string) : string :=
  match n, s with
  | O, _ => EmptyString
  | S _, EmptyString => EmptyString
  | S n', String c r => String c (takeN n' r)
  end.

End GoStrings.

(** ** Package [strconv] of the Go library *)
Module strconv.

Definition digit (c : ascii) : option Z :=
  let n := N_of_ascii c in
  if ((48 <=? n) && (n <=? 57))%N then Some (Z.of_N n - 48) else None.

(** The loop [n = n*10 + int(ch - '0')] over the bytes of the string. *)
Fixpoint digits (s : string) (n : Z) : option Z :=
  match s with
  | EmptyString => Some n
  | String ch r =>
      match digit ch with
      | Some d => digits r (n * 10 + d)
      | None => None
      end
  end.

(** [strconv.Atoi] on a 64-bit platform: an optional sign and one decimal
    digit at least, nothing else; [None] is its error, of syntax or of
    range. *)
Definition Atoi (s : string) : option Z :=
  match s with
  | EmptyString => None
  | String c r =>
      let neg := Ascii.eqb c "-" in
      let s := if Ascii.eqb c "-" || Ascii.eqb c "+" then r else s in
      match s with
      | EmptyString => None
      | _ =>
          match digits s 0 with
          | None => None
          | Some n =>
              let n := if neg then - n else n in
              if (- 2 ^ 63 <=? n) && (n <=? 2 ^ 63 - 1) then Some n else None
          end
      end
  end.

End strconv.

(** ** Package [engine]: the result types and the orchestrator *)
Module engine.

Record Subdomain := { sd_Host : string; sd_Sources : list string }.

Record DNSResult := { dr_Host : string; dr_IPs : list string; dr_CNAME : string }.

Record PortResult := { pr_Host : string; pr_IP : string; pr_Port : Z }.

Record Technology := { tech_Name : string; tech_Category : string }.

Record HTTPService := {
  svc_URL : string;
  svc_Host : string;
  svc_IP : string;
  svc_Port : Z;
  svc_Scheme : string;
  svc_StatusCode : Z;
  svc_Title : string;
  svc_Server : string;
  svc_ContentLength : Z;
  svc_Technologies : list Technology
}.

Record DanglingCNAME := { dc_Host : string; dc_CNAME : string; dc_Status : string }.

Record ZoneTransfer := { zt_Nameserver : string; zt_Success : bool; zt_Records : Z }.

Record Summary := {
  SubdomainsFound : Z;
  LiveHosts : Z;
  OpenPortCount : Z;
  HTTPServiceCount : Z;
  TechCount : Z;
  sum_DanglingCNAMEs : Z;
  ZoneTransferCount : Z
}.

(** Times are nanosecond counts; [DurationSecs] (a float of seconds in the
    source) is kept as the nanosecond difference. *)
Record ScanResult := {
  Target : string;
  StartedAt : Z;
  CompletedAt : Z;
  DurationSecs : Z;
  Subdomains : list Subdomain;
  DNSRecords : list DNSResult;
  OpenPorts : list PortResult;
  HTTPServices : list HTTPService;
  DanglingCNAMEs : list DanglingCNAME;
  ZoneTransfers : list ZoneTransfer;
  Warnings : list string;
  res_Summary : Summary
}.

Record Config := {
  cfg_Target : string;
  cfg_Ports : list Z;
  cfg_Timeout : Z;
  cfg_Concurrency : Z;
  cfg_UserAgent : string
}.

(** The stage interfaces.  An implementation acts on a world [W] (its own
    fields and the network); the two optional interfaces of an enumerator
    are present or not, as the type assertions of [Run] find them. *)
Record SubdomainEnumerator (W : Type) := {
  Enumerate : Ctx -> string -> Z -> W -> (list Subdomain * option error) * W;
  GetZoneTransfers : option (W -> list ZoneTransfer);
  GetWarnings : option (W -> list string)
}.
Arguments Enumerate {W}.
Arguments GetZoneTransfers {W}.
Arguments GetWarnings {W}.

Record Stages (W : Type) := {
  Enumerator : SubdomainEnumerator W;
  Resolver : Ctx -> list string -> Z -> W ->
             (list DNSResult * list DanglingCNAME * option error) * W;
  Scanner : Ctx -> list DNSResult -> list Z -> Z -> Z -> W ->
            (list PortResult * option error) * W;
  Prober : Ctx -> list PortResult -> Z -> Z -> W ->
           (list HTTPService * option error) * W;
  Fingerprinter : list HTTPService -> W -> list HTTPService * W;
  (** [time.Now()] *)
  Now : W -> Z * W
}.
Arguments Enumerator {W}.
Arguments Resolver {W}.
Arguments Scanner {W}.
Arguments Prober {W}.
Arguments Fingerprinter {W}.
Arguments Now {W}.

(** What [Run] does to the outside: the calls on its [ProgressReporter] and
    the stage methods it invokes, in order. *)
Inductive Event :=
| Stage (num total : Z) (msg : string)
| Detail (msg : string)
| Warn (msg : string)
| CallEnumerate
| CallResolve
| CallScan
| CallProbe
| CallFingerprint.

Definition totalStages : Z := 5.

(** State of a run: the world of the stages and the events so far. *)
Definition M (W A : Type) : Type := W * list Event -> A * (W * list Event).

Definition ret {W A} (a : A) : M W A := fun s => (a, s).
Definition bind {W A B} (m : M W A) (k : A -> M W B) : M W B :=
  fun s => let (a, s') := m s in k a s'.
Definition emit {W} (e : Event) : M W unit :=
  fun s => (tt, (fst s, snd s ++ [e])).
Definition call {W A} (e : Event) (f : W -> A * W) : M W A :=
  fun s => let (a, w') := f (fst s) in (a, (w', snd s ++ [e])).
Definition quiet {W A} (f : W -> A * W) : M W A :=
  fun s => let (a, w') := f (fst s) in (a, (w', snd s)).
Definition len {A} (l : list A) : Z := Z.of_nat (length l).

Definition countLive (records : list DNSResult) : Z :=
  len (filter (fun r => 0 < len (dr_IPs r)) records).

Definition buildSummary (result : ScanResult) : Summary :=
  let liveHosts : gset string :=
    list_to_set (dr_Host <$> filter (fun r => 0 < len (dr_IPs r)) (DNSRecords result)) in
  let techSet : gset string :=
    list_to_set (tech_Name <$> concat (svc_Technologies <$> HTTPServices result)) in
  let zoneTransferCount :=
    len (filter (fun zt => zt_Success zt = true) (ZoneTransfers result)) in
  {| SubdomainsFound := len (Subdomains result);
     LiveHosts := Z.of_nat (size liveHosts);
     OpenPortCount := len (OpenPorts result);
     HTTPServiceCount := len (HTTPServices result);
     TechCount := Z.of_nat (size techSet);
     sum_DanglingCNAMEs := len (DanglingCNAMEs result);
     ZoneTransferCount := zoneTransferCount |}.

Definition zeroSummary : Summary := Build_Summary 0 0 0 0 0 0 0.

(** The three return statements of [Run] that yield a result share their
    last lines: stamp the end of the run, then derive the summary. *)
Definition complete (started completed : Z) (target : string)
    (subdomains : list Subdomain) (zts : list ZoneTransfer) (warnings : list string)
    (dns : list DNSResult) (dangling : list DanglingCNAME)
    (ports : list PortResult) (services : list HTTPService) : ScanResult :=
  let result :=
    {| Target := target; StartedAt := started; CompletedAt := completed;
       DurationSecs := completed - started;
       Subdomains := subdomains; DNSRecords := dns; OpenPorts := ports;
       HTTPServices := services; DanglingCNAMEs := dangling;
       ZoneTransfers := zts; Warnings := warnings;
       res_Summary := zeroSummary |} in
  {| Target := Target result; StartedAt := StartedAt result;
     CompletedAt := CompletedAt result; DurationSecs := DurationSecs result;
     Subdomains := Subdomains result; DNSRecords := DNSRecords result;
     OpenPorts := OpenPorts result; HTTPServices := HTTPServices result;
     DanglingCNAMEs := DanglingCNAMEs result; ZoneTransfers := ZoneTransfers result;
     Warnings := Warnings result;
     res_Summary := buildSummary result |}.

#[local] Instance M_ret {W} : MRet (M W) := @ret W.
#[local] Instance M_bind {W} : MBind (M W) := fun A B k m => bind m k.

Definition warnIf {W} (prefix : string) (err : option error) : M W unit :=
  match err with
  | Some e => emit (Warn (prefix +:+ e))
  | None => ret tt
  end.

Definition techCount (services : list HTTPService) : Z :=
  fold_left (fun n svc => n + len (svc_Technologies svc)) services 0.

(** [Run] executes the full sweep pipeline.  It yields Go's pair of a
    [*ScanResult] (or nil) and an error (or nil). *)
Definition Run {W} (ctx : Ctx) (cfg : Config) (stages : Stages W)
    : M W (option ScanResult * option error) :=
  started ← quiet (Now stages) ;
   (* Stage 1: Subdomain enumeration. *)
   emit (Stage 1 totalStages "Enumerating subdomains...") ;;
   '(subdomains, err) ←
     call CallEnumerate
       (Enumerate (Enumerator stages) ctx (cfg_Target cfg) (cfg_Concurrency cfg)) ;
   match err with
   | Some e => ret (None, Some ("subdomain enumeration failed: " +:+ e))
   | None =>
   if len subdomains =? 0
   then ret (None, Some ("no subdomains discovered for " +:+ cfg_Target cfg))
   else
   emit (Detail ("Found " +:+ GoStrings.itoa (len subdomains) +:+ " unique subdomains")) ;;
   (* Check optional interfaces for zone transfers and warnings. *)
   zts ← match GetZoneTransfers (Enumerator stages) with
          | Some get => quiet (fun w => (get w, w))
          | None => ret []
          end ;
   warnings ← match GetWarnings (Enumerator stages) with
               | Some get => quiet (fun w => (get w, w))
               | None => ret []
               end ;
   (* Collect all hostnames for DNS resolution. *)
   let hosts := sd_Host <$> subdomains in
   (* Stage 2: DNS resolution. *)
   emit (Stage 2 totalStages "Resolving DNS records...") ;;
   '(dnsRecords, danglingCNAMEs, err) ←
     call CallResolve (Resolver stages ctx hosts (cfg_Concurrency cfg)) ;
   warnIf "DNS resolution error: " err ;;
   let liveHostCount := countLive dnsRecords in
   emit (Detail (GoStrings.itoa liveHostCount +:+ " hosts resolved, " +:+
                 GoStrings.itoa (len danglingCNAMEs) +:+ " dangling CNAMEs detected")) ;;
   if liveHostCount =? 0 then
     emit (Warn "No live hosts found, skipping port scan and HTTP probe") ;;
     completed ← quiet (Now stages) ;
     ret (Some (complete started completed (cfg_Target cfg) subdomains zts warnings
                  dnsRecords danglingCNAMEs [] []), None)
   else
   (* Stage 3: Port scanning. *)
   emit (Stage 3 totalStages
           ("Scanning " +:+ GoStrings.itoa (len (cfg_Ports cfg)) +:+ " ports across " +:+
            GoStrings.itoa liveHostCount +:+ " hosts...")) ;;
   '(openPorts, err) ←
     call CallScan (Scanner stages ctx dnsRecords (cfg_Ports cfg)
                      (cfg_Concurrency cfg) (cfg_Timeout cfg)) ;
   warnIf "Port scan error: " err ;;
   emit (Detail ("Found " +:+ GoStrings.itoa (len openPorts) +:+ " open ports")) ;;
   if len openPorts =? 0 then
     emit (Warn "No open ports found, skipping HTTP probe") ;;
     completed ← quiet (Now stages) ;
     ret (Some (complete started completed (cfg_Target cfg) subdomains zts warnings
                  dnsRecords danglingCNAMEs openPorts []), None)
   else
   (* Stage 4: HTTP probing. *)
   let httpConcurrency :=
     let c := cfg_Concurrency cfg `quot` 2 in if c <? 1 then 1 else c in
   emit (Stage 4 totalStages
           ("Probing " +:+ GoStrings.itoa (len openPorts) +:+
            " open ports for HTTP services...")) ;;
   '(services, err) ←
     call CallProbe (Prober stages ctx openPorts httpConcurrency (cfg_Timeout cfg)) ;
   warnIf "HTTP probe error: " err ;;
   emit (Detail ("Found " +:+ GoStrings.itoa (len services) +:+ " HTTP services")) ;;
   (* Stage 5: Tech fingerprinting, in place on the services. *)
   services ←
     (if 0 <? len services then
        emit (Stage 5 totalStages "Fingerprinting technologies...") ;;
        services' ← call CallFingerprint (Fingerprinter stages services) ;
        emit (Detail ("Identified " +:+ GoStrings.itoa (techCount services') +:+
                      " technology instances")) ;;
        ret services'
      else ret services) ;
   completed ← quiet (Now stages) ;
   ret (Some (complete started completed (cfg_Target cfg) subdomains zts warnings
                dnsRecords danglingCNAMEs openPorts services), None)
   end.

(** The first stage, as [Run] calls it: right after reading the clock. *)
Definition enumeration {W} (ctx : Ctx) (cfg : Config) (stages : Stages W) (w : W)
    : (list Subdomain * option error) * W :=
  Enumerate (Enumerator stages) ctx (cfg_Target cfg) (cfg_Concurrency cfg) (Now stages w).2.

End engine.

(** ** Package [recon]: the stage implementations *)
Module recon.
Import engine.

(** *** Worker pools

    Every concurrent stage fills a buffered channel with its work, closes
    it, and starts [concurrency] goroutines that receive items until the
    channel is drained; before each item a worker polls [ctx.Done()] and
    returns if it is closed.  Which items are worked on once the context
    is cancelled midway, and in which order results are appended under the
    mutex, is up to the scheduler: [order] lists the positions of the items
    that were worked on, in the order their results were appended.  With a
    context that is closed from the start, or without workers, no item is
    worked on. *)
Definition pool {A B} (ctx : Ctx) (concurrency : Z) (order : list nat)
    (work : list A) (job : nat -> A -> option B) : list B :=
  if (concurrency <=? 0) || fst (poll ctx) then []
  else omap (fun i => x ← work !! i; job i x) order.

(** The orders a scheduler can produce: every item is received at most
    once, and all of them are when the context is never cancelled. *)
Definition schedule_ok (ctx : Ctx) (n : nat) (order : list nat) : Prop :=
  NoDup order /\ (forall i, i ∈ order -> (i < n)%nat) /\
  (ctx = None -> forall i, (i < n)%nat -> i ∈ order).

(** *** dangling.go *)

(** An error of a resolver lookup: either [errors.As] finds a
    [*net.DNSError] in its chain (of which [IsNotFound] is read), or it does
    not; [Error()] in both cases. *)
Inductive LookupErr :=
| DNSError (IsNotFound : bool) (text : string)
| PlainError (text : string).

Definition danglingPatterns : list string :=
  [ ".s3.amazonaws.com"; ".azurewebsites.net"; ".github.io"; ".herokuapp.com";
    ".cloudfront.net"; ".elasticbeanstalk.com"; ".trafficmanager.net";
    ".blob.core.windows.net"; ".azureedge.net"; ".pantheonsite.io";
    ".netlify.app"; ".ghost.io"; ".myshopify.com"; ".surge.sh" ].

Definition classifyDNSError (err : option LookupErr) : string :=
  match err with
  | None => ""
  | Some (DNSError isNotFound _) => if isNotFound then "NXDOMAIN" else "SERVFAIL"
  | Some (PlainError text) =>
      let errStr := GoStrings.ToLower text in
      if GoStrings.Contains errStr "no such host" then "NXDOMAIN"
      else if GoStrings.Contains errStr "server misbehaving" then "SERVFAIL"
      else ""
  end.

Definition matchesPattern (cnameLower : string) : bool :=
  existsb (fun pattern => GoStrings.HasSuffix cnameLower pattern) danglingPatterns.

Definition checkDangling (host cname : string) (lookupErr : option LookupErr)
    : option DanglingCNAME :=
  let cnameLower := GoStrings.ToLower cname in
  if negb (matchesPattern cnameLower) then None
  else
    let status := classifyDNSError lookupErr in
    if String.eqb status "" then None
    else Some {| dc_Host := host; dc_CNAME := cname; dc_Status := status |}.

(** *** dns.go *)

(** The resolver as the stage sees it; the first argument is the position
    of the work item that asks. *)
Record DNS := {
  LookupCNAME : nat -> string -> option string;
  LookupHost : nat -> string -> LookupErr + list string
}.

(** The loop shared by every de-duplication of the package: a [seen] map
    and an output slice that grows by the strings not seen before. *)
Definition appendUnseen (acc : gset string * list string) (s : string)
    : gset string * list string :=
  if decide (s ∈ acc.1) then acc else ({[s]} ∪ acc.1, acc.2 ++ [s]).

Definition deduplicateStrings (ss : list string) : list string :=
  (fold_left appendUnseen ss (∅, [])).2.

(** What one iteration of the worker loop of [DNSResolve] adds: a record to
    [results], or a candidate to [danglings], or nothing. *)
Definition resolveHost (dns : DNS) (i : nat) (host : string)
    : option (DNSResult + DanglingCNAME) :=
  (* Check CNAME first. *)
  let recordCNAME :=
    match LookupCNAME dns i host with
    | Some cname =>
        let cname := GoStrings.TrimSuffix (GoStrings.ToLower cname) "." in
        if negb (String.eqb cname host) && negb (String.eqb cname "") then cname else ""
    | None => ""
    end in
  (* Resolve A/AAAA records. *)
  match LookupHost dns i host with
  | inl err =>
      (* Host didn't resolve: check if it's a dangling CNAME. *)
      if negb (String.eqb recordCNAME "")
      then inr <$> checkDangling host recordCNAME (Some err)
      else None
  | inr ips =>
      Some (inl {| dr_Host := host; dr_IPs := deduplicateStrings ips;
                   dr_CNAME := recordCNAME |})
  end.

Definition lefts {A B} (l : list (A + B)) : list A :=
  omap (fun x => match x with inl a => Some a | inr _ => None end) l.
Definition rights {A B} (l : list (A + B)) : list B :=
  omap (fun x => match x with inl _ => None | inr b => Some b end) l.

Definition DNSResolve (dns : DNS) (order : list nat) (ctx : Ctx)
    (hosts : list string) (concurrency : Z)
    : list DNSResult * list DanglingCNAME * option error :=
  let out := pool ctx concurrency order hosts (resolveHost dns) in
  (lefts out, rights out, None).

(** [LiveHostsFromDNS] extracts the host names that resolved. *)
Definition LiveHostsFromDNS (records : list DNSResult) : list string :=
  dr_Host <$> filter (fun r => 0 < len (dr_IPs r)) records.

(** [IPForHost] returns the first resolved IP for a host, or the empty
    string. *)
Fixpoint IPForHost (records : list DNSResult) (host : string) : string :=
  match records with
  | [] => ""
  | r :: rest =>
      if String.eqb (dr_Host r) host && (0 <? len (dr_IPs r))
      then default "" (dr_IPs r !! 0%nat)
      else IPForHost rest host
  end.

(** *** portscan.go *)

Record target := { t_host : string; t_ip : string; t_port : Z }.

Definition buildTargets (dnsRecords : list DNSResult) (ports : list Z) : list target :=
  r ← dnsRecords;
  match dr_IPs r with
  | [] => []
  | ip :: _ => (fun port => {| t_host := dr_Host r; t_ip := ip; t_port := port |}) <$> ports
  end.

(** [dial i addr]: whether the TCP connect of work item [i] to [addr]
    succeeds within the timeout. *)
Definition PortScan (dial : nat -> string -> bool) (order : list nat) (ctx : Ctx)
    (dnsRecords : list DNSResult) (ports : list Z) (concurrency timeout : Z)
    : list PortResult * option error :=
  let targets := buildTargets dnsRecords ports in
  let results :=
    pool ctx concurrency order targets (fun i t =>
      let addr := t_ip t +:+ ":" +:+ GoStrings.itoa (t_port t) in
      if dial i addr
      then Some {| pr_Host := t_host t; pr_IP := t_ip t; pr_Port := t_port t |}
      else None) in
  (results, None).

(** *** httpprobe.go *)

(** What [client.Do] hands back when it succeeds: the parts of the
    [*http.Response] that [probeURL] reads.  [resp_Title] is the first
    submatch of [titleRegex] on the body as read, if any; [resp_Cookies] are
    the names in [resp.Cookies()]. *)
Record Response := {
  resp_StatusCode : Z;
  resp_Header : gmap string (list string);
  resp_ContentLength : Z;
  resp_Body : string;
  resp_Title : option string;
  resp_Cookies : list string
}.

(** probeData holds the raw HTTP response data for fingerprinting. *)
Record probeData := {
  headers : gmap string string;
  body : string;
  cookies : list string
}.

Record HTTPProbeResult := {
  Services : list HTTPService;
  ProbeData : gmap string probeData
}.

Definition httpProbeMaxBody : N := 1024 * 1024.

(** tlsFirstPorts are ports where HTTPS should be tried before HTTP. *)
Definition tlsFirstPorts : gset Z := {[ 443; 8443; 9443; 6443; 1443; 4443 ]}.

(** [http.Header.Get]. *)
Definition headerGet (h : gmap string (list string)) (key : string) : string :=
  match h !! key with
  | Some (v :: _) => v
  | _ => ""
  end.

(** [Do url]: the answer to a GET of [url], [None] when the request cannot
    be built or sent, times out, or follows more than five redirects. *)
Definition probeURL (Do : string -> option Response) (url : string)
    (pr : PortResult) (scheme : string) : option (HTTPService * probeData) :=
  match Do url with
  | None => None
  | Some resp =>
      let bodyStr := GoStrings.limit httpProbeMaxBody (resp_Body resp) in
      let svc :=
        {| svc_URL := url; svc_Host := pr_Host pr; svc_IP := pr_IP pr;
           svc_Port := pr_Port pr; svc_Scheme := scheme;
           svc_StatusCode := resp_StatusCode resp;
           svc_Title := match resp_Title resp with
                        | Some t => GoStrings.TrimSpace t
                        | None => ""
                        end;
           svc_Server := headerGet (resp_Header resp) "Server";
           svc_ContentLength := resp_ContentLength resp;
           svc_Technologies := [] |} in
      let headers : gmap string string :=
        list_to_map
          (omap (fun '(name, vals) =>
                   match vals with
                   | v :: _ => Some (GoStrings.ToLower name, v)
                   | [] => None
                   end)
                (map_to_list (resp_Header resp))) in
      Some (svc, {| headers := headers; body := bodyStr; cookies := resp_Cookies resp |})
  end.

Definition schemesFor (port : Z) : list string :=
  if decide (port ∈ tlsFirstPorts) then ["https"; "http"] else ["http"; "https"].

Definition urlFor (scheme : string) (pr : PortResult) : string :=
  scheme +:+ "://" +:+ pr_Host pr +:+ ":" +:+ GoStrings.itoa (pr_Port pr).

(** The loop of [probePort] over the schemes still to try; next to the
    result, the URLs requested, in order. *)
Fixpoint probeSchemes (Do : string -> option Response) (pr : PortResult)
    (schemes : list string) : option (HTTPService * probeData) * list string :=
  match schemes with
  | [] => (None, [])
  | scheme :: rest =>
      let url := urlFor scheme pr in
      match probeURL Do url pr scheme with
      | Some r => (Some r, [url])
      | None => let (r, tried) := probeSchemes Do pr rest in (r, url :: tried)
      end
  end.

Definition probePort (Do : string -> option Response) (pr : PortResult)
    : option (HTTPService * probeData) * list string :=
  probeSchemes Do pr (schemesFor (pr_Port pr)).

(** [Do i] answers the requests made for work item [i].  The results of
    the workers are appended under the mutex in completion order. *)
Definition HTTPProbe (Do : nat -> string -> option Response) (order : list nat)
    (ctx : Ctx) (openPorts : list PortResult) (concurrency timeout : Z)
    (userAgent : string) : HTTPProbeResult * option error :=
  let out := pool ctx concurrency order openPorts (fun i pr => (probePort (Do i) pr).1) in
  ({| Services := fst <$> out;
      ProbeData := fold_left (fun m '(svc, pd) => <[svc_URL svc := pd]> m) out ∅ |},
   None).

(** *** fingerprint.go *)

Record headerMatch := {
  hm_Name : string;
  hm_Pattern : string;
  (** the compiled pattern, nil or a matcher ([MatchString]) *)
  regex : option (string -> bool)
}.

Record FingerprintRule := {
  rule_Name : string;
  rule_Category : string;
  rule_Headers : list headerMatch;
  rule_Body : list string;
  rule_Cookies : list string
}.

(** [loadFingerprints], after the JSON is decoded: the header patterns
    that are not empty are compiled, case-insensitively; a pattern that does
    not compile leaves its [regex] nil.  [Compile] is [regexp.Compile]
    followed by taking [MatchString] of the result. *)
Definition loadFingerprints (Compile : string -> option (string -> bool))
    (decoded : list FingerprintRule) : list FingerprintRule :=
  (fun rule =>
     {| rule_Name := rule_Name rule; rule_Category := rule_Category rule;
        rule_Headers :=
          (fun h =>
             {| hm_Name := hm_Name h; hm_Pattern := hm_Pattern h;
                regex := if negb (String.eqb (hm_Pattern h) "")
                         then Compile ("(?i)" +:+ hm_Pattern h)
                         else None |}) <$> rule_Headers rule;
        rule_Body := rule_Body rule; rule_Cookies := rule_Cookies rule |}) <$> decoded.

Definition headerMatches (hm : headerMatch) (data : probeData) : bool :=
  let headerName := GoStrings.ToLower (hm_Name hm) in
  match headers data !! headerName with
  | None => false
  | Some headerVal =>
      match regex hm with
      | Some re => re headerVal
      | None => false
      end
      || (String.eqb (hm_Pattern hm) "" && negb (String.eqb headerVal ""))
  end.

Definition matchesRule (rule : FingerprintRule) (data : probeData) : bool :=
  (* Check header patterns. *)
  existsb (fun hm => headerMatches hm data) (rule_Headers rule)
  (* Check body substrings. *)
  || (let bodyLower := GoStrings.ToLower (body data) in
      existsb (fun substr => GoStrings.Contains bodyLower (GoStrings.ToLower substr))
              (rule_Body rule))
  (* Check cookie names. *)
  || existsb (fun cookieName =>
                let cookieLower := GoStrings.ToLower cookieName in
                existsb (fun c => String.eqb (GoStrings.ToLower c) cookieLower)
                        (cookies data))
             (rule_Cookies rule).

(** The probe data a service is fingerprinted from: the one recorded
    under its URL, else its [Server] header alone. *)
Definition dataFor (probeResults : gmap string probeData) (svc : HTTPService)
    : probeData :=
  match probeResults !! svc_URL svc with
  | Some data => data
  | None =>
      {| headers := if negb (String.eqb (svc_Server svc) "")
                    then {[ "server" := svc_Server svc ]} else ∅;
         body := ""; cookies := [] |}
  end.

Definition setTechnologies (svc : HTTPService) (techs : list Technology) : HTTPService :=
  {| svc_URL := svc_URL svc; svc_Host := svc_Host svc; svc_IP := svc_IP svc;
     svc_Port := svc_Port svc; svc_Scheme := svc_Scheme svc;
     svc_StatusCode := svc_StatusCode svc; svc_Title := svc_Title svc;
     svc_Server := svc_Server svc; svc_ContentLength := svc_ContentLength svc;
     svc_Technologies := techs |}.

(** [FingerprintServices], given the rules [loadFingerprints] cached. *)
Definition FingerprintServices (fingerprintRules : list FingerprintRule)
    (services : list HTTPService) (probeResults : gmap string probeData)
    : list HTTPService :=
  (fun svc =>
     let data := dataFor probeResults svc in
     let techs :=
       (fun rule => {| tech_Name := rule_Name rule; tech_Category := rule_Category rule |})
         <$> filter (fun rule => matchesRule rule data = true) fingerprintRules in
     setTechnologies svc techs) <$> services.

(** *** crtsh.go, hackertarget.go, otx.go: the remote sources *)

(** The answer to one GET of a remote API: the request fails before a
    status arrives, or a status arrives and, for those that are read, the
    body or the error of reading it. *)
Inductive Reply :=
| TransportError (text : string)
| HTTPReply (status : Z) (read : result string).

(** The remote end of one source: the answer to its [n]-th request, and
    [json.Unmarshal] into the source's entry type, reduced to the one string
    field the source reads of each entry. *)
Record Remote := {
  replies : nat -> Reply;
  unmarshal : string -> result (list string)
}.

(** What a fetch does to the outside, in order. *)
Inductive FetchEvent :=
| Request (url : string)
| Backoff (seconds : Z).

Definition crtshMaxBody : N := 50 * 1024 * 1024.
Definition crtshRetryDelay : Z := 3.
Definition hackertargetMaxBody : N := 5 * 1024 * 1024.
Definition hackertargetRetryDelay : Z := 2.
Definition hackertargetRateMsg : string := "API count exceeded".
Definition otxMaxBody : N := 10 * 1024 * 1024.
Definition otxRetryDelay : Z := 3.

Definition crtshDoRequest (reply : Reply) : result string :=
  match reply with
  | TransportError text => Err text
  | HTTPReply status read =>
      if status =? 429 then Err "crt.sh rate limited (429)"
      else if negb (status =? 200)
      then Err ("crt.sh returned status " +:+ GoStrings.itoa status)
      else match read with
           | Err text => Err ("crt.sh read body: " +:+ text)
           | Ok raw => Ok (GoStrings.limit crtshMaxBody raw)
           end
  end.

Definition hackertargetDoRequest (reply : Reply) : result string :=
  match reply with
  | TransportError text => Err text
  | HTTPReply status read =>
      if status =? 429 then Err "hackertarget rate limited (429)"
      else if 500 <=? status
      then Err ("hackertarget returned status " +:+ GoStrings.itoa status)
      else if negb (status =? 200)
      then Err ("hackertarget returned status " +:+ GoStrings.itoa status)
      else match read with
           | Err text => Err ("hackertarget read body: " +:+ text)
           | Ok raw =>
               let body := GoStrings.limit hackertargetMaxBody raw in
               (* HackerTarget returns a plain text error message when rate limited. *)
               if GoStrings.Contains body hackertargetRateMsg
               then Err ("hackertarget: " +:+ hackertargetRateMsg)
               else Ok body
           end
  end.

Definition otxDoRequest (reply : Reply) : result string :=
  match reply with
  | TransportError text => Err text
  | HTTPReply status read =>
      if status =? 429 then Err "otx rate limited (429)"
      else if 500 <=? status
      then Err ("otx returned status " +:+ GoStrings.itoa status)
      else if negb (status =? 200)
      then Err ("otx returned status " +:+ GoStrings.itoa status)
      else match read with
           | Err text => Err ("otx read body: " +:+ text)
           | Ok raw => Ok (GoStrings.limit otxMaxBody raw)
           end
  end.

(** The three fetch functions differ in their request function, in what
    they take for a rate limit, and in their delay. *)
Definition fetch (doRequest : Reply -> result string) (isRateLimit : error -> bool)
    (retryDelay : Z) (ctx : Ctx) (net : nat -> Reply) (url : string)
    : result string * list FetchEvent :=
  match doRequest (net 0%nat) with
  | Ok body => (Ok body, [Request url])
  | Err err =>
      (* Don't retry on rate limit. *)
      if isRateLimit err then (Err err, [Request url])
      else
        (* Retry once after delay for server errors. *)
        if fst (poll ctx) then (Err ctxErr, [Request url])
        else (doRequest (net 1%nat), [Request url; Backoff retryDelay; Request url])
  end.

Definition crtshFetch : Ctx -> (nat -> Reply) -> string -> result string * list FetchEvent :=
  fetch crtshDoRequest (fun err => GoStrings.Contains err "429") crtshRetryDelay.

Definition hackertargetFetch : Ctx -> (nat -> Reply) -> string -> result string * list FetchEvent :=
  fetch hackertargetDoRequest
        (fun err => GoStrings.Contains err "429" || GoStrings.Contains err hackertargetRateMsg)
        hackertargetRetryDelay.

Definition otxFetch : Ctx -> (nat -> Reply) -> string -> result string * list FetchEvent :=
  fetch otxDoRequest (fun err => GoStrings.Contains err "429") otxRetryDelay.

(** "Must be a subdomain of the target." *)
Definition inTarget (name domain : string) : bool :=
  GoStrings.HasSuffix name ("." +:+ domain) || String.eqb name domain.

Definition uniq (candidates : list string) : list string :=
  (fold_left appendUnseen candidates (∅, [])).2.

Definition crtshName (domain name : string) : option string :=
  let name := GoStrings.TrimSpace (GoStrings.ToLower name) in
  if String.eqb name "" then None
  else
    let name := if GoStrings.HasPrefix name "*." then GoStrings.TrimPrefix name "*." else name in
    if inTarget name domain then Some name else None.

Definition CrtshEnumerate (remote : Remote) (ctx : Ctx) (domain userAgent : string)
    : result (list string) :=
  let url := "https://crt.sh/?q=%25." +:+ domain +:+ "&output=json" in
  match (crtshFetch ctx (replies remote) url).1 with
  | Err err => Err ("crt.sh fetch for " +:+ domain +:+ ": " +:+ err)
  | Ok body =>
      match unmarshal remote body with
      | Err err => Err ("crt.sh JSON parse for " +:+ domain +:+ ": " +:+ err)
      | Ok entries =>
          Ok (uniq (nameValue ← entries;
                    omap (crtshName domain) (GoStrings.Split nameValue GoStrings.newline)))
      end
  end.

Definition hackertargetLine (domain line : string) : option string :=
  let line := GoStrings.TrimSpace line in
  if String.eqb line "" then None
  else
    let host := GoStrings.ToLower (GoStrings.TrimSpace (GoStrings.SplitN2_0 line GoStrings.comma)) in
    if String.eqb host "" then None
    else if inTarget host domain then Some host else None.

Definition parseHackertargetResponse (body domain : string) : list string :=
  uniq (omap (hackertargetLine domain) (GoStrings.Split body GoStrings.newline)).

Definition HackertargetEnumerate (remote : Remote) (ctx : Ctx) (domain userAgent : string)
    : result (list string) :=
  let url := "https://api.hackertarget.com/hostsearch/?q=" +:+ domain in
  match (hackertargetFetch ctx (replies remote) url).1 with
  | Err err => Err ("hackertarget fetch for " +:+ domain +:+ ": " +:+ err)
  | Ok body => Ok (parseHackertargetResponse body domain)
  end.

Definition otxHost (domain hostname : string) : option string :=
  let host := GoStrings.ToLower (GoStrings.TrimSpace hostname) in
  if String.eqb host "" then None
  else if inTarget host domain then Some host else None.

Definition parseOTXResponse (remote : Remote) (body domain : string) : result (list string) :=
  match unmarshal remote body with
  | Err err => Err ("otx JSON parse: " +:+ err)
  | Ok passiveDNS => Ok (uniq (omap (otxHost domain) passiveDNS))
  end.

Definition OTXEnumerate (remote : Remote) (ctx : Ctx) (domain userAgent : string)
    : result (list string) :=
  let url := "https://otx.alienvault.com/api/v1/indicators/domain/" +:+ domain +:+ "/passive_dns" in
  match (otxFetch ctx (replies remote) url).1 with
  | Err err => Err ("otx fetch for " +:+ domain +:+ ": " +:+ err)
  | Ok body => parseOTXResponse remote body domain
  end.

(** *** brute.go *)

(** [words] is [wordlist.Subdomains()], the embedded list. *)
Definition BruteEnumerate (words : list string) (lookupHost : nat -> string -> LookupErr + list string)
    (order : list nat) (ctx : Ctx) (domain : string) (concurrency : Z)
    : result (list string) :=
  if len words =? 0 then Err "empty subdomain wordlist"
  else
    let work := (fun w => w +:+ "." +:+ domain) <$> words in
    Ok (pool ctx concurrency order work (fun i subdomain =>
          match lookupHost i subdomain with
          | inl _ => None
          | inr ips => if len ips =? 0 then None else Some (GoStrings.ToLower subdomain)
          end)).

(** *** zonetransfer.go *)

(** One envelope of the channel [dns.Transfer.In] returns: its error, and
    the owner names of its records. *)
Record Envelope := { env_Error : option error; env_RR : list string }.

Record ZoneNet := {
  (** [net.DefaultResolver.LookupNS]: the [Host] of each NS record. *)
  LookupNS : string -> result (list string);
  (** [transfer.In] of the [n]-th attempt, for a domain at a nameserver: an
      error, or what the channel delivers. *)
  TransferIn : nat -> string -> string -> result (list Envelope)
}.

Record ZoneTransferResult := {
  Transfers : list ZoneTransfer;
  Hostnames : list string
}.

Definition axfrName (domain name : string) : option string :=
  let name := GoStrings.ToLower (GoStrings.TrimSuffix name ".") in
  let domainSuffix := "." +:+ GoStrings.ToLower domain in
  if String.eqb name "" then None
  else if negb (GoStrings.HasSuffix name domainSuffix)
          && negb (String.eqb name (GoStrings.ToLower domain))
  then None
  else Some name.

(** The loop of [attemptAXFR] over the envelopes, [hostnames] and [seen]
    in hand. *)
Fixpoint readEnvelopes (domain nameserver : string) (envelopes : list Envelope)
    (acc : gset string * list string) : result (list string) :=
  match envelopes with
  | [] => Ok acc.2
  | envelope :: rest =>
      match env_Error envelope with
      | Some err => Err ("AXFR envelope from " +:+ nameserver +:+ ": " +:+ err)
      | None =>
          readEnvelopes domain nameserver rest
            (fold_left appendUnseen (omap (axfrName domain) (env_RR envelope)) acc)
      end
  end.

Definition attemptAXFR (zn : ZoneNet) (n : nat) (domain nameserver : string)
    : result (list string) :=
  match TransferIn zn n domain nameserver with
  | Err err => Err ("AXFR to " +:+ nameserver +:+ ": " +:+ err)
  | Ok envelopes => readEnvelopes domain nameserver envelopes (∅, [])
  end.

(** The body of the loop of [AttemptZoneTransfers] for one nameserver, the
    [n]-th: the entry it records, and the host names it harvests. *)
Definition tryNameserver (zn : ZoneNet) (domain : string) (n : nat) (ns : string)
    : ZoneTransfer * list string :=
  let nsHost := GoStrings.TrimSuffix ns "." in
  match attemptAXFR zn n domain nsHost with
  | Err _ =>
      (* AXFR failure is expected for most domains: not an error. *)
      ({| zt_Nameserver := nsHost; zt_Success := false; zt_Records := 0 |}, [])
  | Ok hostnames =>
      ({| zt_Nameserver := nsHost; zt_Success := true; zt_Records := len hostnames |},
       hostnames)
  end.

(** The loop of [AttemptZoneTransfers] over the nameservers still to try,
    with [result] and [seen] in hand. *)
Fixpoint tryNameservers (zn : ZoneNet) (ctx : Ctx) (domain : string)
    (nameservers : list string) (transfers : list ZoneTransfer)
    (acc : gset string * list string) : option ZoneTransferResult * option error :=
  match nameservers with
  | [] => (Some {| Transfers := transfers; Hostnames := acc.2 |}, None)
  | ns :: rest =>
      (* Respect context cancellation between nameserver attempts. *)
      let (done, ctx) := poll ctx in
      if done then (Some {| Transfers := transfers; Hostnames := acc.2 |}, Some ctxErr)
      else
        let (transfer, hostnames) := tryNameserver zn domain (length transfers) ns in
        tryNameservers zn ctx domain rest (transfers ++ [transfer])
                       (fold_left appendUnseen hostnames acc)
  end.

Definition AttemptZoneTransfers (zn : ZoneNet) (ctx : Ctx) (domain : string)
    : option ZoneTransferResult * option error :=
  match LookupNS zn domain with
  | Err err => (None, Some ("NS lookup for " +:+ domain +:+ ": " +:+ err))
  | Ok nameservers =>
      if len nameservers =? 0 then (None, Some ("no NS records for " +:+ domain))
      else tryNameservers zn ctx domain nameservers [] (∅, [])
  end.

(** *** stages.go *)

(** The subdomain sources, by the goroutines [Enumerate] starts. *)
Inductive Source := crtsh | brute | hackertarget | otx | axfr.

#[global] Instance Source_eq_dec : EqDecision Source.
Proof. solve_decision. Defined.

(** The name a source leaves in the provenance of the hosts it finds. *)
Definition sourceName (src : Source) : string :=
  match src with
  | crtsh => "crt.sh"
  | brute => "brute"
  | hackertarget => "hackertarget"
  | otx => "otx"
  | axfr => "axfr"
  end.

(** The [Enumerator] struct.  [Progress] is nil, or the reporter, kept by
    the calls it has received. *)
Record Enumerator := {
  UserAgent : string;
  Progress : option (list Event);
  AXFR : bool;
  zoneTransfers : list ZoneTransfer;
  warnings : list string
}.

(** Everything outside the program that a run depends on: the embedded
    data, the network, the scheduler and the clock. *)
Record Env := {
  env_words : list string;
  env_fingerprints : list FingerprintRule;
  env_Compile : string -> option (string -> bool);
  env_crtsh : Remote;
  env_hackertarget : Remote;
  env_otx : Remote;
  env_bruteLookup : nat -> string -> LookupErr + list string;
  env_zone : ZoneNet;
  env_dns : DNS;
  env_dial : nat -> string -> bool;
  env_Do : nat -> string -> option Response;
  (** how the goroutine of each source observes the context of the run *)
  env_observe : Ctx -> Source -> Ctx;
  (** the order in which the source goroutines take the mutex *)
  env_sources : list Source;
  env_bruteOrder : list nat;
  env_resolveOrder : list nat;
  env_scanOrder : list nat;
  env_probeOrder : list nat;
  (** the [n]-th reading of [time.Now()] *)
  env_time : nat -> Z
}.

Definition report (ev : Event) (e : Enumerator) : Enumerator :=
  {| UserAgent := UserAgent e;
     Progress := (fun calls => calls ++ [ev]) <$> Progress e;
     AXFR := AXFR e; zoneTransfers := zoneTransfers e; warnings := warnings e |}.

Definition addWarning (w : string) (e : Enumerator) : Enumerator :=
  {| UserAgent := UserAgent e; Progress := Progress e; AXFR := AXFR e;
     zoneTransfers := zoneTransfers e; warnings := warnings e ++ [w] |}.

Definition setZoneTransfers (zts : list ZoneTransfer) (e : Enumerator) : Enumerator :=
  {| UserAgent := UserAgent e; Progress := Progress e; AXFR := AXFR e;
     zoneTransfers := zts; warnings := warnings e |}.

(** [for _, h := range hosts { hostSources[h] = append(hostSources[h], name) }] *)
Definition addHosts (name : string) (hosts : list string)
    (hostSources : gmap string (list string)) : gmap string (list string) :=
  fold_left (fun m h => <[h := default [] (m !! h) ++ [name]]> m) hosts hostSources.

Definition subdomainsMsg (name : string) (hosts : list string) : string :=
  name +:+ ": " +:+ GoStrings.itoa (len hosts) +:+ " subdomains".

(** The goroutine of one source, from the answer of the source on. *)
Definition runSource (env : Env) (ctx : Ctx) (domain : string) (bruteConcurrency : Z)
    (src : Source) (st : gmap string (list string) * Enumerator)
    : gmap string (list string) * Enumerator :=
  let (hostSources, e) := st in
  let ctx := env_observe env ctx src in
  match src with
  | crtsh =>
      match CrtshEnumerate (env_crtsh env) ctx domain (UserAgent e) with
      | Err err => (hostSources, report (Warn ("crt.sh: " +:+ err)) e)
      | Ok hosts =>
          (addHosts "crt.sh" hosts hostSources,
           report (Detail (subdomainsMsg "crt.sh" hosts)) e)
      end
  | brute =>
      match BruteEnumerate (env_words env) (env_bruteLookup env) (env_bruteOrder env)
                           ctx domain bruteConcurrency with
      | Err err => (hostSources, report (Warn ("brute-force: " +:+ err)) e)
      | Ok hosts =>
          (addHosts "brute" hosts hostSources,
           report (Detail (subdomainsMsg "brute-force" hosts)) e)
      end
  | hackertarget =>
      match HackertargetEnumerate (env_hackertarget env) ctx domain (UserAgent e) with
      | Err err =>
          (hostSources,
           addWarning ("hackertarget: " +:+ err) (report (Warn ("hackertarget: " +:+ err)) e))
      | Ok hosts =>
          (addHosts "hackertarget" hosts hostSources,
           report (Detail (subdomainsMsg "hackertarget" hosts)) e)
      end
  | otx =>
      match OTXEnumerate (env_otx env) ctx domain (UserAgent e) with
      | Err err =>
          (hostSources, addWarning ("otx: " +:+ err) (report (Warn ("otx: " +:+ err)) e))
      | Ok hosts =>
          (addHosts "otx" hosts hostSources,
           report (Detail (subdomainsMsg "otx" hosts)) e)
      end
  | axfr =>
      (* DNS zone transfer (opt-in). *)
      if negb (AXFR e) then (hostSources, e)
      else
        match AttemptZoneTransfers (env_zone env) ctx domain with
        | (_, Some err) =>
            (hostSources,
             addWarning ("zone transfer: " +:+ err) (report (Warn ("zone transfer: " +:+ err)) e))
        | (None, None) => (hostSources, e) (* never returned by [AttemptZoneTransfers] *)
        | (Some ztResult, None) =>
            let e := setZoneTransfers (Transfers ztResult) e in
            let hostSources := addHosts "axfr" (Hostnames ztResult) hostSources in
            (* Add warning for successful zone transfers. *)
            let successCount :=
              len (filter (fun zt => zt_Success zt = true) (Transfers ztResult)) in
            let e :=
              if 0 <? successCount
              then addWarning ("zone transfer enabled on " +:+ GoStrings.itoa successCount +:+
                               " of " +:+ GoStrings.itoa (len (Transfers ztResult)) +:+
                               " nameservers") e
              else e in
            (hostSources,
             report (Detail ("zone transfer: " +:+ GoStrings.itoa (len (Transfers ztResult)) +:+
                             " nameservers tested, " +:+ GoStrings.itoa successCount +:+
                             " vulnerable")) e)
        end
  end.

(** What the enumerator keeps of the calls on its reporter and of its
    warnings only grows. *)
Definition grows (e e' : Enumerator) : Prop :=
  UserAgent e' = UserAgent e /\ AXFR e' = AXFR e /\
  (forall w, w ∈ warnings e -> w ∈ warnings e') /\
  (forall log, Progress e = Some log -> exists more, Progress e' = Some (log ++ more)).

(** The hosts that the goroutine of a source merges into [hostSources]:
    those its source returns, when it returns without error. *)
Definition found (env : Env) (ctx : Ctx) (domain : string) (bruteConcurrency : Z)
    (userAgent : string) (axfrOn : bool) (src : Source) : list string :=
  let ctx := env_observe env ctx src in
  match src with
  | crtsh =>
      match CrtshEnumerate (env_crtsh env) ctx domain userAgent with
      | Ok hosts => hosts
      | Err _ => []
      end
  | brute =>
      match BruteEnumerate (env_words env) (env_bruteLookup env) (env_bruteOrder env)
                           ctx domain bruteConcurrency with
      | Ok hosts => hosts
      | Err _ => []
      end
  | hackertarget =>
      match HackertargetEnumerate (env_hackertarget env) ctx domain userAgent with
      | Ok hosts => hosts
      | Err _ => []
      end
  | otx =>
      match OTXEnumerate (env_otx env) ctx domain userAgent with
      | Ok hosts => hosts
      | Err _ => []
      end
  | axfr =>
      if axfrOn then
        match AttemptZoneTransfers (env_zone env) ctx domain with
        | (Some ztResult, None) => Hostnames ztResult
        | _ => []
        end
      else []
  end.

Definition deduplicateSources (ss : list string) : list string :=
  (fold_left appendUnseen ss (∅, [])).2.

Definition hostLe (a b : Subdomain) : Prop :=
  String.leb (sd_Host a) (sd_Host b) = true.

#[global] Instance hostLe_dec a b : Decision (hostLe a b).
Proof. unfold hostLe. apply _. Defined.

(** The brute-force sweep gets half of the budget, and one worker at least. *)
Definition bruteConcurrency (concurrency : Z) : Z :=
  let c := concurrency `quot` 2 in if c <? 1 then 1 else c.

(** [Enumerate] discovers subdomains via crt.sh, DNS brute-force,
    HackerTarget, AlienVault OTX, and optionally DNS zone transfers, all in
    parallel.  Each goroutine waits for its source and then, under the one
    mutex, merges what it found; [env_sources] is the order in which they
    get there. *)
Definition Enumerate (env : Env) (ctx : Ctx) (domain : string) (concurrency : Z)
    (e : Enumerator) : (list Subdomain * option error) * Enumerator :=
  (* Always include the root domain. *)
  let hostSources : gmap string (list string) := {[ GoStrings.ToLower domain := ["root"] ]} in
  let (hostSources, e) :=
    fold_left (fun st src => runSource env ctx domain (bruteConcurrency concurrency) src st)
              (env_sources env) (hostSources, e) in
  if Z.of_nat (size hostSources) =? 0
  then (([], Some ("all subdomain sources failed for " +:+ domain)), e)
  else
    (* Convert map to sorted slice. *)
    let subdomains :=
      (fun '(host, sources) =>
         {| sd_Host := host; sd_Sources := deduplicateSources sources |})
        <$> map_to_list hostSources in
    ((merge_sort hostLe subdomains, None), e).

(** The goroutines a run of [Enumerate] starts. *)
Definition started (e : Enumerator) : list Source :=
  [crtsh; brute; hackertarget; otx] ++ (if AXFR e then [axfr] else []).

(** The state of the stage values wired up in [main]: the enumerator, the
    probe data kept by the [Prober] (which is given the user agent of the
    enumerator), and how often the clock was read. *)
Record World := {
  w_enumerator : Enumerator;
  w_ProbeData : gmap string probeData;
  w_clock : nat
}.

Definition stages (env : Env) : Stages World :=
  {| engine.Enumerator :=
       {| engine.Enumerate := fun ctx domain concurrency w =>
            let (r, e) := Enumerate env ctx domain concurrency (w_enumerator w) in
            (r, {| w_enumerator := e; w_ProbeData := w_ProbeData w; w_clock := w_clock w |});
          GetZoneTransfers := Some (fun w => zoneTransfers (w_enumerator w));
          GetWarnings := Some (fun w => warnings (w_enumerator w)) |};
     Resolver := fun ctx hosts concurrency w =>
       (DNSResolve (env_dns env) (env_resolveOrder env) ctx hosts concurrency, w);
     Scanner := fun ctx dnsRecords ports concurrency timeout w =>
       (PortScan (env_dial env) (env_scanOrder env) ctx dnsRecords ports concurrency timeout, w);
     Prober := fun ctx targets concurrency timeout w =>
       match HTTPProbe (env_Do env) (env_probeOrder env) ctx targets concurrency timeout
                       (UserAgent (w_enumerator w)) with
       | (_, Some err) => (([], Some err), w)
       | (result, None) =>
           ((Services result, None),
            {| w_enumerator := w_enumerator w; w_ProbeData := ProbeData result;
               w_clock := w_clock w |})
       end;
     Fingerprinter := fun services w =>
       (FingerprintServices (loadFingerprints (env_Compile env) (env_fingerprints env))
                            services (w_ProbeData w), w);
     Now := fun w =>
       (env_time env (w_clock w),
        {| w_enumerator := w_enumerator w; w_ProbeData := w_ProbeData w;
           w_clock := S (w_clock w) |}) |}.

(** The same outside world, with the source goroutines taking the mutex in
    another order. *)
Definition withSources (order : list Source) (env : Env) : Env :=
  {| env_words := env_words env; env_fingerprints := env_fingerprints env;
     env_Compile := env_Compile env; env_crtsh := env_crtsh env;
     env_hackertarget := env_hackertarget env; env_otx := env_otx env;
     env_bruteLookup := env_bruteLookup env; env_zone := env_zone env;
     env_dns := env_dns env; env_dial := env_dial env; env_Do := env_Do env;
     env_observe := env_observe env; env_sources := order;
     env_bruteOrder := env_bruteOrder env; env_resolveOrder := env_resolveOrder env;
     env_scanOrder := env_scanOrder env; env_probeOrder := env_probeOrder env;
     env_time := env_time env |}.

End recon.

(** ** Package [bufio] of the Go library: a [Scanner] over a string *)
Module bufio.

Definition MaxScanTokenSize : N := 64 * 1024.

(** [dropCR] drops a terminal carriage return from the line. *)
Fixpoint dropCR (line : string) : string :=
  match line with
  | EmptyString => EmptyString
  | String c EmptyString => if Ascii.eqb c (ascii_of_N 13) then EmptyString else line
  | String c r => String c (dropCR r)
  end.

(** The tokens that [Scan] delivers with the default split function,
    [ScanLines], reading the rest [s] of the input with the bytes [line] of
    the current line in its buffer: the lines without their end-of-line
    marker, the last one also when it has none, unless it is empty.  A line
    that does not fit into the buffer stops the scan ([ErrTooLong]). *)
Fixpoint scan (s : string) (line : string) : list string :=
  match s with
  | EmptyString => if String.eqb line "" then [] else [dropCR line]
  | String c r =>
      if Ascii.eqb c GoStrings.newline then dropCR line :: scan r ""
      else
        let line := line +:+ String c "" in
        if (MaxScanTokenSize <=? N.of_nat (String.length line))%N then []
        else scan r line
  end.

Definition Lines (data : string) : list string := scan data "".

End bufio.

(** ** Package [wordlist] *)
Module wordlist.

(** [Subdomains] returns the embedded subdomain wordlist: lines are trimmed
    and empty lines and comments are skipped.  [file] is what
    [subdomainsFS.ReadFile] returns, the content or an error. *)
Definition Subdomains (file : result string) : list string :=
  match file with
  | Err _ => []
  | Ok data =>
      omap (fun text =>
              let line := GoStrings.TrimSpace text in
              if String.eqb line "" || GoStrings.HasPrefix line "#" then None
              else Some line)
           (bufio.Lines data)
  end.

End wordlist.

(** ** Package [ports] *)
Module ports.

(** The list as the source file gives it, before [init] runs. *)
Definition Top100_literal : list Z :=
  [ 21; 22; 23; 25; 26; 53; 80; 81; 110; 111;
    113; 135; 139; 143; 179; 199; 443; 445; 465; 514;
    515; 548; 554; 587; 631; 636; 646; 993; 995; 1025;
    1026; 1027; 1028; 1029; 1110; 1433; 1720; 1723; 1755; 1900;
    2000; 2001; 2049; 2121; 2717; 3000; 3128; 3306; 3389; 3986;
    4899; 5000; 5009; 5051; 5060; 5101; 5190; 5357; 5432; 5631;
    5666; 5800; 5900; 6000; 6001; 6646; 7070; 8000; 8008; 8009;
    8080; 8081; 8443; 8888; 9090; 9100; 9999; 10000; 32768; 49152;
    49153; 49154; 49155; 49156; 49157; 1080; 1443; 2082; 2083; 2086;
    2087; 4443; 6379; 6443; 8443; 8880; 9200; 9443; 27017; 27018 ].

(** [if !seen[p] { seen[p] = true; deduped = append(deduped, p) }] *)
Definition appendUnseen (acc : gset Z * list Z) (p : Z) : gset Z * list Z :=
  if decide (p ∈ acc.1) then acc else ({[p]} ∪ acc.1, acc.2 ++ [p]).

(** [if deduped[j] < deduped[i] { deduped[i], deduped[j] = deduped[j], deduped[i] }];
    both indices are within the slice wherever the loops get to. *)
Definition exchange (i j : nat) (deduped : list Z) : list Z :=
  match deduped !! i, deduped !! j with
  | Some di, Some dj => if dj <? di then <[i := dj]> (<[j := di]> deduped) else deduped
  | _, _ => deduped
  end.

(** [for j := i + 1; j < len(deduped); j++] *)
Definition inner (i : nat) (deduped : list Z) : list Z :=
  fold_left (fun d j => exchange i j d) (seq (S i) (length deduped - S i)) deduped.

(** [init], from the list the package variable holds to the one it leaves
    there. *)
Definition init (Top100 : list Z) : list Z :=
  (* Deduplicate. *)
  let deduped := (fold_left appendUnseen Top100 (∅, [])).2 in
  (* Sort. *)
  fold_left (fun d i => inner i d) (seq 0 (length deduped)) deduped.

Definition Top100 : list Z := init Top100_literal.

End ports.

(** ** Package [output]: the table of HTTP services *)
Module output.
Import engine.

(** [truncate]; [None] is the panic of a slice bound below zero. *)
Definition truncate (s : string) (max : Z) : option string :=
  if Z.of_nat (String.length s) <=? max then Some s
  else if max - 3 <? 0 then None
  else Some (GoStrings.takeN (Z.to_nat (max - 3)) s +:+ "...").

Definition containsStr (slice : list string) (s : string) : bool :=
  existsb (fun v => String.eqb v s) slice.

Record hostRow := {
  host : string;
  ip : string;
  ports : list string;
  techs : list string;
  cdns : list string;
  title : string;
  status : Z
}.

(** The body of the loop over [svc.Technologies]. *)
Definition addTechnology (row : hostRow) (t : Technology) : hostRow :=
  if String.eqb (tech_Category t) "cdn-waf" then
    if negb (containsStr (cdns row) (tech_Name t))
    then {| host := host row; ip := ip row; ports := ports row; techs := techs row;
            cdns := cdns row ++ [tech_Name t]; title := title row; status := status row |}
    else row
  else
    if negb (containsStr (techs row) (tech_Name t))
    then {| host := host row; ip := ip row; ports := ports row;
            techs := techs row ++ [tech_Name t];
            cdns := cdns row; title := title row; status := status row |}
    else row.

(** The body of the loop over [result.HTTPServices], on [hostMap] and
    [hostOrder]. *)
Definition addService (st : gmap string hostRow * list string) (svc : HTTPService)
    : gmap string hostRow * list string :=
  let (hostMap, hostOrder) := st in
  let (row, hostOrder) :=
    match hostMap !! svc_Host svc with
    | Some row => (row, hostOrder)
    | None =>
        ({| host := svc_Host svc; ip := svc_IP svc; ports := []; techs := []; cdns := [];
            title := ""; status := 0 |},
         hostOrder ++ [svc_Host svc])
    end in
  let portStr := GoStrings.itoa (svc_Port svc) in
  let row :=
    if negb (containsStr (ports row) portStr)
    then {| host := host row; ip := ip row; ports := ports row ++ [portStr];
            techs := techs row; cdns := cdns row; title := title row; status := status row |}
    else row in
  let row := fold_left addTechnology (svc_Technologies svc) row in
  let row :=
    if String.eqb (title row) "" && negb (String.eqb (svc_Title svc) "")
    then {| host := host row; ip := ip row; ports := ports row; techs := techs row;
            cdns := cdns row; title := svc_Title svc; status := status row |}
    else row in
  let row :=
    if status row =? 0
    then {| host := host row; ip := ip row; ports := ports row; techs := techs row;
            cdns := cdns row; title := title row; status := svc_StatusCode svc |}
    else row in
  (<[svc_Host svc := row]> hostMap, hostOrder).

(** The cells of one table row. *)
Definition cells (row : hostRow) : option (list string) :=
  let techStr := GoStrings.Join (techs row) ", " in
  let techStr :=
    if 0 <? len (cdns row) then
      let cdnStr := GoStrings.Join (cdns row) ", " in
      if negb (String.eqb techStr "") then techStr +:+ " (" +:+ cdnStr +:+ ")"
      else "(" +:+ cdnStr +:+ ")"
    else techStr in
  title ← truncate (title row) 30;
  technologies ← truncate techStr 40;
  Some [host row; ip row; GoStrings.Join (ports row) ","; technologies; title].

Definition rowLe (a b : list string) : Prop :=
  String.leb (default "" (a !! 0%nat)) (default "" (b !! 0%nat)) = true.

#[global] Instance rowLe_dec a b : Decision (rowLe a b).
Proof. unfold rowLe. apply _. Defined.

(** What [WriteTable] renders: the notice that there is nothing to show,
    or the rows it hands to the table renderer of the chosen style. *)
Inductive Table :=
| NoServices
| Rows (rows : list (list string)).

(** [WriteTable], up to the rendering; [None] is a panic. *)
Definition WriteTable (result : ScanResult) : option Table :=
  if len (HTTPServices result) =? 0 then Some NoServices
  else
    (* Group services by host for compact display. *)
    let (hostMap, hostOrder) := fold_left addService (HTTPServices result) (∅, []) in
    (* Build table rows. *)
    rows ← mapM (fun host => row ← hostMap !! host; cells row) hostOrder;
    (* Sort by host. *)
    Some (Rows (merge_sort rowLe rows)).

End output.

(** ** Package [main]: the command line *)
Module cmd.
Import engine.

(** The errors of [parsePorts], by their format and argument. *)
Inductive portsError :=
| invalidPort (p : string)
| outOfRange (port : Z)
| noValidPorts.

(** The loop of [parsePorts] over the parts still to read, [seen] and
    [result] in hand. *)
Fixpoint parseParts (parts : list string) (seen : gset Z) (result : list Z)
    : portsError + list Z :=
  match parts with
  | [] => inr result
  | p :: parts =>
      let p := GoStrings.TrimSpace p in
      if String.eqb p "" then parseParts parts seen result
      else
        match strconv.Atoi p with
        | None => inl (invalidPort p)
        | Some port =>
            if (port <? 1) || (65535 <? port) then inl (outOfRange port)
            else if decide (port ∈ seen) then parseParts parts seen result
            else parseParts parts ({[port]} ∪ seen) (result ++ [port])
        end
  end.

(** [parsePorts] parses a comma-separated list of port numbers. *)
Definition parsePorts (s : string) : portsError + list Z :=
  match parseParts (GoStrings.Split s GoStrings.comma) ∅ [] with
  | inl err => inl err
  | inr result => if len result =? 0 then inl noValidPorts else inr result
  end.

(** The errors with which the command returns before the pipeline runs. *)
Inductive usageError :=
| domainRequired
| invalidPorts (err : portsError).

(** What the command makes of its argument and flags before it runs the
    pipeline: the configuration of the run. *)
Definition config (arg portsList : string) (timeout concurrency : Z) (version : string)
    : usageError + Config :=
  let domain := GoStrings.ToLower (GoStrings.TrimSpace arg) in
  if String.eqb domain "" then inl domainRequired
  else
    (* Parse custom ports if provided. *)
    let scanPorts :=
      if negb (String.eqb portsList "") then parsePorts portsList else inr ports.Top100 in
    match scanPorts with
    | inl err => inl (invalidPorts err)
    | inr scanPorts =>
        let userAgent := "sweep/" +:+ version +:+ " (+https://github.com/vulnverified/sweep)" in
        inr {| cfg_Target := domain; cfg_Ports := scanPorts; cfg_Timeout := timeout;
               cfg_Concurrency := concurrency; cfg_UserAgent := userAgent |}
    end.

End cmd.

(** ** Concrete runs

    Inputs on which the embedded functions are evaluated below. *)
Module fixtures.
Import engine recon.

(** A network on which every call fails, as it does once the context of
    the run is cancelled. *)
Definition deadRemote : Remote :=
  {| replies := fun _ => TransportError "context canceled";
     unmarshal := fun _ => Err "unexpected end of JSON input" |}.

Definition deadEnv : Env :=
  {| env_words := ["www"; "mail"];
     env_fingerprints := [];
     env_Compile := fun _ => None;
     env_crtsh := deadRemote;
     env_hackertarget := deadRemote;
     env_otx := deadRemote;
     env_bruteLookup := fun _ _ => inl (PlainError "operation was canceled");
     env_zone := {| LookupNS := fun _ => Err "operation was canceled";
                    TransferIn := fun _ _ _ => Err "operation was canceled" |};
     env_dns := {| LookupCNAME := fun _ _ => None;
                   LookupHost := fun _ _ => inl (PlainError "operation was canceled") |};
     env_dial := fun _ _ => false;
     env_Do := fun _ _ => None;
     env_observe := fun ctx _ => ctx;
     env_sources := [crtsh; brute; hackertarget; otx];
     env_bruteOrder := []; env_resolveOrder := []; env_scanOrder := [];
     env_probeOrder := [];
     env_time := Z.of_nat |}.

(** The stage values as [main] wires them up, before the run. *)
Definition world0 : World :=
  {| w_enumerator := {| UserAgent := "sweep/dev"; Progress := Some []; AXFR := false;
                        zoneTransfers := []; warnings := [] |};
     w_ProbeData := ∅; w_clock := 0 |}.

Definition cfg0 : Config :=
  {| cfg_Target := "example.com"; cfg_Ports := [80; 443]; cfg_Timeout := 2;
     cfg_Concurrency := 25; cfg_UserAgent := "sweep/dev" |}.

(** The mock stages of [TestEngine_NoLiveHosts_SkipsLaterStages]. *)
Definition noLiveHosts : Stages unit :=
  {| engine.Enumerator :=
       {| engine.Enumerate := fun _ _ _ w =>
            (([{| sd_Host := "dead.example.com"; sd_Sources := ["brute"] |}], None), w);
          GetZoneTransfers := Some (fun _ => []);
          GetWarnings := Some (fun _ => []) |};
     Resolver := fun _ _ _ w => (([], [], None), w);
     Scanner := fun _ _ _ _ _ w =>
       (([{| pr_Host := "should-not-be-called"; pr_IP := "0.0.0.0"; pr_Port := 80 |}], None), w);
     Prober := fun _ _ _ _ w => (([], None), w);
     Fingerprinter := fun services w => (services, w);
     Now := fun w => (0, w) |}.

Definition cfgTest : Config :=
  {| cfg_Target := "example.com"; cfg_Ports := [80]; cfg_Timeout := 1;
     cfg_Concurrency := 5; cfg_UserAgent := "" |}.

(** An HTTP server that speaks plain HTTP only and answers 400. *)
Definition badRequest : Response :=
  {| resp_StatusCode := 400; resp_Header := ∅; resp_ContentLength := 0;
     resp_Body := ""; resp_Title := None; resp_Cookies := [] |}.

Definition plainOnly (url : string) : option Response :=
  if GoStrings.HasPrefix url "http://" then Some badRequest else None.

Definition port443 : PortResult :=
  {| pr_Host := "www.example.com"; pr_IP := "1.2.3.5"; pr_Port := 443 |}.

Definition port8080 : PortResult :=
  {| pr_Host := "www.example.com"; pr_IP := "1.2.3.5"; pr_Port := 8080 |}.

(** Two nameservers that both refuse the transfer. *)
Definition refusing : ZoneNet :=
  {| LookupNS := fun _ => Ok ["ns1.example.com."; "ns2.example.com."];
     TransferIn := fun _ _ _ => Err "dns: bad xfr rcode: 5" |}.

(** A signature that asks for the mere presence of a header, as the
    decoded rule table states it, and a response that carries that header
    with an empty value. *)
Definition cfRay : FingerprintRule :=
  {| rule_Name := "Cloudflare"; rule_Category := "cdn-waf";
     rule_Headers := [{| hm_Name := "CF-RAY"; hm_Pattern := ""; regex := None |}];
     rule_Body := []; rule_Cookies := [] |}.

Definition emptyCfRay : probeData :=
  {| headers := {[ "cf-ray" := "" ]}; body := ""; cookies := [] |}.

(** The scenarios of the specification: three sources report hosts, OTX
    is rate limited; and a resolver with one live host, one abandoned
    Heroku alias and one alias to an unlisted service. *)
Definition liveEnv : Env :=
  {| env_words := ["www"; "mail"];
     env_fingerprints := [];
     env_Compile := fun _ => None;
     env_crtsh := {| replies := fun _ => HTTPReply 200 (Ok "[...]");
                     unmarshal := fun _ => Ok ["WWW.example.com"] |};
     env_hackertarget := {| replies := fun _ => HTTPReply 200 (Ok "api.example.com,5.6.7.8");
                            unmarshal := fun _ => Err "" |};
     env_otx := {| replies := fun _ => HTTPReply 429 (Ok ""); unmarshal := fun _ => Err "" |};
     env_bruteLookup := fun i _ =>
       if (i =? 0)%nat then inr ["1.2.3.5"] else inl (DNSError true "no such host");
     env_zone := refusing;
     env_dns := {| LookupCNAME := fun _ _ => None;
                   LookupHost := fun _ _ => inl (DNSError true "no such host") |};
     env_dial := fun _ _ => false;
     env_Do := fun _ _ => None;
     env_observe := fun ctx _ => ctx;
     env_sources := [crtsh; hackertarget; brute; otx];
     env_bruteOrder := [1; 0]%nat; env_resolveOrder := []; env_scanOrder := [];
     env_probeOrder := [];
     env_time := Z.of_nat |}.

Definition resolver : DNS :=
  {| LookupCNAME := fun _ host =>
       if String.eqb host "old.example.com" then Some "Old-App.herokuapp.com."
       else if String.eqb host "cdn.example.com" then Some "cdn.someother.net."
       else if String.eqb host "ok.example.com" then Some "ok.herokuapp.com."
       else None;
     LookupHost := fun _ host =>
       if String.eqb host "ok.example.com" then inr ["1.2.3.4"; "1.2.3.4"]
       else inl (DNSError true "no such host") |}.

Definition hosts3 : list string :=
  ["old.example.com"; "cdn.example.com"; "ok.example.com"].

(** The nginx signature, with the matcher its pattern compiles to. *)
Definition nginx : FingerprintRule :=
  {| rule_Name := "nginx"; rule_Category := "web-server";
     rule_Headers :=
       [{| hm_Name := "Server"; hm_Pattern := "nginx";
           regex := Some (fun v => GoStrings.Contains (GoStrings.ToLower v) "nginx") |}];
     rule_Body := []; rule_Cookies := [] |}.

Definition nginxData : probeData :=
  {| headers := {[ "server" := "nginx/1.24.0" ]}; body := "<html></html>"; cookies := [] |}.

(** The mock enumerator of [TestEngine_ContextCancellation]: it gives up
    with [context.Canceled]. *)
Definition givesUp : Stages unit :=
  {| engine.Enumerator :=
       {| engine.Enumerate := fun _ _ _ w => (([], Some "context canceled"), w);
          GetZoneTransfers := Some (fun _ => []);
          GetWarnings := Some (fun _ => []) |};
     Resolver := fun _ _ _ w => (([], [], None), w);
     Scanner := fun _ _ _ _ _ w => (([], None), w);
     Prober := fun _ _ _ _ w => (([], None), w);
     Fingerprinter := fun services w => (services, w);
     Now := fun w => (0, w) |}.

(** Two nameservers, of which the second allows the transfer of the zone. *)
Definition leaking : ZoneNet :=
  {| LookupNS := fun _ => Ok ["ns1.example.com."; "ns2.example.com."];
     TransferIn := fun _ _ nameserver =>
       if String.eqb nameserver "ns2.example.com"
       then Ok [{| env_Error := None;
                   env_RR := ["example.com."; "WWW.example.com."; "www.example.com.";
                              "mail.other.org."] |}]
       else Err "dns: bad xfr rcode: 5" |}.

Definition oneService : HTTPService :=
  {| svc_URL := "http://www.example.com:8080"; svc_Host := "www.example.com";
     svc_IP := "1.2.3.5"; svc_Port := 8080; svc_Scheme := "http";
     svc_StatusCode := 200; svc_Title := "Welcome"; svc_Server := "nginx/1.25";
     svc_ContentLength := 0;
     svc_Technologies := [{| tech_Name := "nginx"; tech_Category := "web-server" |}] |}.

End fixtures.

(** * Properties *)

Example ToLower_ex : GoStrings.ToLower "WWW.Example.COM" = "www.example.com".
Proof. reflexivity. Qed.
Example TrimSuffix_ex : GoStrings.TrimSuffix "ns1.example.com." "." = "ns1.example.com".
Proof. reflexivity. Qed.
Example TrimSpace_ex : GoStrings.TrimSpace "  a b  " = "a b".
Proof. reflexivity. Qed.
Example itoa_ex : GoStrings.itoa 429 = "429".
Proof. reflexivity. Qed.
Example Split_ex : GoStrings.Split "a,b,,c" GoStrings.comma = ["a"; "b"; ""; "c"].
Proof. reflexivity. Qed.

Import engine recon.

(** ** Takeover-candidate classification (dangling.go, dns.go) *)

Section Dangling.

Variables (host cname : string).

Lemma checkDangling_match (err : option LookupErr) :
  matchesPattern (GoStrings.ToLower cname) = true ->
  classifyDNSError err <> "" ->
  checkDangling host cname err =
    Some {| dc_Host := host; dc_CNAME := cname; dc_Status := classifyDNSError err |}.
Proof.
  intros Hm Hs. unfold checkDangling. rewrite Hm. simpl.
  destruct (String.eqb_spec (classifyDNSError err) ""); [contradiction | reflexivity].
Qed.

Lemma checkDangling_no_match (err : option LookupErr) :
  matchesPattern (GoStrings.ToLower cname) = false ->
  checkDangling host cname err = None.
Proof. intros Hm. unfold checkDangling. now rewrite Hm. Qed.

Lemma checkDangling_Some (err : option LookupErr) (d : DanglingCNAME) :
  checkDangling host cname err = Some d ->
  matchesPattern (GoStrings.ToLower cname) = true /\
  d = {| dc_Host := host; dc_CNAME := cname; dc_Status := classifyDNSError err |} /\
  (dc_Status d = "NXDOMAIN" \/ dc_Status d = "SERVFAIL") /\
  err <> None.
Proof.
  unfold checkDangling.
  destruct (matchesPattern _); simpl; [| discriminate].
  destruct (String.eqb_spec (classifyDNSError err) "") as [|Hne]; [discriminate |].
  intros [= <-]. simpl. split; [reflexivity | split; [reflexivity | split]].
  - destruct err as [[[] ?|text]|]; simpl in *; auto; [| congruence].
    destruct (GoStrings.Contains _ "no such host"); auto.
    destruct (GoStrings.Contains _ "server misbehaving"); auto; congruence.
  - intros ->. now apply Hne.
Qed.

End Dangling.

(** A host whose addresses resolve adds a record, never a candidate. *)
Lemma resolveHost_resolved (dns : DNS) (i : nat) (host : string) (ips : list string) :
  LookupHost dns i host = inr ips ->
  exists r, resolveHost dns i host = Some (inl r) /\ dr_Host r = host.
Proof. intros H. unfold resolveHost. rewrite H. eauto. Qed.

Lemma resolveHost_dangling (dns : DNS) (i : nat) (host : string) (d : DanglingCNAME) :
  resolveHost dns i host = Some (inr d) ->
  dc_Host d = host /\
  (exists err, LookupHost dns i host = inl err) /\
  matchesPattern (GoStrings.ToLower (dc_CNAME d)) = true /\
  (dc_Status d = "NXDOMAIN" \/ dc_Status d = "SERVFAIL").
Proof.
  unfold resolveHost. destruct (LookupHost dns i host) as [err|ips]; [| discriminate].
  match goal with |- context [checkDangling host ?c] => set (cn := c) end.
  destruct (negb (String.eqb cn "")); [| discriminate].
  destruct (checkDangling host cn (Some err)) as [d'|] eqn:Hd; [| discriminate].
  intros [= <-]. apply checkDangling_Some in Hd as (Hm & -> & Hs & _).
  simpl in *. eauto.
Qed.

Lemma elem_of_pool {A B} (ctx : Ctx) (concurrency : Z) (order : list nat)
    (work : list A) (job : nat -> A -> option B) (b : B) :
  b ∈ pool ctx concurrency order work job ->
  exists i x, i ∈ order /\ work !! i = Some x /\ job i x = Some b.
Proof.
  unfold pool. destruct (_ || _); [intros H; inversion H |].
  rewrite list_elem_of_omap. intros (i & Hi & Hb).
  destruct (work !! i) as [x|] eqn:Hx; [| discriminate]. simpl in Hb. eauto.
Qed.

Lemma elem_of_lefts {A B} (l : list (A + B)) (a : A) : a ∈ lefts l <-> inl a ∈ l.
Proof.
  unfold lefts. rewrite list_elem_of_omap. split.
  - intros ([a'|b'] & Hin & [= <-]). exact Hin.
  - intros Hin. exists (inl a). auto.
Qed.

Lemma elem_of_rights {A B} (l : list (A + B)) (b : B) : b ∈ rights l <-> inr b ∈ l.
Proof.
  unfold rights. rewrite list_elem_of_omap. split.
  - intros ([a'|b'] & Hin & [= <-]). exact Hin.
  - intros Hin. exists (inr b). auto.
Qed.

Lemma resolveHost_candidate (dns : DNS) (i : nat) (host : string) (d : DanglingCNAME) :
  resolveHost dns i host = Some (inr d) ->
  exists c, LookupCNAME dns i host = Some c /\
            dc_CNAME d = GoStrings.TrimSuffix (GoStrings.ToLower c) "." /\
            dc_CNAME d <> host /\ dc_CNAME d <> "".
Proof.
  unfold resolveHost. destruct (LookupHost dns i host) as [err|ips]; [|discriminate].
  destruct (LookupCNAME dns i host) as [c|]; [|discriminate].
  exists c. split; [reflexivity|].
  destruct (String.eqb_spec (GoStrings.TrimSuffix (GoStrings.ToLower c) ".") host) as [|Hne];
    [discriminate|].
  destruct (String.eqb_spec (GoStrings.TrimSuffix (GoStrings.ToLower c) ".") "") as [|Hne'];
    [discriminate|]. cbn [negb andb] in H.
  destruct (negb _); [|discriminate].
  destruct (checkDangling _ _ _) as [d'|] eqn:Hd; [|discriminate].
  injection H as <-. apply checkDangling_Some in Hd as (_ & -> & _). auto.
Qed.

Lemma rights_omap_cons {A B} (f : nat -> option (A + B)) (j : nat) (order : list nat) :
  rights (omap f (j :: order)) =
    match f j with
    | Some (inr b) => b :: rights (omap f order)
    | _ => rights (omap f order)
    end.
Proof. unfold rights. cbn. now destruct (f j) as [[a|b]|]. Qed.

(** Among the results of the work items, listed once each, those that only
    item [i] can produce: one if the item was worked on, none otherwise. *)
Lemma filter_rights_once {A B} (P : B -> Prop) `{!forall b, Decision (P b)}
    (f : nat -> option (A + B)) (order : list nat) (i : nat) (b0 : B) :
  NoDup order -> f i = Some (inr b0) -> P b0 ->
  (forall j b, j ∈ order -> f j = Some (inr b) -> P b -> j = i) ->
  filter P (rights (omap f order)) = if decide (i ∈ order) then [b0] else [].
Proof.
  intros Hnd Hi HP Honly. induction order as [|j order IH].
  - destruct (decide (i ∈ [])) as [[]%elem_of_nil|]; reflexivity.
  - apply NoDup_cons in Hnd as [Hj Hnd]. rewrite rights_omap_cons.
    specialize (IH Hnd (fun k b Hk => Honly k b (proj2 (elem_of_cons order k j) (or_intror Hk)))).
    destruct (decide (j = i)) as [->|Hne].
    + rewrite Hi, filter_cons_True, IH by exact HP.
      destruct (decide (i ∈ order)); [done|].
      destruct (decide (i ∈ i :: order)) as [_|Hn]; [reflexivity|].
      exfalso. apply Hn. now left.
    + assert (filter P (match f j with
                        | Some (inr b) => b :: rights (omap f order)
                        | _ => rights (omap f order)
                        end) = filter P (rights (omap f order))) as ->.
      { destruct (f j) as [[a|b]|] eqn:Hfj; try reflexivity.
        apply filter_cons_False. intros Hb. apply Hne.
        apply (Honly j b); [now left|exact Hfj|exact Hb]. }
      rewrite IH. destruct (decide (i ∈ order)) as [Hin|Hin];
        destruct (decide (i ∈ j :: order)) as [Hin'|Hin']; try reflexivity.
      * exfalso. apply Hin'. now right.
      * apply elem_of_cons in Hin' as [->|]; done.
Qed.

(** C3.  For a CNAME target whose lower-cased form ends in one of the
    [danglingPatterns], a failed lookup with [IsNotFound] yields the one
    candidate with status NXDOMAIN, and any other DNS failure the one with
    status SERVFAIL; a target that matches no pattern yields no candidate
    whatever the failure.  The worker loop of [DNSResolve] asks this
    classification for a host whose address lookup failed and whose CNAME
    is neither empty nor the host itself; a host whose addresses resolve
    adds a record and never a candidate, and every candidate [DNSResolve]
    returns comes from a work item whose lookup failed and whose CNAME
    matches the list.  Of the stage itself: when the hosts are distinct,
    the pool has a worker, the context is open and the item of the host is
    worked on, the candidates that [DNSResolve] returns hold exactly one
    for a host with a matching CNAME and a failed lookup, with status
    NXDOMAIN or SERVFAIL as the failure says, and no record for it; they
    hold none for a host whose CNAME matches no pattern, and none for a
    host whose addresses resolve. *)
Theorem dangling_classification (host cname : string) :
  (matchesPattern (GoStrings.ToLower cname) = true ->
   forall text,
     checkDangling host cname (Some (DNSError true text)) =
       Some {| dc_Host := host; dc_CNAME := cname; dc_Status := "NXDOMAIN" |} /\
     checkDangling host cname (Some (DNSError false text)) =
       Some {| dc_Host := host; dc_CNAME := cname; dc_Status := "SERVFAIL" |}) /\
  (matchesPattern (GoStrings.ToLower cname) = false ->
   forall err, checkDangling host cname err = None) /\
  (forall dns i c err,
     LookupCNAME dns i host = Some c ->
     GoStrings.TrimSuffix (GoStrings.ToLower c) "." = cname ->
     cname <> host -> cname <> "" ->
     LookupHost dns i host = inl err ->
     resolveHost dns i host = inr <$> checkDangling host cname (Some err)) /\
  (forall dns i ips, LookupHost dns i host = inr ips ->
     forall d, resolveHost dns i host <> Some (inr d)) /\
  (forall dns order ctx hosts concurrency d,
     d ∈ (DNSResolve dns order ctx hosts concurrency).1.2 ->
     exists i err, hosts !! i = Some (dc_Host d) /\
                   LookupHost dns i (dc_Host d) = inl err /\
                   matchesPattern (GoStrings.ToLower (dc_CNAME d)) = true) /\
  (forall dns order ctx hosts concurrency i c isNotFound text,
     0 < concurrency -> (poll ctx).1 = false ->
     NoDup order -> i ∈ order ->
     NoDup hosts -> hosts !! i = Some host ->
     LookupCNAME dns i host = Some c ->
     GoStrings.TrimSuffix (GoStrings.ToLower c) "." = cname ->
     cname <> host -> cname <> "" ->
     matchesPattern (GoStrings.ToLower cname) = true ->
     LookupHost dns i host = inl (DNSError isNotFound text) ->
     let out := DNSResolve dns order ctx hosts concurrency in
     filter (fun d => dc_Host d = host) out.1.2 =
       [{| dc_Host := host; dc_CNAME := cname;
           dc_Status := if isNotFound then "NXDOMAIN" else "SERVFAIL" |}] /\
     (forall r, r ∈ out.1.1 -> dr_Host r <> host)) /\
  (forall dns order ctx hosts concurrency,
     matchesPattern (GoStrings.ToLower cname) = false ->
     (forall j c, hosts !! j = Some host -> LookupCNAME dns j host = Some c ->
        GoStrings.TrimSuffix (GoStrings.ToLower c) "." = cname) ->
     filter (fun d => dc_Host d = host)
            (DNSResolve dns order ctx hosts concurrency).1.2 = []) /\
  (forall dns order ctx hosts concurrency,
     (forall j, hosts !! j = Some host -> exists ips, LookupHost dns j host = inr ips) ->
     filter (fun d => dc_Host d = host)
            (DNSResolve dns order ctx hosts concurrency).1.2 = []).
Proof.
  assert (forall dns order ctx hosts concurrency d,
            d ∈ (DNSResolve dns order ctx hosts concurrency).1.2 ->
            exists i, i ∈ order /\ hosts !! i = Some (dc_Host d) /\
                      resolveHost dns i (dc_Host d) = Some (inr d)) as Hfrom.
  { intros dns order ctx hosts concurrency d. unfold DNSResolve. simpl.
    rewrite elem_of_rights. intros Hin.
    apply elem_of_pool in Hin as (i & h & Hi & Hh & Hstep).
    pose proof (resolveHost_dangling _ _ _ _ Hstep) as (<- & _). eauto. }
  assert (forall l : list DanglingCNAME,
            (forall d, d ∈ l -> dc_Host d <> host) ->
            filter (fun d => dc_Host d = host) l = []) as Hnone.
  { intros l Hl. induction l as [|d l IH]; [reflexivity|].
    rewrite filter_cons_False by (apply Hl; now left).
    apply IH. intros d' Hd'. apply Hl. now right. }
  split; [| split; [| split; [| split; [| split; [| split; [| split]]]]]].
  - intros Hm text. split; now rewrite checkDangling_match.
  - intros Hm err. now apply checkDangling_no_match.
  - intros dns i c err Hc Hcname Hne Hne' Herr. unfold resolveHost.
    rewrite Hc, Herr, Hcname.
    destruct (String.eqb_spec cname host); [contradiction |].
    destruct (String.eqb_spec cname "") as [|Hne'']; [contradiction |]. cbn [negb andb].
    apply String.eqb_neq in Hne''. now rewrite Hne''.
  - intros dns i ips Hok d Hd.
    apply resolveHost_resolved in Hok as (r & Hr & _). congruence.
  - intros dns order ctx hosts concurrency d Hin.
    apply Hfrom in Hin as (i & _ & Hh & Hstep).
    apply resolveHost_dangling in Hstep as (_ & [err Herr] & Hm & _). eauto.
  - intros dns order ctx hosts concurrency i c isNotFound text Hc Hp Hnd Hi Hhosts Hh
      Hcn Hcname Hne Hne' Hm Herr out.
    assert (resolveHost dns i host =
            Some (inr {| dc_Host := host; dc_CNAME := cname;
                         dc_Status := if isNotFound then "NXDOMAIN" else "SERVFAIL" |}))
      as Hstep.
    { unfold resolveHost. rewrite Hcn, Herr, Hcname.
      destruct (String.eqb_spec cname host); [contradiction |].
      destruct (String.eqb_spec cname "") as [|Hne'']; [contradiction |]. cbn [negb andb].
      apply String.eqb_neq in Hne''. rewrite Hne''. cbn [negb].
      rewrite checkDangling_match; [now destruct isNotFound|exact Hm|].
      now destruct isNotFound. }
    split.
    + subst out. unfold DNSResolve, pool. cbn [fst snd].
      destruct (Z.leb_spec concurrency 0); [lia |]. rewrite Hp. cbn [orb].
      rewrite (filter_rights_once _ _ order i
                 {| dc_Host := host; dc_CNAME := cname;
                    dc_Status := if isNotFound then "NXDOMAIN" else "SERVFAIL" |}).
      * now destruct (decide (i ∈ order)).
      * exact Hnd.
      * rewrite Hh. exact Hstep.
      * reflexivity.
      * intros j d _ Hj Hd. destruct (hosts !! j) as [h|] eqn:Hhj; [|discriminate].
        cbn in Hj. apply resolveHost_dangling in Hj as (Hdh & _).
        rewrite Hd in Hdh. subst h. exact (NoDup_lookup _ _ _ _ Hhosts Hhj Hh).
    + intros r Hr Hhost. subst out. unfold DNSResolve in Hr. cbn [fst snd] in Hr.
      apply elem_of_lefts, elem_of_pool in Hr as (j & h & _ & Hhj & Hj).
      assert (dr_Host r = h) as Hrh.
      { unfold resolveHost in Hj. destruct (LookupHost dns j h).
        - destruct (negb _); [|discriminate].
          destruct (checkDangling _ _ _); discriminate.
        - now injection Hj as <-. }
      rewrite Hrh in Hhost. subst h.
      pose proof (NoDup_lookup _ _ _ _ Hhosts Hhj Hh) as ->. congruence.
  - intros dns order ctx hosts concurrency Hm Hcn. apply Hnone. intros d Hin Hhost.
    apply Hfrom in Hin as (j & _ & Hh & Hstep). rewrite Hhost in Hh, Hstep.
    pose proof (resolveHost_candidate _ _ _ _ Hstep) as (c & Hc & Hd & _).
    apply resolveHost_dangling in Hstep as (_ & _ & Hm' & _).
    rewrite Hd, (Hcn j c Hh Hc) in Hm'. congruence.
  - intros dns order ctx hosts concurrency Hok. apply Hnone. intros d Hin Hhost.
    apply Hfrom in Hin as (j & _ & Hh & Hstep). rewrite Hhost in Hh, Hstep.
    destruct (Hok j Hh) as [ips Hips].
    apply resolveHost_resolved in Hips as (r & Hr & _). congruence.
Qed.

Lemma dangling_classification_witness :
  (checkDangling "old.example.com" "old-app.herokuapp.com" (Some (DNSError true "no such host")) =
     Some {| dc_Host := "old.example.com"; dc_CNAME := "old-app.herokuapp.com";
             dc_Status := "NXDOMAIN" |} /\
   checkDangling "old.example.com" "old-app.herokuapp.com"
                 (Some (DNSError false "server misbehaving")) =
     Some {| dc_Host := "old.example.com"; dc_CNAME := "old-app.herokuapp.com";
             dc_Status := "SERVFAIL" |}) /\
  checkDangling "cdn.example.com" "cdn.someother.net" (Some (DNSError true "no such host")) = None /\
  resolveHost fixtures.resolver 0 "old.example.com" =
    inr <$> checkDangling "old.example.com" "old-app.herokuapp.com"
                          (Some (DNSError true "no such host")) /\
  (forall d, resolveHost fixtures.resolver 2 "ok.example.com" <> Some (inr d)) /\
  (exists i err,
     fixtures.hosts3 !! i = Some "old.example.com" /\
     LookupHost fixtures.resolver i "old.example.com" = inl err /\
     matchesPattern (GoStrings.ToLower "old-app.herokuapp.com") = true) /\
  (let out := DNSResolve fixtures.resolver [2; 0; 1]%nat Background fixtures.hosts3 10 in
   filter (fun d => dc_Host d = "old.example.com") out.1.2 =
     [{| dc_Host := "old.example.com"; dc_CNAME := "old-app.herokuapp.com";
         dc_Status := "NXDOMAIN" |}] /\
   (forall r, r ∈ out.1.1 -> dr_Host r <> "old.example.com")) /\
  filter (fun d => dc_Host d = "cdn.example.com")
         (DNSResolve fixtures.resolver [2; 0; 1]%nat Background fixtures.hosts3 10).1.2 = [] /\
  filter (fun d => dc_Host d = "ok.example.com")
         (DNSResolve fixtures.resolver [2; 0; 1]%nat Background fixtures.hosts3 10).1.2 = [].
Proof.
  pose proof (dangling_classification "old.example.com" "old-app.herokuapp.com")
    as (Hmatch & _ & Hloop & _ & Hfrom & Hone & _).
  pose proof (dangling_classification "cdn.example.com" "cdn.someother.net")
    as (_ & Hno & _ & _ & _ & _ & Hnone & _).
  pose proof (dangling_classification "ok.example.com" "ok.herokuapp.com")
    as (_ & _ & _ & Hok & _ & _ & _ & Hlive).
  split; [| split; [| split; [| split; [| split; [| split; [| split]]]]]].
  - split.
    + exact (proj1 (Hmatch eq_refl "no such host")).
    + exact (proj2 (Hmatch eq_refl "server misbehaving")).
  - exact (Hno eq_refl _).
  - apply (Hloop fixtures.resolver 0%nat "Old-App.herokuapp.com." (DNSError true "no such host"));
      try reflexivity; discriminate.
  - exact (Hok fixtures.resolver 2%nat ["1.2.3.4"; "1.2.3.4"] eq_refl).
  - apply (Hfrom fixtures.resolver [2; 0; 1]%nat Background fixtures.hosts3 10
             {| dc_Host := "old.example.com"; dc_CNAME := "old-app.herokuapp.com";
                dc_Status := "NXDOMAIN" |}).
    vm_compute. apply list_elem_of_singleton. reflexivity.
  - apply (Hone fixtures.resolver [2; 0; 1]%nat Background fixtures.hosts3 10 0%nat
             "Old-App.herokuapp.com." true "no such host").
    + lia.
    + reflexivity.
    + apply (bool_decide_unpack _). vm_compute. reflexivity.
    + apply (bool_decide_unpack _). vm_compute. reflexivity.
    + apply (bool_decide_unpack _). vm_compute. reflexivity.
    + reflexivity.
    + reflexivity.
    + reflexivity.
    + discriminate.
    + discriminate.
    + reflexivity.
    + reflexivity.
  - apply (Hnone fixtures.resolver [2; 0; 1]%nat Background fixtures.hosts3 10).
    + reflexivity.
    + intros j c _ Hc. vm_compute in Hc. injection Hc as <-. reflexivity.
  - apply (Hlive fixtures.resolver [2; 0; 1]%nat Background fixtures.hosts3 10).
    intros j _. exists ["1.2.3.4"; "1.2.3.4"]. reflexivity.
Defined.

(** The end-to-end scenarios of the specification. *)
Example DNSResolve_scenario :
  DNSResolve fixtures.resolver [2; 0; 1]%nat Background fixtures.hosts3 10 =
    ([{| dr_Host := "ok.example.com"; dr_IPs := ["1.2.3.4"]; dr_CNAME := "ok.herokuapp.com" |}],
     [{| dc_Host := "old.example.com"; dc_CNAME := "old-app.herokuapp.com";
         dc_Status := "NXDOMAIN" |}],
     None).
Proof. vm_compute. reflexivity. Qed.

Example Enumerate_scenario :
  (Enumerate fixtures.liveEnv Background "example.com" 25
             (w_enumerator fixtures.world0)).1 =
    ([{| sd_Host := "api.example.com"; sd_Sources := ["hackertarget"] |};
      {| sd_Host := "example.com"; sd_Sources := ["root"] |};
      {| sd_Host := "www.example.com"; sd_Sources := ["crt.sh"; "brute"] |}],
     None).
Proof. vm_compute. reflexivity. Qed.

Example parseHackertargetResponse_ex :
  let nl := String GoStrings.newline "" in
  parseHackertargetResponse
    ("www.example.com,1.2.3.4" +:+ nl +:+ "api.example.com,5.6.7.8" +:+ nl +:+ nl +:+
     "other.notexample.com,13.14.15.16" +:+ nl +:+ "www.example.com,1.2.3.4")
    "example.com" = ["www.example.com"; "api.example.com"].
Proof. vm_compute. reflexivity. Qed.

(** ** The orchestrator (engine.go) *)

(** Unfolds the state passing of [Run] up to the first stage call. *)
Ltac run_unfold :=
  unfold Run, mbind, M_bind, bind, quiet, call, emit, warnIf, engine.ret; cbn [fst snd].

(** One case split of [Run] on what the outside answers. *)
Ltac run_case :=
  match goal with
  | |- context [Now ?i ?x] => destruct (Now i x) as [? ?]
  | |- context [GetZoneTransfers ?x] => destruct (GetZoneTransfers x)
  | |- context [GetWarnings ?x] => destruct (GetWarnings x)
  | |- context [Resolver ?i ?a ?b ?c ?d] =>
      destruct (Resolver i a b c d) as [[[? ?] [?|]] ?]
  | |- context [countLive ?r =? 0] => destruct (countLive r =? 0) eqn:?
  | |- context [Scanner ?i ?a ?b ?c ?d ?e ?f] =>
      destruct (Scanner i a b c d e f) as [[? [?|]] ?]
  | |- context [len ?r =? 0] => destruct (len r =? 0) eqn:?
  | |- context [Prober ?i ?a ?b ?c ?d ?e] =>
      destruct (Prober i a b c d e) as [[? [?|]] ?]
  | |- context [0 <? len ?r] => destruct (0 <? len r) eqn:?
  | |- context [Fingerprinter ?i ?a ?b] => destruct (Fingerprinter i a b) as [? ?]
  end.

Ltac run_cases := repeat (run_case; unfold emit, engine.ret; cbn [fst snd]).

Section Orchestrator.

Context {W : Type}.
Variables (ctx : Ctx) (cfg : Config) (impl : Stages W).

Lemma len_zero {A} (l : list A) : (len l =? 0) = true <-> l = [].
Proof.
  unfold len. destruct l; simpl; [tauto |]. split; discriminate.
Qed.

Lemma countLive_zero (records : list DNSResult) :
  countLive records = 0 <-> Forall (fun r => dr_IPs r = []) records.
Proof.
  unfold countLive. induction records as [|r records IH]; simpl.
  - split; [constructor | reflexivity].
  - rewrite filter_cons. destruct (decide (0 < len (dr_IPs r))) as [Hlive|Hdead].
    + split.
      * unfold len. simpl. lia.
      * intros H. inversion H as [|? ? Hr]. subst. rewrite Hr in Hlive. unfold len in Hlive.
        simpl in Hlive. lia.
    + rewrite IH. split.
      * intros H. constructor; [| exact H].
        destruct (dr_IPs r); [reflexivity |]. unfold len in Hdead. simpl in Hdead. lia.
      * intros H. now inversion H.
Qed.

(** The summary reads the collections only, so the summary stored in a
    completed result is the summary of that very result. *)
Lemma complete_Summary started completed target subs zts warns dns dang ports svcs :
  let r := complete started completed target subs zts warns dns dang ports svcs in
  res_Summary r = buildSummary r.
Proof. reflexivity. Qed.

Lemma Run_enumeration_failed (w : W) (tr : list Event) subs err w1 :
  enumeration ctx cfg impl w = ((subs, Some err), w1) ->
  (Run ctx cfg impl (w, tr)).1 = (None, Some ("subdomain enumeration failed: " +:+ err)).
Proof.
  unfold enumeration. intros He. run_unfold.
  destruct (Now impl w) as [t0 w0]. cbn [fst snd] in *. rewrite He. reflexivity.
Qed.

Lemma Run_no_subdomains (w : W) (tr : list Event) w1 :
  enumeration ctx cfg impl w = (([], None), w1) ->
  (Run ctx cfg impl (w, tr)).1 =
    (None, Some ("no subdomains discovered for " +:+ cfg_Target cfg)).
Proof.
  unfold enumeration. intros He. run_unfold.
  destruct (Now impl w) as [t0 w0]. cbn [fst snd] in *. rewrite He. reflexivity.
Qed.

Lemma Run_enumerated (w : W) (tr : list Event) subs w1 :
  enumeration ctx cfg impl w = ((subs, None), w1) -> subs <> [] ->
  exists r, (Run ctx cfg impl (w, tr)).1 = (Some r, None) /\ Subdomains r = subs.
Proof.
  unfold enumeration. intros He Hne. run_unfold.
  destruct (Now impl w) as [t0 w0]. cbn [fst snd] in *. rewrite He.
  destruct (len subs =? 0) eqn:Hlen; [apply len_zero in Hlen; contradiction |].
  run_cases; eauto.
Qed.

(** [Run] fails exactly when its enumerator does or finds nothing. *)
Lemma Run_outcome (w : W) (tr : list Event) :
  let subs := (enumeration ctx cfg impl w).1.1 in
  let err := (enumeration ctx cfg impl w).1.2 in
  let out := (Run ctx cfg impl (w, tr)).1 in
  ((out.1 = None /\ is_Some out.2) <-> (is_Some err \/ subs = [])) /\
  ((is_Some out.1 /\ out.2 = None) <-> (err = None /\ subs <> [])).
Proof.
  destruct (enumeration ctx cfg impl w) as [[subs [err|]] w1] eqn:He; cbn [fst snd].
  - rewrite (Run_enumeration_failed w tr subs err w1 He). cbn [fst snd]. split; split.
    + eauto.
    + intros _. split; [reflexivity | eauto].
    + intros [_ [=]].
    + intros [[=] _].
  - destruct subs as [|sd subs].
    + rewrite (Run_no_subdomains w tr w1 He). cbn [fst snd]. split; split.
      * eauto.
      * intros _. split; [reflexivity | eauto].
      * intros [_ [=]].
      * intros [_ Hne]. now contradict Hne.
    + destruct (Run_enumerated w tr (sd :: subs) w1 He) as (r & -> & _); [discriminate |].
      cbn [fst snd]. split; split.
      * intros [[=] _].
      * intros [[? Hs]|Hs]; discriminate Hs.
      * intros _. split; [reflexivity | discriminate].
      * intros _. split; [eauto | reflexivity].
Qed.

(** C7.  When enumeration succeeds and no record the resolver returns has
    an address, [Run] calls neither the scanner nor the prober (nor the
    fingerprinter), and returns, without error, a result that holds the
    subdomains, the DNS records, the dangling CNAMEs and the enumerator's
    warnings and zone transfers, no open port and no service, and whose
    summary is the summary of that result. *)
Theorem Run_no_live_hosts (w : W) subs w1 records dangling rerr w2 :
  enumeration ctx cfg impl w = ((subs, None), w1) ->
  subs <> [] ->
  Resolver impl ctx (sd_Host <$> subs) (cfg_Concurrency cfg) w1
    = ((records, dangling, rerr), w2) ->
  Forall (fun r => dr_IPs r = []) records ->
  exists r w' trace,
    Run ctx cfg impl (w, []) = ((Some r, None), (w', trace)) /\
    Subdomains r = subs /\ DNSRecords r = records /\ DanglingCNAMEs r = dangling /\
    Warnings r = match GetWarnings (engine.Enumerator impl) with
                 | Some get => get w1
                 | None => []
                 end /\
    ZoneTransfers r = match GetZoneTransfers (engine.Enumerator impl) with
                      | Some get => get w1
                      | None => []
                      end /\
    OpenPorts r = [] /\ HTTPServices r = [] /\
    res_Summary r = buildSummary r /\
    (CallScan ∉ trace) /\ (CallProbe ∉ trace) /\ (CallFingerprint ∉ trace).
Proof.
  unfold enumeration. intros He Hne Hr Hdead. apply countLive_zero in Hdead.
  run_unfold. destruct (Now impl w) as [t0 w0]. cbn [fst snd] in *. rewrite He.
  destruct (len subs =? 0) eqn:Hlen; [apply len_zero in Hlen; contradiction |].
  destruct (GetZoneTransfers _), (GetWarnings _); cbn [fst snd]; rewrite Hr;
    destruct rerr; unfold emit, engine.ret; cbn [fst snd]; rewrite Hdead; simpl;
    destruct (Now impl w2) as [t1 w3]; do 3 eexists;
    (split; [reflexivity |]); repeat (split; [reflexivity |]);
    repeat split; intros Hin; repeat (apply elem_of_cons in Hin as [[=]|Hin]);
    inversion Hin.
Qed.

End Orchestrator.

(** On an already-cancelled context the production stages yield a
    result, not an error: the root domain is always enumerated, nothing
    resolves, and the run ends early. *)
Lemma Run_cancelled_counterexample :
  let out := (Run Cancelled fixtures.cfg0 (recon.stages fixtures.deadEnv)
                  (fixtures.world0, [])).1 in
  out.2 = None /\
  Subdomains <$> out.1 = Some [{| sd_Host := "example.com"; sd_Sources := ["root"] |}] /\
  ~ (out.1 = None /\ is_Some out.2).
Proof.
  vm_compute. split; [reflexivity | split; [reflexivity |]]. intros [[=] _].
Qed.

Lemma Run_no_live_hosts_witness :
  exists r w' trace,
    Run Background fixtures.cfgTest fixtures.noLiveHosts (tt, []) = ((Some r, None), (w', trace)) /\
    Subdomains r = [{| sd_Host := "dead.example.com"; sd_Sources := ["brute"] |}] /\
    DNSRecords r = [] /\ DanglingCNAMEs r = [] /\ Warnings r = [] /\ ZoneTransfers r = [] /\
    OpenPorts r = [] /\ HTTPServices r = [] /\
    res_Summary r = buildSummary r /\
    (CallScan ∉ trace) /\ (CallProbe ∉ trace) /\ (CallFingerprint ∉ trace).
Proof.
  apply (Run_no_live_hosts Background fixtures.cfgTest fixtures.noLiveHosts tt
           [{| sd_Host := "dead.example.com"; sd_Sources := ["brute"] |}] tt [] [] None tt).
  - reflexivity.
  - discriminate.
  - reflexivity.
  - constructor.
Defined.

(** ** Worker pools: port scan, HTTP probe, DNS resolution *)

Lemma length_omap_le {A B} (f : A -> option B) (l : list A) :
  (length (omap f l) <= length l)%nat.
Proof.
  induction l as [|x l IH]; simpl; [lia |].
  change (list_omap A B f l) with (omap f l). destruct (f x); simpl; lia.
Qed.

Lemma schedule_length (ctx : Ctx) (n : nat) (order : list nat) :
  schedule_ok ctx n order -> (length order <= n)%nat.
Proof.
  intros (Hnd & Hlt & _).
  assert (length order <= length (seq 0%nat n))%nat as H; [| now rewrite length_seq in H].
  apply submseteq_length, NoDup_submseteq; [exact Hnd |].
  intros i Hi. apply elem_of_seq. specialize (Hlt i Hi). lia.
Qed.

Lemma length_pool {A B} (ctx : Ctx) (concurrency : Z) (order : list nat)
    (work : list A) (job : nat -> A -> option B) :
  schedule_ok ctx (length work) order ->
  (length (pool ctx concurrency order work job) <= length work)%nat.
Proof.
  intros Hok. unfold pool. destruct (_ || _); simpl; [lia |].
  etransitivity; [apply length_omap_le | eapply schedule_length, Hok].
Qed.

(** An item that was worked on and whose job succeeded is in the output,
    unless the pool has no worker or the context was closed from the start. *)
Lemma pool_complete {A B} (ctx : Ctx) (concurrency : Z) (order : list nat)
    (work : list A) (job : nat -> A -> option B) (i : nat) (x : A) (b : B) :
  0 < concurrency -> (poll ctx).1 = false ->
  i ∈ order -> work !! i = Some x -> job i x = Some b ->
  b ∈ pool ctx concurrency order work job.
Proof.
  intros Hc Hp Hi Hx Hb. unfold pool.
  destruct (Z.leb_spec concurrency 0); [lia |]. rewrite Hp. simpl.
  apply list_elem_of_omap. exists i. split; [exact Hi |]. rewrite Hx. exact Hb.
Qed.

Lemma pool_cancelled {A B} (concurrency : Z) (order : list nat)
    (work : list A) (job : nat -> A -> option B) :
  pool Cancelled concurrency order work job = [].
Proof. unfold pool. simpl. now rewrite orb_true_r. Qed.

Section ProbePort.

Variables (Do : string -> option Response) (pr : PortResult).

Lemma probeURL_Some (url scheme : string) (resp : Response) :
  Do url = Some resp ->
  exists svc pd, probeURL Do url pr scheme = Some (svc, pd) /\
    svc_URL svc = url /\ svc_Scheme svc = scheme /\
    svc_StatusCode svc = resp_StatusCode resp /\
    svc_Host svc = pr_Host pr /\ svc_IP svc = pr_IP pr /\ svc_Port svc = pr_Port pr.
Proof. intros H. unfold probeURL. rewrite H. do 2 eexists. repeat split. Qed.

Lemma probeURL_None (url scheme : string) :
  Do url = None -> probeURL Do url pr scheme = None.
Proof. intros H. unfold probeURL. now rewrite H. Qed.

Lemma probeURL_inv (url scheme : string) svc pd :
  probeURL Do url pr scheme = Some (svc, pd) ->
  svc_Host svc = pr_Host pr /\ svc_IP svc = pr_IP pr /\ svc_Port svc = pr_Port pr /\
  svc_URL svc = url /\ svc_Scheme svc = scheme /\
  exists resp, Do url = Some resp /\ svc_StatusCode svc = resp_StatusCode resp.
Proof.
  unfold probeURL. destruct (Do url) as [resp|]; [| discriminate].
  intros [= <- <-]. simpl. repeat split. eauto.
Qed.

Lemma probePort_inv svc pd tried :
  probePort Do pr = (Some (svc, pd), tried) ->
  svc_Host svc = pr_Host pr /\ svc_IP svc = pr_IP pr /\ svc_Port svc = pr_Port pr /\
  exists scheme resp, scheme ∈ schemesFor (pr_Port pr) /\
    svc_Scheme svc = scheme /\ svc_URL svc = urlFor scheme pr /\
    Do (urlFor scheme pr) = Some resp /\ svc_StatusCode svc = resp_StatusCode resp.
Proof.
  unfold probePort. generalize (schemesFor (pr_Port pr)) as schemes.
  intros schemes. revert tried. induction schemes as [|scheme rest IH]; intros tried; simpl.
  - discriminate.
  - destruct (probeURL Do (urlFor scheme pr) pr scheme) as [[svc' pd']|] eqn:Hp.
    + intros [= -> -> <-]. apply probeURL_inv in Hp as (? & ? & ? & ? & ? & resp & ? & ?).
      repeat split; try assumption. exists scheme, resp. repeat split; try assumption.
      apply elem_of_cons. now left.
    + destruct (probeSchemes Do pr rest) as [r tried'] eqn:Hrest. intros [= -> <-].
      destruct (IH tried' eq_refl) as (? & ? & ? & s & resp & Hin & ?).
      repeat split; try assumption. exists s, resp. split; [| assumption].
      apply elem_of_cons. now right.
Qed.

End ProbePort.

Ltac probe_answers resp H :=
  match goal with
  | |- context [probeURL ?Do ?u ?pr ?s] =>
      destruct (probeURL_Some Do pr u s resp H) as (? & ? & -> & _ & ? & ? & _)
  end.

Ltac probe_fails H :=
  match goal with
  | |- context [probeURL ?Do ?u ?pr ?s] => rewrite (probeURL_None Do pr u s H)
  end.

(** C4.  For an open port, [probePort] requests the https URL first and
    the http URL second when the port is one of [tlsFirstPorts], and the
    other way round for every other port.  If the first request gets a
    response, of whatever status code, the service is built from it and the
    second URL is never requested; if it gets none and the second does, the
    service is built from the second; if neither does, there is no service.
    [HTTPProbe] returns at most one service per open port. *)
Theorem probePort_scheme_selection (Do : string -> option Response) (pr : PortResult) :
  let first := if decide (pr_Port pr ∈ tlsFirstPorts) then "https" else "http" in
  let second := if decide (pr_Port pr ∈ tlsFirstPorts) then "http" else "https" in
  (forall resp, Do (urlFor first pr) = Some resp ->
     exists svc pd, probePort Do pr = (Some (svc, pd), [urlFor first pr]) /\
       svc_Scheme svc = first /\ svc_StatusCode svc = resp_StatusCode resp) /\
  (Do (urlFor first pr) = None ->
     forall resp, Do (urlFor second pr) = Some resp ->
     exists svc pd,
       probePort Do pr = (Some (svc, pd), [urlFor first pr; urlFor second pr]) /\
       svc_Scheme svc = second /\ svc_StatusCode svc = resp_StatusCode resp) /\
  (Do (urlFor first pr) = None -> Do (urlFor second pr) = None ->
     probePort Do pr = (None, [urlFor first pr; urlFor second pr])) /\
  (forall DoAll order ctx openPorts concurrency timeout userAgent,
     schedule_ok ctx (length openPorts) order ->
     (length (Services (HTTPProbe DoAll order ctx openPorts concurrency timeout
                                  userAgent).1) <= length openPorts)%nat).
Proof.
  unfold probePort, schemesFor.
  destruct (decide (pr_Port pr ∈ tlsFirstPorts)); cbn zeta; cbn [probeSchemes];
    (split; [| split; [| split]]).
  1, 5: intros resp H; probe_answers resp H; eauto.
  1, 4: intros H1 resp H2; probe_fails H1; probe_answers resp H2; eauto.
  1, 3: intros H1 H2; probe_fails H1; probe_fails H2; reflexivity.
  all: intros DoAll order ctx openPorts concurrency timeout userAgent Hok;
       unfold HTTPProbe; cbn [fst Services]; rewrite length_fmap; now apply length_pool.
Qed.

Lemma probePort_scheme_selection_witness :
  (exists svc pd,
     probePort fixtures.plainOnly fixtures.port8080 =
       (Some (svc, pd), ["http://www.example.com:8080"]) /\
     svc_Scheme svc = "http" /\ svc_StatusCode svc = 400) /\
  (exists svc pd,
     probePort fixtures.plainOnly fixtures.port443 =
       (Some (svc, pd), ["https://www.example.com:443"; "http://www.example.com:443"]) /\
     svc_Scheme svc = "http" /\ svc_StatusCode svc = 400) /\
  probePort (fun _ => None) fixtures.port443 =
    (None, ["https://www.example.com:443"; "http://www.example.com:443"]) /\
  (length (Services (HTTPProbe (fun _ => fixtures.plainOnly) [1; 0]%nat Background
                               [fixtures.port443; fixtures.port8080] 12 2 "sweep/dev").1)
   <= 2)%nat.
Proof.
  split; [| split; [| split]].
  - apply (proj1 (probePort_scheme_selection fixtures.plainOnly fixtures.port8080)
             fixtures.badRequest).
    reflexivity.
  - apply (proj1 (proj2 (probePort_scheme_selection fixtures.plainOnly fixtures.port443))
             eq_refl fixtures.badRequest).
    reflexivity.
  - apply (proj1 (proj2 (proj2 (probePort_scheme_selection (fun _ => None) fixtures.port443)))
             eq_refl eq_refl).
  - apply (proj2 (proj2 (proj2 (probePort_scheme_selection (fun _ => None) fixtures.port443)))
             (fun _ => fixtures.plainOnly) [1; 0]%nat Background
             [fixtures.port443; fixtures.port8080] 12 2 "sweep/dev").
    split; [| split].
    + apply (bool_decide_unpack _). reflexivity.
    + intros i Hi. apply elem_of_cons in Hi as [->|Hi]; [simpl; lia |].
      apply elem_of_cons in Hi as [->|Hi]; [simpl; lia | inversion Hi].
    + intros _ i Hi. simpl in Hi. destruct i as [|[|i]]; [set_solver | set_solver | lia].
Defined.

(** ** The stages never report an error *)

Section Degraded.

Context {W : Type}.
Variables (ctx : Ctx) (cfg : Config) (impl : Stages W).

Hypothesis Resolver_ok : forall c hosts n w, (Resolver impl c hosts n w).1.2 = None.
Hypothesis Scanner_ok : forall c records ports n t w, (Scanner impl c records ports n t w).1.2 = None.
Hypothesis Prober_ok : forall c targets n t w, (Prober impl c targets n t w).1.2 = None.

(** With stages that return no error, the only warnings [Run] gives are
    the two notices of an early end of the run. *)
Lemma Run_warnings (w : W) (msg : string) :
  Warn msg ∈ (Run ctx cfg impl (w, [])).2.2 ->
  msg = "No live hosts found, skipping port scan and HTTP probe" \/
  msg = "No open ports found, skipping HTTP probe".
Proof.
  run_unfold. destruct (Now impl w) as [t0 w0].
  destruct (engine.Enumerate _ _ _ _ _) as [[subs [err|]] w1]; cbn [fst snd].
  { simpl. intros H. repeat (apply elem_of_cons in H as [[=]|H]). inversion H. }
  destruct (len subs =? 0); cbn [fst snd].
  { simpl. intros H. repeat (apply elem_of_cons in H as [[=]|H]). inversion H. }
  repeat first
    [ match goal with
      | |- context [Resolver impl ?a ?b ?c ?d] =>
          let E := fresh in
          pose proof (Resolver_ok a b c d) as E;
          destruct (Resolver impl a b c d) as [[[? ?] ?] ?]; cbn [fst snd] in E; subst
      | |- context [Scanner impl ?a ?b ?c ?d ?e ?f] =>
          let E := fresh in
          pose proof (Scanner_ok a b c d e f) as E;
          destruct (Scanner impl a b c d e f) as [[? ?] ?]; cbn [fst snd] in E; subst
      | |- context [Prober impl ?a ?b ?c ?d ?e] =>
          let E := fresh in
          pose proof (Prober_ok a b c d e) as E;
          destruct (Prober impl a b c d e) as [[? ?] ?]; cbn [fst snd] in E; subst
      end; unfold emit, engine.ret; cbn [fst snd]
    | run_case; unfold emit, engine.ret; cbn [fst snd] ];
    simpl; intros H;
    repeat (apply elem_of_cons in H as [H|H];
            [first [discriminate H | injection H as ->; now auto] |]);
    inversion H.
Qed.

End Degraded.

Lemma DNSResolve_records dns order ctx hosts concurrency r :
  r ∈ (DNSResolve dns order ctx hosts concurrency).1.1 ->
  exists i ips, i ∈ order /\ hosts !! i = Some (dr_Host r) /\
                LookupHost dns i (dr_Host r) = inr ips.
Proof.
  unfold DNSResolve. cbn [fst snd]. rewrite elem_of_lefts. intros Hin.
  apply elem_of_pool in Hin as (i & h & Hi & Hh & Hstep).
  unfold resolveHost in Hstep. destruct (LookupHost dns i h) as [err|ips] eqn:Hl.
  - destruct (negb _); [| discriminate].
    destruct (checkDangling _ _ _); discriminate.
  - injection Hstep as <-. simpl. eauto.
Qed.

Lemma PortScan_results dial order ctx dnsRecords ports concurrency timeout p :
  p ∈ (PortScan dial order ctx dnsRecords ports concurrency timeout).1 ->
  exists i t, i ∈ order /\ buildTargets dnsRecords ports !! i = Some t /\
    dial i (t_ip t +:+ ":" +:+ GoStrings.itoa (t_port t)) = true /\
    p = {| pr_Host := t_host t; pr_IP := t_ip t; pr_Port := t_port t |}.
Proof.
  unfold PortScan. cbn [fst]. intros Hin.
  apply elem_of_pool in Hin as (i & t & Hi & Ht & Hjob).
  destruct (dial i _) eqn:Hd; [| discriminate]. injection Hjob as <-. eauto 8.
Qed.

Lemma HTTPProbe_services Do order ctx openPorts concurrency timeout userAgent svc :
  svc ∈ Services (HTTPProbe Do order ctx openPorts concurrency timeout userAgent).1 ->
  exists i pr scheme resp, i ∈ order /\ openPorts !! i = Some pr /\
    Do i (urlFor scheme pr) = Some resp /\
    svc_Host svc = pr_Host pr /\ svc_IP svc = pr_IP pr /\ svc_Port svc = pr_Port pr /\
    svc_Scheme svc = scheme /\ svc_StatusCode svc = resp_StatusCode resp.
Proof.
  unfold HTTPProbe. cbn [fst Services]. rewrite list_elem_of_fmap.
  intros ([svc' pd] & -> & Hin).
  apply elem_of_pool in Hin as (i & pr & Hi & Hpr & Hjob).
  destruct (probePort (Do i) pr) as [r tried] eqn:Hp. cbn [fst] in Hjob. subst r.
  apply probePort_inv in Hp as (? & ? & ? & scheme & resp & _ & ? & _ & ? & ?).
  exists i, pr, scheme, resp. cbn [fst]. repeat split; assumption.
Qed.

Lemma probeSchemes_answers Do pr (schemes : list string) scheme resp :
  scheme ∈ schemes -> Do (urlFor scheme pr) = Some resp ->
  exists svc pd tried, probeSchemes Do pr schemes = (Some (svc, pd), tried) /\
    svc_Host svc = pr_Host pr /\ svc_IP svc = pr_IP pr /\ svc_Port svc = pr_Port pr.
Proof.
  induction schemes as [|s rest IH]; intros Hin Hdo; [inversion Hin |].
  cbn [probeSchemes].
  destruct (probeURL Do (urlFor s pr) pr s) as [[svc pd]|] eqn:Hp.
  - apply probeURL_inv in Hp as (? & ? & ? & _). eauto 10.
  - apply elem_of_cons in Hin as [->|Hin].
    + destruct (probeURL_Some Do pr _ s resp Hdo) as (? & ? & Hp' & _). congruence.
    + destruct (IH Hin Hdo) as (svc & pd & tried & -> & ?). eauto 10.
Qed.

(** C10.  [DNSResolve], [PortScan] and [HTTPProbe] return a nil error on
    every input; on a context that is cancelled already they return nothing
    and still no error.  What they return stems from the work items whose
    lookup, connection or request succeeded, and the items that were worked
    on and succeeded are all there: a failure leaves out its own item only.
    So with these stages the only warnings of [Run] are its two notices of
    an early end: the warnings for a failed stage are never given. *)
Theorem stages_return_nil_error :
  (forall dns order ctx hosts concurrency,
     let out := DNSResolve dns order ctx hosts concurrency in
     out.2 = None /\
     DNSResolve dns order Cancelled hosts concurrency = ([], [], None) /\
     (forall r, r ∈ out.1.1 ->
        exists i ips, i ∈ order /\ hosts !! i = Some (dr_Host r) /\
                      LookupHost dns i (dr_Host r) = inr ips) /\
     (0 < concurrency -> (poll ctx).1 = false ->
      forall i h ips, i ∈ order -> hosts !! i = Some h -> LookupHost dns i h = inr ips ->
        exists r, r ∈ out.1.1 /\ dr_Host r = h /\ dr_IPs r = deduplicateStrings ips)) /\
  (forall dial order ctx dnsRecords ports concurrency timeout,
     let out := PortScan dial order ctx dnsRecords ports concurrency timeout in
     out.2 = None /\
     PortScan dial order Cancelled dnsRecords ports concurrency timeout = ([], None) /\
     (forall p, p ∈ out.1 ->
        exists i t, i ∈ order /\ buildTargets dnsRecords ports !! i = Some t /\
          dial i (t_ip t +:+ ":" +:+ GoStrings.itoa (t_port t)) = true /\
          p = {| pr_Host := t_host t; pr_IP := t_ip t; pr_Port := t_port t |}) /\
     (0 < concurrency -> (poll ctx).1 = false ->
      forall i t, i ∈ order -> buildTargets dnsRecords ports !! i = Some t ->
        dial i (t_ip t +:+ ":" +:+ GoStrings.itoa (t_port t)) = true ->
        {| pr_Host := t_host t; pr_IP := t_ip t; pr_Port := t_port t |} ∈ out.1)) /\
  (forall Do order ctx openPorts concurrency timeout userAgent,
     let out := HTTPProbe Do order ctx openPorts concurrency timeout userAgent in
     out.2 = None /\
     Services (HTTPProbe Do order Cancelled openPorts concurrency timeout userAgent).1 = [] /\
     (forall svc, svc ∈ Services out.1 ->
        exists i pr scheme resp, i ∈ order /\ openPorts !! i = Some pr /\
          Do i (urlFor scheme pr) = Some resp /\
          svc_Host svc = pr_Host pr /\ svc_IP svc = pr_IP pr /\ svc_Port svc = pr_Port pr /\
          svc_Scheme svc = scheme /\ svc_StatusCode svc = resp_StatusCode resp) /\
     (0 < concurrency -> (poll ctx).1 = false ->
      forall i pr scheme resp, i ∈ order -> openPorts !! i = Some pr ->
        scheme ∈ schemesFor (pr_Port pr) -> Do i (urlFor scheme pr) = Some resp ->
        exists svc, svc ∈ Services out.1 /\ svc_Host svc = pr_Host pr /\
                    svc_IP svc = pr_IP pr /\ svc_Port svc = pr_Port pr)) /\
  (forall env ctx cfg w msg,
     Warn msg ∈ (Run ctx cfg (recon.stages env) (w, [])).2.2 ->
     msg = "No live hosts found, skipping port scan and HTTP probe" \/
     msg = "No open ports found, skipping HTTP probe").
Proof.
  split; [| split; [| split]].
  - intros dns order ctx hosts concurrency. cbn zeta.
    split; [reflexivity | split; [| split]].
    + unfold DNSResolve. now rewrite pool_cancelled.
    + apply DNSResolve_records.
    + intros Hc Hp i h ips Hi Hh Hl. eexists. split.
      { unfold DNSResolve. cbn [fst]. apply elem_of_lefts.
        apply (pool_complete ctx concurrency order hosts _ i h); try assumption.
        unfold resolveHost. rewrite Hl. reflexivity. }
      split; reflexivity.
  - intros dial order ctx dnsRecords ports concurrency timeout. cbn zeta.
    split; [reflexivity | split; [| split]].
    + unfold PortScan. now rewrite pool_cancelled.
    + apply PortScan_results.
    + intros Hc Hp i t Hi Ht Hd. unfold PortScan. cbn [fst].
      apply (pool_complete ctx concurrency order _ _ i t); try assumption.
      cbn beta. now rewrite Hd.
  - intros Do order ctx openPorts concurrency timeout userAgent. cbn zeta.
    split; [reflexivity | split; [| split]].
    + unfold HTTPProbe. now rewrite pool_cancelled.
    + apply HTTPProbe_services.
    + intros Hc Hp i pr scheme resp Hi Hpr Hs Hdo.
      destruct (probeSchemes_answers (Do i) pr _ scheme resp Hs Hdo)
        as (svc & pd & tried & Hprobe & ? & ? & ?).
      exists svc. split; [| auto]. unfold HTTPProbe. cbn [fst Services].
      apply list_elem_of_fmap. exists (svc, pd). split; [reflexivity |].
      apply (pool_complete ctx concurrency order openPorts _ i pr); try assumption.
      cbn beta. unfold probePort. now rewrite Hprobe.
  - intros env ctx cfg w msg. apply Run_warnings; reflexivity.
Qed.

Lemma stages_return_nil_error_witness :
  (exists r, r ∈ (DNSResolve fixtures.resolver [2; 0; 1]%nat Background fixtures.hosts3 10).1.1 /\
             dr_Host r = "ok.example.com" /\
             dr_IPs r = deduplicateStrings ["1.2.3.4"; "1.2.3.4"]) /\
  {| pr_Host := "www.example.com"; pr_IP := "1.2.3.5"; pr_Port := 443 |}
    ∈ (PortScan (fun _ addr => String.eqb addr "1.2.3.5:443") [0; 1]%nat Background
                [{| dr_Host := "www.example.com"; dr_IPs := ["1.2.3.5"]; dr_CNAME := "" |}]
                [80; 443] 25 2).1 /\
  exists svc,
    svc ∈ Services (HTTPProbe (fun _ => fixtures.plainOnly) [0]%nat Background
                              [fixtures.port443] 12 2 "sweep/dev").1 /\
    svc_Host svc = "www.example.com" /\ svc_IP svc = "1.2.3.5" /\ svc_Port svc = 443.
Proof.
  destruct stages_return_nil_error as (Hdns & Hscan & Hprobe & _).
  split; [| split].
  - destruct (Hdns fixtures.resolver [2; 0; 1]%nat Background fixtures.hosts3 10)
      as (_ & _ & _ & Hkept).
    apply (Hkept eq_refl eq_refl 2%nat "ok.example.com" ["1.2.3.4"; "1.2.3.4"]);
      [apply elem_of_cons; now left | reflexivity | reflexivity].
  - destruct (Hscan (fun _ addr => String.eqb addr "1.2.3.5:443") [0; 1]%nat Background
                    [{| dr_Host := "www.example.com"; dr_IPs := ["1.2.3.5"]; dr_CNAME := "" |}]
                    [80; 443] 25 2) as (_ & _ & _ & Hkept).
    apply (Hkept eq_refl eq_refl 1%nat
             {| t_host := "www.example.com"; t_ip := "1.2.3.5"; t_port := 443 |});
      [apply elem_of_cons; right; apply elem_of_cons; now left | reflexivity | reflexivity].
  - destruct (Hprobe (fun _ => fixtures.plainOnly) [0]%nat Background
                     [fixtures.port443] 12 2 "sweep/dev") as (_ & _ & _ & Hkept).
    apply (Hkept eq_refl eq_refl 0%nat fixtures.port443 "http" fixtures.badRequest);
      [apply elem_of_cons; now left | reflexivity | | reflexivity].
    apply elem_of_cons; right; apply elem_of_cons; now left.
Defined.

(** ** Zone transfers (zonetransfer.go) *)

Section ZoneTransfers.

Variables (zn : ZoneNet) (domain : string).

Lemma tryNameservers_step (ns : string) (rest : list string)
    (transfers : list ZoneTransfer) (transfer : ZoneTransfer) (hostnames : list string) :
  tryNameserver zn domain (length transfers) ns = (transfer, hostnames) ->
  transfers ++ imap (fun i ns => (tryNameserver zn domain (length transfers + i) ns).1)
                    (ns :: rest) =
  (transfers ++ [transfer]) ++
  imap (fun i ns => (tryNameserver zn domain (length (transfers ++ [transfer]) + i) ns).1)
       rest.
Proof.
  intros Ht. rewrite <- app_assoc. f_equal.
  rewrite imap_cons. rewrite Nat.add_0_r, Ht. cbn [fst app]. f_equal.
  apply imap_ext. intros i x _. cbn. rewrite length_app. simpl.
  now replace (length transfers + 1 + i)%nat with (length transfers + S i)%nat by lia.
Qed.

(** The nameservers that are tried before the context is found closed. *)
Lemma tryNameservers_spec (nameservers : list string) :
  forall (ctx : Ctx) (transfers : list ZoneTransfer) (acc : gset string * list string),
  exists hostnames,
    tryNameservers zn ctx domain nameservers transfers acc =
      (Some {| Transfers :=
                 transfers ++
                 imap (fun i ns => (tryNameserver zn domain (length transfers + i) ns).1)
                      (match ctx with
                       | None => nameservers
                       | Some k => take k nameservers
                       end);
               Hostnames := hostnames |},
       match ctx with
       | None => None
       | Some k => if (k <? length nameservers)%nat then Some ctxErr else None
       end).
Proof.
  induction nameservers as [|ns rest IH]; intros ctx transfers acc.
  - exists acc.2. destruct ctx as [k|]; simpl; rewrite ?take_nil, ?app_nil_r; reflexivity.
  - destruct ctx as [[|k]|]; cbn [tryNameservers poll].
    + exists acc.2. simpl. now rewrite app_nil_r.
    + destruct (tryNameserver zn domain (length transfers) ns) as [transfer hostnames] eqn:Ht.
      destruct (IH (Some k) (transfers ++ [transfer]) (fold_left appendUnseen hostnames acc))
        as [hs ->].
      exists hs. cbn [take]. rewrite (tryNameservers_step ns _ transfers transfer hostnames Ht).
      reflexivity.
    + destruct (tryNameserver zn domain (length transfers) ns) as [transfer hostnames] eqn:Ht.
      destruct (IH None (transfers ++ [transfer]) (fold_left appendUnseen hostnames acc))
        as [hs ->].
      exists hs. rewrite (tryNameservers_step ns _ transfers transfer hostnames Ht).
      reflexivity.
Qed.

Lemma tryNameserver_entry (i : nat) (ns : string) :
  let t := (tryNameserver zn domain i ns).1 in
  let nsHost := GoStrings.TrimSuffix ns "." in
  zt_Nameserver t = nsHost /\
  (zt_Success t = true <-> exists hs, attemptAXFR zn i domain nsHost = Ok hs) /\
  (forall hs, attemptAXFR zn i domain nsHost = Ok hs -> zt_Records t = len hs) /\
  (zt_Success t = false -> zt_Records t = 0).
Proof.
  unfold tryNameserver. destruct (attemptAXFR _ _ _ _) as [hs|e]; cbn.
  - repeat split; eauto. + now intros hs' [= ->]. + discriminate.
  - repeat split; try discriminate. intros [hs [=]].
Qed.

(** C9, as amended.  [AttemptZoneTransfers] returns an error exactly when
    the NS lookup fails, or yields no nameserver, or the context is found
    cancelled before one of the nameservers is tried; in the last case it
    also returns the entries of the nameservers tried until then.  When it
    returns no error it has recorded one entry per nameserver, in order,
    named after the nameserver without its final dot, whose success flag is
    set exactly when the AXFR to that nameserver completed, with the number
    of names harvested as its record count (zero on failure): a failed AXFR
    is never an error of the call. *)
Theorem AttemptZoneTransfers_contract (ctx : Ctx) :
  let out := AttemptZoneTransfers zn ctx domain in
  let entry := fun i ns => (tryNameserver zn domain i ns).1 in
  (is_Some out.2 <->
     (exists e, LookupNS zn domain = Err e) \/ LookupNS zn domain = Ok [] \/
     (exists nss k, LookupNS zn domain = Ok nss /\ ctx = Some k /\ (k < length nss)%nat)) /\
  (forall nss, LookupNS zn domain = Ok nss -> nss <> [] ->
     exists r, out.1 = Some r /\
       Transfers r = imap entry (match ctx with None => nss | Some k => take k nss end)) /\
  (out.2 = None ->
     exists nss r, LookupNS zn domain = Ok nss /\ out.1 = Some r /\
                   Transfers r = imap entry nss) /\
  (forall i ns,
     zt_Nameserver (entry i ns) = GoStrings.TrimSuffix ns "." /\
     (zt_Success (entry i ns) = true <->
        exists hs, attemptAXFR zn i domain (GoStrings.TrimSuffix ns ".") = Ok hs) /\
     (forall hs, attemptAXFR zn i domain (GoStrings.TrimSuffix ns ".") = Ok hs ->
        zt_Records (entry i ns) = len hs) /\
     (zt_Success (entry i ns) = false -> zt_Records (entry i ns) = 0)).
Proof.
  cbn zeta. unfold AttemptZoneTransfers.
  destruct (LookupNS zn domain) as [nss|e] eqn:Hns.
  - destruct nss as [|ns rest].
    + cbn. split; [| split; [| split]].
      * split; eauto.
      * intros nss [= <-] Hne. now contradict Hne.
      * discriminate.
      * intros i ns. apply tryNameserver_entry.
    + replace (len (ns :: rest) =? 0) with false by reflexivity.
      destruct (tryNameservers_spec (ns :: rest) ctx [] (∅, [])) as [hs ->].
      cbn [fst snd app length Nat.add]. split; [| split; [| split]].
      * split.
        -- destruct ctx as [k|]; [| intros Hs; destruct (is_Some_None Hs)].
           destruct (k <? S (length rest))%nat eqn:Hk;
             [| intros Hs; destruct (is_Some_None Hs)].
           apply Nat.ltb_lt in Hk. intros _. right. right.
           exists (ns :: rest), k. auto.
        -- intros [[e [=]]|[[=]|(nss & k & [= <-] & -> & Hk)]].
           cbn [length] in Hk. apply Nat.ltb_lt in Hk. rewrite Hk. eauto.
      * intros nss [= <-] _. eauto.
      * intros Hnone. exists (ns :: rest). eexists. split; [reflexivity |].
        split; [reflexivity |]. cbn [Transfers]. destruct ctx as [k|]; [| reflexivity].
        destruct (k <? S (length rest))%nat eqn:Hk; [discriminate |].
        apply Nat.ltb_ge in Hk. now rewrite take_ge.
      * intros i ns'. apply tryNameserver_entry.
  - cbn. split; [| split; [| split]].
    + split; eauto.
    + discriminate.
    + discriminate.
    + intros i ns. apply tryNameserver_entry.
Qed.

End ZoneTransfers.

(** With the context cancelled after the first of two nameservers was
    tried, the NS lookup has succeeded and yet the call returns an error,
    with one entry for two nameservers. *)
Lemma AttemptZoneTransfers_counterexample :
  LookupNS fixtures.refusing "example.com" = Ok ["ns1.example.com."; "ns2.example.com."] /\
  AttemptZoneTransfers fixtures.refusing (Some 1%nat) "example.com" =
    (Some {| Transfers := [{| zt_Nameserver := "ns1.example.com"; zt_Success := false;
                              zt_Records := 0 |}];
             Hostnames := [] |},
     Some "context canceled").
Proof. split; reflexivity. Qed.

(** ** Fingerprint rules (fingerprint.go) *)

Lemma existsb_elem_of {A} (f : A -> bool) (l : list A) :
  existsb f l = true <-> exists x, x ∈ l /\ f x = true.
Proof.
  rewrite existsb_exists. split; intros (x & Hin & Hf); exists x; split; auto;
    now apply list_elem_of_In.
Qed.

Lemma headerMatches_true (hm : headerMatch) (data : probeData) :
  headerMatches hm data = true <->
  exists v, headers data !! GoStrings.ToLower (hm_Name hm) = Some v /\
    ((exists re, regex hm = Some re /\ re v = true) \/ (hm_Pattern hm = "" /\ v <> "")).
Proof.
  unfold headerMatches. destruct (headers data !! _) as [v|].
  - rewrite orb_true_iff, andb_true_iff, negb_true_iff.
    rewrite String.eqb_eq, String.eqb_neq. split.
    + intros [Hre|Hp]; exists v; (split; [reflexivity |]); [left | now right].
      destruct (regex hm) as [re|]; [eauto | discriminate].
    + intros (v' & [= <-] & [(re & -> & Hre)|Hp]); auto.
  - split; [discriminate | intros (v & [=] & _)].
Qed.

(** C8, as amended.  A rule fires exactly when one of its conditions
    matches: a header condition, if the header is present under its
    lower-cased name and either the compiled pattern matches its value or
    the pattern is empty and the value is not; a body condition, if the
    lower-cased body contains the lower-cased substring; a cookie condition,
    if some cookie name equals it up to case.  The patterns that are not
    empty are compiled with the case-insensitive flag.  A fingerprinted
    service carries the technology of every rule that fires on its data,
    and nothing else. *)
Theorem matchesRule_semantics (rule : FingerprintRule) (data : probeData) :
  (matchesRule rule data = true <->
     (exists hm v, hm ∈ rule_Headers rule /\
        headers data !! GoStrings.ToLower (hm_Name hm) = Some v /\
        ((exists re, regex hm = Some re /\ re v = true) \/ (hm_Pattern hm = "" /\ v <> ""))) \/
     (exists substr, substr ∈ rule_Body rule /\
        GoStrings.Contains (GoStrings.ToLower (body data)) (GoStrings.ToLower substr) = true) \/
     (exists cookieName c, cookieName ∈ rule_Cookies rule /\ c ∈ cookies data /\
        GoStrings.ToLower c = GoStrings.ToLower cookieName)) /\
  (forall Compile decoded loaded hm,
     loaded ∈ loadFingerprints Compile decoded -> hm ∈ rule_Headers loaded ->
     regex hm = if String.eqb (hm_Pattern hm) "" then None
                else Compile ("(?i)" +:+ hm_Pattern hm)) /\
  (forall rules services probeResults i svc,
     services !! i = Some svc ->
     exists svc', FingerprintServices rules services probeResults !! i = Some svc' /\
       svc_URL svc' = svc_URL svc /\
       forall tech, tech ∈ svc_Technologies svc' <->
         exists fired, fired ∈ rules /\ matchesRule fired (dataFor probeResults svc) = true /\
           tech = {| tech_Name := rule_Name fired; tech_Category := rule_Category fired |}).
Proof.
  split; [| split].
  - unfold matchesRule. rewrite !orb_true_iff, !existsb_elem_of.
    split.
    + intros [[(hm & Hin & Hm)|(substr & Hin & Hc)]|(cookieName & Hin & Hc)].
      * apply headerMatches_true in Hm as (v & Hv & Hcond). left. eauto.
      * right. left. eauto.
      * apply existsb_elem_of in Hc as (c & Hc & Heq). apply String.eqb_eq in Heq.
        right. right. eauto.
    + intros [(hm & v & Hin & Hv & Hcond)|[(substr & Hin & Hc)|(cookieName & c & Hin & Hc & Heq)]].
      * left. left. exists hm. split; [exact Hin |]. apply headerMatches_true. eauto.
      * left. right. eauto.
      * right. exists cookieName. split; [exact Hin |]. apply existsb_elem_of.
        exists c. split; [exact Hc |]. now apply String.eqb_eq.
  - intros Compile decoded loaded hm. unfold loadFingerprints.
    rewrite list_elem_of_fmap. intros (raw & -> & _). cbn [rule_Headers].
    rewrite list_elem_of_fmap. intros (h & -> & _). cbn [regex hm_Pattern].
    now destruct (String.eqb (hm_Pattern h) "").
  - intros rules services probeResults i svc Hi. unfold FingerprintServices.
    rewrite list_lookup_fmap, Hi. eexists. split; [reflexivity |]. split; [reflexivity |].
    intros tech. cbn [svc_Technologies setTechnologies]. rewrite list_elem_of_fmap.
    split.
    + intros (fired & -> & Hin). apply list_elem_of_filter in Hin as [Hm Hin]. eauto.
    + intros (fired & Hin & Hm & ->). exists fired. split; [reflexivity |].
      now apply list_elem_of_filter.
Qed.

(** A header that is present with an empty value does not fire the rule
    that asks for its mere presence. *)
Lemma matchesRule_presence_counterexample :
  loadFingerprints (fun _ => None) [fixtures.cfRay] = [fixtures.cfRay] /\
  headers fixtures.emptyCfRay !! GoStrings.ToLower "CF-RAY" = Some "" /\
  matchesRule fixtures.cfRay fixtures.emptyCfRay = false.
Proof. split; [reflexivity | split; reflexivity]. Qed.

(** ** Retry policy of the remote sources *)

Section Fetch.

Variables (doRequest : Reply -> result string) (isRateLimit : error -> bool)
          (retryDelay : Z) (ctx : Ctx) (net : nat -> Reply) (url : string).

Lemma fetch_events :
  let events := (fetch doRequest isRateLimit retryDelay ctx net url).2 in
  (events = [Request url] \/ events = [Request url; Backoff retryDelay; Request url]) /\
  (events = [Request url; Backoff retryDelay; Request url] <->
     exists err, doRequest (net 0%nat) = Err err /\ isRateLimit err = false /\
                 (poll ctx).1 = false).
Proof.
  unfold fetch. destruct (doRequest (net 0%nat)) as [body|err]; cbn [snd].
  - split; [now left |]. split; [discriminate | intros (e & [=] & _)].
  - destruct (isRateLimit err) eqn:Hr; cbn [snd].
    + split; [now left |]. split; [discriminate |].
      intros (e & [= <-] & He & _). congruence.
    + destruct (poll ctx).1 eqn:Hp; cbn [snd].
      * split; [now left |]. split; [discriminate |]. intros (e & _ & _ & [=]).
      * split; [now right |]. split; eauto.
Qed.

Lemma fetch_rate_limited (err : error) :
  doRequest (net 0%nat) = Err err -> isRateLimit err = true ->
  fetch doRequest isRateLimit retryDelay ctx net url = (Err err, [Request url]).
Proof. intros H1 H2. unfold fetch. now rewrite H1, H2. Qed.

Lemma fetch_retried (err : error) :
  doRequest (net 0%nat) = Err err -> isRateLimit err = false -> (poll ctx).1 = false ->
  fetch doRequest isRateLimit retryDelay ctx net url =
    (doRequest (net 1%nat), [Request url; Backoff retryDelay; Request url]).
Proof. intros H1 H2 H3. unfold fetch. now rewrite H1, H2, H3. Qed.

End Fetch.

(** A 5xx status is not taken for a rate limit by any of the sources. *)
Lemma server_error_not_rate_limit (status : Z) :
  500 <= status <= 599 ->
  GoStrings.Contains ("crt.sh returned status " +:+ GoStrings.itoa status) "429" = false /\
  GoStrings.Contains ("hackertarget returned status " +:+ GoStrings.itoa status) "429" = false /\
  GoStrings.Contains ("hackertarget returned status " +:+ GoStrings.itoa status)
                     hackertargetRateMsg = false /\
  GoStrings.Contains ("otx returned status " +:+ GoStrings.itoa status) "429" = false.
Proof.
  intros Hs.
  assert (Forall (fun s =>
            GoStrings.Contains ("crt.sh returned status " +:+ GoStrings.itoa s) "429" = false /\
            GoStrings.Contains ("hackertarget returned status " +:+ GoStrings.itoa s) "429" = false /\
            GoStrings.Contains ("hackertarget returned status " +:+ GoStrings.itoa s)
                               hackertargetRateMsg = false /\
            GoStrings.Contains ("otx returned status " +:+ GoStrings.itoa s) "429" = false)
          (seqZ 500 100)) as Hall.
  { apply Forall_forall. intros s Hin. apply (bool_decide_unpack _). revert s Hin.
    apply Forall_forall. apply (bool_decide_unpack _). vm_compute. reflexivity. }
  rewrite Forall_forall in Hall. apply Hall. apply elem_of_seqZ. lia.
Qed.

(** ** Strings: lower case survives trimming *)

Lemma lowerChar_idem (c : ascii) :
  GoStrings.lowerChar (GoStrings.lowerChar c) = GoStrings.lowerChar c.
Proof. destruct c as [[] [] [] [] [] [] [] []]; reflexivity. Qed.

Lemma ToLower_idem (s : string) : GoStrings.ToLower (GoStrings.ToLower s) = GoStrings.ToLower s.
Proof. induction s as [|c s IH]; simpl; [reflexivity |]. now rewrite lowerChar_idem, IH. Qed.

Lemma lowered_cons (c : ascii) (s : string) :
  GoStrings.ToLower (String c s) = String c s <->
  GoStrings.lowerChar c = c /\ GoStrings.ToLower s = s.
Proof. simpl. split; [intros [= -> ->]; tauto | intros [-> ->]; reflexivity]. Qed.

Lemma lowered_trimLeft (s : string) :
  GoStrings.ToLower s = s -> GoStrings.ToLower (GoStrings.trimLeft s) = GoStrings.trimLeft s.
Proof.
  induction s as [|c s IH]; [reflexivity |]. intros H.
  cbn [GoStrings.trimLeft]. destruct (GoStrings.isSpace c); [| exact H].
  apply IH. now apply lowered_cons in H.
Qed.

Lemma lowered_trimRight (s : string) :
  GoStrings.ToLower s = s -> GoStrings.ToLower (GoStrings.trimRight s) = GoStrings.trimRight s.
Proof.
  induction s as [|c s IH]; [reflexivity |]. intros H.
  apply lowered_cons in H as [Hc Hs]. specialize (IH Hs).
  cbn [GoStrings.trimRight]. destruct (GoStrings.trimRight s) as [|c' r].
  - destruct (GoStrings.isSpace c); [reflexivity |]. apply lowered_cons. auto.
  - apply lowered_cons. auto.
Qed.

Lemma lowered_TrimSpace (s : string) :
  GoStrings.ToLower s = s -> GoStrings.ToLower (GoStrings.TrimSpace s) = GoStrings.TrimSpace s.
Proof. intros H. unfold GoStrings.TrimSpace. now apply lowered_trimRight, lowered_trimLeft. Qed.

Lemma lowered_dropN (n : nat) (s : string) :
  GoStrings.ToLower s = s -> GoStrings.ToLower (GoStrings.dropN n s) = GoStrings.dropN n s.
Proof.
  revert s. induction n as [|n IH]; intros [|c s] H; try exact H; try reflexivity.
  cbn [GoStrings.dropN]. apply IH. now apply lowered_cons in H.
Qed.

Lemma lowered_TrimPrefix (s p : string) :
  GoStrings.ToLower s = s -> GoStrings.ToLower (GoStrings.TrimPrefix s p) = GoStrings.TrimPrefix s p.
Proof.
  intros H. unfold GoStrings.TrimPrefix. destruct (GoStrings.HasPrefix s p); [| exact H].
  now apply lowered_dropN.
Qed.

(** ** De-duplication *)

Lemma appendUnseen_elem (l : list string) :
  forall (acc : gset string * list string) (x : string),
    x ∈ (fold_left appendUnseen l acc).2 -> x ∈ acc.2 \/ x ∈ l.
Proof.
  induction l as [|y l IH]; intros acc x; simpl; [auto |].
  intros H. apply IH in H as [H|H]; [| right; now apply elem_of_cons; right].
  unfold appendUnseen in H. destruct (decide (y ∈ acc.1)); [now left |].
  cbn [snd] in H. apply elem_of_app in H as [H|H]; [now left |].
  apply list_elem_of_singleton in H as ->. right. apply elem_of_cons. now left.
Qed.

(** As long as [seen] holds exactly what was output, the output has no
    duplicate and gains exactly the new strings. *)
Lemma appendUnseen_spec (l : list string) :
  forall acc : gset string * list string,
    (forall x, x ∈ acc.1 <-> x ∈ acc.2) -> NoDup acc.2 ->
    let r := fold_left appendUnseen l acc in
    (forall x, x ∈ r.1 <-> x ∈ r.2) /\ NoDup r.2 /\
    (forall x, x ∈ r.2 <-> x ∈ acc.2 \/ x ∈ l).
Proof.
  induction l as [|y l IH]; intros acc Hseen Hnd; cbn zeta; simpl.
  - split; [exact Hseen | split; [exact Hnd |]]. intros x. rewrite elem_of_nil. tauto.
  - destruct (IH (appendUnseen acc y)) as (H1 & H2 & H3).
    + intros x. unfold appendUnseen. destruct (decide (y ∈ acc.1)); [apply Hseen |].
      cbn [fst snd]. rewrite elem_of_union, elem_of_singleton, elem_of_app,
        list_elem_of_singleton, Hseen. tauto.
    + unfold appendUnseen. destruct (decide (y ∈ acc.1)) as [|Hy]; [exact Hnd |].
      cbn [snd]. apply NoDup_app. split; [exact Hnd |]. split; [| apply NoDup_singleton].
      intros x Hx Hx'. apply list_elem_of_singleton in Hx' as ->. apply Hy. now apply Hseen.
    + split; [exact H1 | split; [exact H2 |]]. intros x. rewrite H3, elem_of_cons.
      unfold appendUnseen. destruct (decide (y ∈ acc.1)) as [Hy|Hy].
      * split; [tauto |]. intros [H|[->|H]]; auto. left. now apply Hseen.
      * cbn [snd]. rewrite elem_of_app, list_elem_of_singleton. tauto.
Qed.

Lemma deduplicateSources_spec (ss : list string) :
  NoDup (deduplicateSources ss) /\ forall s, s ∈ deduplicateSources ss <-> s ∈ ss.
Proof.
  unfold deduplicateSources.
  destruct (appendUnseen_spec ss (∅, [])) as (_ & Hnd & Hel).
  - intros x. cbn. rewrite elem_of_empty, elem_of_nil. tauto.
  - constructor.
  - split; [exact Hnd |]. intros s. rewrite Hel. cbn. rewrite elem_of_nil. tauto.
Qed.

Lemma uniq_elem (candidates : list string) (x : string) :
  x ∈ uniq candidates -> x ∈ candidates.
Proof.
  unfold uniq. intros H. apply appendUnseen_elem in H as [H|H]; [inversion H | exact H].
Qed.

(** ** Every source returns lower-cased host names *)

Lemma crtshName_lowered (domain name h : string) :
  crtshName domain name = Some h -> GoStrings.ToLower h = h.
Proof.
  unfold crtshName.
  pose proof (lowered_TrimSpace _ (ToLower_idem name)) as Hl.
  destruct (String.eqb _ ""); [discriminate |].
  destruct (GoStrings.HasPrefix _ "*.").
  - destruct (inTarget _ _); [| discriminate]. intros [= <-]. now apply lowered_TrimPrefix.
  - destruct (inTarget _ _); [| discriminate]. now intros [= <-].
Qed.

Lemma hackertargetLine_lowered (domain line h : string) :
  hackertargetLine domain line = Some h -> GoStrings.ToLower h = h.
Proof.
  unfold hackertargetLine. destruct (String.eqb _ ""); [discriminate |].
  destruct (String.eqb _ ""); [discriminate |].
  destruct (inTarget _ _); [| discriminate]. intros [= <-]. apply ToLower_idem.
Qed.

Lemma otxHost_lowered (domain hostname h : string) :
  otxHost domain hostname = Some h -> GoStrings.ToLower h = h.
Proof.
  unfold otxHost. destruct (String.eqb _ ""); [discriminate |].
  destruct (inTarget _ _); [| discriminate]. intros [= <-]. apply ToLower_idem.
Qed.

Lemma axfrName_lowered (domain name h : string) :
  axfrName domain name = Some h -> GoStrings.ToLower h = h.
Proof.
  unfold axfrName. destruct (String.eqb _ ""); [discriminate |].
  destruct (_ && _); [discriminate |]. intros [= <-]. apply ToLower_idem.
Qed.

Lemma CrtshEnumerate_lowered remote ctx domain userAgent hosts h :
  CrtshEnumerate remote ctx domain userAgent = Ok hosts -> h ∈ hosts ->
  GoStrings.ToLower h = h.
Proof.
  unfold CrtshEnumerate. destruct (crtshFetch _ _ _).1; [| discriminate].
  destruct (unmarshal remote _) as [entries|]; [| discriminate].
  intros [= <-] Hin. apply uniq_elem in Hin.
  apply list_elem_of_bind in Hin as (nameValue & Hin & _).
  apply list_elem_of_omap in Hin as (name & _ & Hn). eapply crtshName_lowered, Hn.
Qed.

Lemma HackertargetEnumerate_lowered remote ctx domain userAgent hosts h :
  HackertargetEnumerate remote ctx domain userAgent = Ok hosts -> h ∈ hosts ->
  GoStrings.ToLower h = h.
Proof.
  unfold HackertargetEnumerate. destruct (hackertargetFetch _ _ _).1; [| discriminate].
  intros [= <-] Hin. apply uniq_elem in Hin.
  apply list_elem_of_omap in Hin as (line & _ & Hl). eapply hackertargetLine_lowered, Hl.
Qed.

Lemma OTXEnumerate_lowered remote ctx domain userAgent hosts h :
  OTXEnumerate remote ctx domain userAgent = Ok hosts -> h ∈ hosts ->
  GoStrings.ToLower h = h.
Proof.
  unfold OTXEnumerate, parseOTXResponse. destruct (otxFetch _ _ _).1; [| discriminate].
  destruct (unmarshal remote _) as [entries|]; [| discriminate].
  intros [= <-] Hin. apply uniq_elem in Hin.
  apply list_elem_of_omap in Hin as (hostname & _ & Hl). eapply otxHost_lowered, Hl.
Qed.

Lemma BruteEnumerate_lowered words lookupHost order ctx domain concurrency hosts h :
  BruteEnumerate words lookupHost order ctx domain concurrency = Ok hosts -> h ∈ hosts ->
  GoStrings.ToLower h = h.
Proof.
  unfold BruteEnumerate. destruct (len words =? 0); [discriminate |].
  intros [= <-] Hin. apply elem_of_pool in Hin as (i & sub & _ & _ & Hjob).
  destruct (lookupHost i sub) as [|ips]; [discriminate |].
  destruct (len ips =? 0); [discriminate |]. injection Hjob as <-. apply ToLower_idem.
Qed.

Lemma readEnvelopes_lowered domain nameserver envelopes :
  forall acc hostnames,
    (forall h, h ∈ acc.2 -> GoStrings.ToLower h = h) ->
    readEnvelopes domain nameserver envelopes acc = Ok hostnames ->
    forall h, h ∈ hostnames -> GoStrings.ToLower h = h.
Proof.
  induction envelopes as [|envelope rest IH]; intros acc hostnames Hacc; simpl.
  - intros [= <-]. exact Hacc.
  - destruct (env_Error envelope); [discriminate |]. apply IH.
    intros h Hin. apply appendUnseen_elem in Hin as [Hin|Hin]; [now apply Hacc |].
    apply list_elem_of_omap in Hin as (name & _ & Hn). eapply axfrName_lowered, Hn.
Qed.

Lemma tryNameserver_lowered zn domain n ns h :
  h ∈ (tryNameserver zn domain n ns).2 -> GoStrings.ToLower h = h.
Proof.
  unfold tryNameserver, attemptAXFR.
  destruct (TransferIn zn n domain _) as [envelopes|]; [| intros H; inversion H].
  destruct (readEnvelopes _ _ _ _) as [hostnames|] eqn:Hr; [| intros H; inversion H].
  cbn [snd]. eapply readEnvelopes_lowered, Hr. intros h' H'. inversion H'.
Qed.

Lemma tryNameservers_lowered zn domain nameservers :
  forall ctx transfers acc r err,
    (forall h, h ∈ acc.2 -> GoStrings.ToLower h = h) ->
    tryNameservers zn ctx domain nameservers transfers acc = (Some r, err) ->
    forall h, h ∈ Hostnames r -> GoStrings.ToLower h = h.
Proof.
  induction nameservers as [|ns rest IH]; intros ctx transfers acc r err Hacc; simpl.
  - intros [= <- _]. exact Hacc.
  - destruct (poll ctx) as [[] ctx']; [intros [= <- _]; exact Hacc |].
    destruct (tryNameserver zn domain (length transfers) ns) as [transfer hostnames] eqn:Ht.
    apply IH. intros h Hin. apply appendUnseen_elem in Hin as [Hin|Hin]; [now apply Hacc |].
    apply (tryNameserver_lowered zn domain (length transfers) ns). now rewrite Ht.
Qed.

Lemma AttemptZoneTransfers_lowered zn ctx domain r err h :
  AttemptZoneTransfers zn ctx domain = (Some r, err) -> h ∈ Hostnames r ->
  GoStrings.ToLower h = h.
Proof.
  unfold AttemptZoneTransfers. destruct (LookupNS zn domain) as [nss|]; [| discriminate].
  destruct (len nss =? 0); [discriminate |]. intros H. revert h.
  eapply tryNameservers_lowered, H. intros h' H'. inversion H'.
Qed.

Lemma found_lowered env ctx domain bruteConcurrency userAgent axfrOn src h :
  h ∈ found env ctx domain bruteConcurrency userAgent axfrOn src ->
  GoStrings.ToLower h = h.
Proof.
  unfold found. destruct src.
  - destruct (CrtshEnumerate _ _ _ _) eqn:E; [| intros H; inversion H].
    eapply CrtshEnumerate_lowered, E.
  - destruct (BruteEnumerate _ _ _ _ _ _) eqn:E; [| intros H; inversion H].
    eapply BruteEnumerate_lowered, E.
  - destruct (HackertargetEnumerate _ _ _ _) eqn:E; [| intros H; inversion H].
    eapply HackertargetEnumerate_lowered, E.
  - destruct (OTXEnumerate _ _ _ _) eqn:E; [| intros H; inversion H].
    eapply OTXEnumerate_lowered, E.
  - destruct axfrOn; [| intros H; inversion H].
    destruct (AttemptZoneTransfers _ _ _) as [[r|] [err|]] eqn:E; try (intros H; inversion H; fail).
    eapply AttemptZoneTransfers_lowered, E.
Qed.

(** ** The aggregator (stages.go) *)

Section AddHosts.

Variable name : string.

Lemma addHosts_is_Some (hosts : list string) (h : string) :
  forall m : gmap string (list string),
    is_Some (addHosts name hosts m !! h) <-> is_Some (m !! h) \/ h ∈ hosts.
Proof.
  unfold addHosts. induction hosts as [|h0 hosts IH]; intros m; simpl.
  - rewrite elem_of_nil. tauto.
  - rewrite IH, elem_of_cons. destruct (decide (h0 = h)) as [->|Hne].
    + rewrite lookup_insert_eq. split; [auto | intros _; left; eauto].
    + rewrite lookup_insert_ne by exact Hne. split; [tauto |].
      intros [H|[->|H]]; [tauto | contradiction | tauto].
Qed.

Lemma addHosts_elem (hosts : list string) (h s : string) :
  forall m : gmap string (list string),
    s ∈ default [] (addHosts name hosts m !! h) <->
    s ∈ default [] (m !! h) \/ (s = name /\ h ∈ hosts).
Proof.
  unfold addHosts. induction hosts as [|h0 hosts IH]; intros m; simpl.
  - rewrite elem_of_nil. tauto.
  - rewrite IH, elem_of_cons. destruct (decide (h0 = h)) as [->|Hne].
    + rewrite lookup_insert_eq. simpl. rewrite elem_of_app, list_elem_of_singleton.
      split; [intros [[H| ->]|[-> H]]; auto | intros [H|[-> [_|H]]]; auto].
    + rewrite lookup_insert_ne by exact Hne. split; [tauto |].
      intros [H|[-> [->|H]]]; [tauto | contradiction | tauto].
Qed.

Lemma addHosts_nonempty (hosts : list string) :
  forall m : gmap string (list string),
    (forall h l, m !! h = Some l -> l <> []) ->
    forall h l, addHosts name hosts m !! h = Some l -> l <> [].
Proof.
  unfold addHosts. induction hosts as [|h0 hosts IH]; intros m Hm; simpl; [exact Hm |].
  apply IH. intros h l. destruct (decide (h0 = h)) as [->|Hne].
  - rewrite lookup_insert_eq. intros [= <-]. destruct (default [] (m !! h)); discriminate.
  - rewrite lookup_insert_ne by exact Hne. apply Hm.
Qed.

End AddHosts.

Section Aggregator.

Variables (env : Env) (ctx : Ctx) (domain : string) (bc : Z).

Lemma grows_refl (e : Enumerator) : grows e e.
Proof.
  repeat split; auto. intros log H. exists []. now rewrite app_nil_r.
Qed.

Lemma grows_trans (e1 e2 e3 : Enumerator) : grows e1 e2 -> grows e2 e3 -> grows e1 e3.
Proof.
  intros (Hu & Ha & Hw & Hp) (Hu' & Ha' & Hw' & Hp'). repeat split; try congruence; auto.
  intros log H. destruct (Hp log H) as [more1 H1]. destruct (Hp' _ H1) as [more2 H2].
  exists (more1 ++ more2). now rewrite app_assoc.
Qed.

Lemma grows_report (ev : Event) (e : Enumerator) : grows e (report ev e).
Proof.
  repeat split; auto. intros log H. exists [ev]. cbn. now rewrite H.
Qed.

Lemma grows_addWarning (w : string) (e : Enumerator) : grows e (addWarning w e).
Proof.
  repeat split; auto.
  - intros w' H. cbn. apply elem_of_app. now left.
  - intros log H. exists []. now rewrite app_nil_r.
Qed.

Lemma grows_setZoneTransfers (zts : list ZoneTransfer) (e : Enumerator) :
  grows e (setZoneTransfers zts e).
Proof.
  repeat split; auto. intros log H. exists []. now rewrite app_nil_r.
Qed.

Ltac grows_tac :=
  first
    [ apply grows_refl | apply grows_report | apply grows_addWarning
    | apply grows_setZoneTransfers
    | eapply grows_trans;
      [| first [apply grows_report | apply grows_addWarning | apply grows_setZoneTransfers]];
      grows_tac ].

Lemma runSource_spec (src : Source) (m : gmap string (list string)) (e : Enumerator) :
  (runSource env ctx domain bc src (m, e)).1 =
    addHosts (sourceName src) (found env ctx domain bc (UserAgent e) (AXFR e) src) m /\
  grows e (runSource env ctx domain bc src (m, e)).2.
Proof.
  unfold runSource, found. destruct src; cbn [sourceName].
  - destruct (CrtshEnumerate _ _ _ _); cbn [fst snd]; (split; [reflexivity | grows_tac]).
  - destruct (BruteEnumerate _ _ _ _ _ _); cbn [fst snd]; (split; [reflexivity | grows_tac]).
  - destruct (HackertargetEnumerate _ _ _ _); cbn [fst snd]; (split; [reflexivity | grows_tac]).
  - destruct (OTXEnumerate _ _ _ _); cbn [fst snd]; (split; [reflexivity | grows_tac]).
  - destruct (AXFR e); cbn [negb fst snd]; [| split; [reflexivity | grows_tac]].
    destruct (AttemptZoneTransfers _ _ _) as [[r|] [err|]]; cbn [fst snd];
      (split; [reflexivity |]); try grows_tac.
    destruct (0 <? _); grows_tac.
Qed.

(** The map after the goroutines in [order] have merged their hosts. *)
Lemma sources_fold (order : list Source) :
  forall (m : gmap string (list string)) (e : Enumerator),
    let st := fold_left (fun st src => runSource env ctx domain bc src st) order (m, e) in
    grows e st.2 /\
    (forall h, is_Some (st.1 !! h) <->
       is_Some (m !! h) \/
       exists src, src ∈ order /\ h ∈ found env ctx domain bc (UserAgent e) (AXFR e) src) /\
    (forall h s, s ∈ default [] (st.1 !! h) <->
       s ∈ default [] (m !! h) \/
       exists src, src ∈ order /\ s = sourceName src /\
                   h ∈ found env ctx domain bc (UserAgent e) (AXFR e) src) /\
    ((forall h l, m !! h = Some l -> l <> []) ->
     forall h l, st.1 !! h = Some l -> l <> []).
Proof.
  induction order as [|src order IH]; intros m e; cbn zeta; cbn [fold_left fst snd].
  - split; [apply grows_refl |]. split; [| split; [| auto]].
    + intros h. split; [auto | intros [H|(src & H & _)]; [auto | inversion H]].
    + intros h s. split; [auto | intros [H|(src & H & _)]; [auto | inversion H]].
  - destruct (runSource env ctx domain bc src (m, e)) as [m1 e1] eqn:Hstep.
    pose proof (runSource_spec src m e) as [Hm He]. rewrite Hstep in Hm, He.
    cbn [fst snd] in Hm, He. destruct (IH m1 e1) as (Hg & Hsome & Helem & Hne).
    pose proof He as (Hu & Ha & _). rewrite Hu, Ha in Hsome, Helem.
    split; [exact (grows_trans _ _ _ He Hg) |].
    split; [| split].
    + intros h. rewrite Hsome, Hm, addHosts_is_Some. split.
      * intros [[H|H]|(src' & Hin & H)]; auto.
        -- right. exists src. split; [apply elem_of_cons; now left | exact H].
        -- right. exists src'. split; [apply elem_of_cons; now right | exact H].
      * intros [H|(src' & Hin & H)]; auto.
        apply elem_of_cons in Hin as [->|Hin]; [auto |]. right. eauto.
    + intros h s. rewrite Helem, Hm, addHosts_elem. split.
      * intros [[H|[-> H]]|(src' & Hin & H)]; auto.
        -- right. exists src. split; [apply elem_of_cons; now left | auto].
        -- right. exists src'. split; [apply elem_of_cons; now right | exact H].
      * intros [H|(src' & Hin & -> & H)]; auto.
        apply elem_of_cons in Hin as [->|Hin]; [auto |]. right. eauto.
    + intros Hm0. apply Hne. rewrite Hm. now apply addHosts_nonempty.
Qed.

End Aggregator.

Section Enumerate.

Variables (env : Env) (ctx : Ctx) (domain : string) (concurrency : Z) (e : Enumerator).

(** The map [Enumerate] has built when [wg.Wait()] returns. *)
Lemma Enumerate_result :
  exists (M : gmap string (list string)) (e' : Enumerator),
    Enumerate env ctx domain concurrency e =
      ((merge_sort hostLe
          ((fun '(host, sources) =>
              {| sd_Host := host; sd_Sources := deduplicateSources sources |})
             <$> map_to_list M), None), e') /\
    grows e e' /\
    (forall h, is_Some (M !! h) <->
       h = GoStrings.ToLower domain \/
       exists src, src ∈ env_sources env /\
         h ∈ found env ctx domain (bruteConcurrency concurrency) (UserAgent e) (AXFR e) src) /\
    (forall h s, s ∈ default [] (M !! h) <->
       (s = "root" /\ h = GoStrings.ToLower domain) \/
       exists src, src ∈ env_sources env /\ s = sourceName src /\
         h ∈ found env ctx domain (bruteConcurrency concurrency) (UserAgent e) (AXFR e) src) /\
    (forall h l, M !! h = Some l -> l <> []).
Proof.
  unfold Enumerate.
  pose proof (sources_fold env ctx domain (bruteConcurrency concurrency) (env_sources env)
                {[ GoStrings.ToLower domain := ["root"] ]} e) as Hfold.
  cbn zeta in Hfold.
  destruct (fold_left _ (env_sources env) _) as [M e'].
  cbn [fst snd] in Hfold. destruct Hfold as (Hg & Hsome & Helem & Hne).
  assert (is_Some (M !! GoStrings.ToLower domain)) as Hroot.
  { apply Hsome. left. rewrite lookup_singleton_eq. eauto. }
  assert (size M <> 0%nat) as Hsize.
  { apply map_size_non_empty_iff. intros ->. rewrite lookup_empty in Hroot.
    destruct (is_Some_None Hroot). }
  destruct (Z.eqb_spec (Z.of_nat (size M)) 0) as [Hz|_]; [lia |].
  exists M, e'. split; [reflexivity |]. split; [exact Hg |]. split; [| split].
  - intros h. rewrite Hsome. destruct (decide (GoStrings.ToLower domain = h)) as [<-|Hne'].
    + rewrite lookup_singleton_eq. split; [auto | intros _; left; eauto].
    + rewrite lookup_singleton_ne by exact Hne'. split.
      * intros [H|H]; [destruct (is_Some_None H) | auto].
      * intros [->|H]; [contradiction | auto].
  - intros h s. rewrite Helem. destruct (decide (GoStrings.ToLower domain = h)) as [<-|Hne'].
    + rewrite lookup_singleton_eq. cbn. rewrite list_elem_of_singleton. tauto.
    + rewrite lookup_singleton_ne by exact Hne'. cbn. rewrite elem_of_nil.
      split; [tauto |]. intros [[_ ->]|H]; [contradiction | auto].
  - apply Hne. intros h l. destruct (decide (GoStrings.ToLower domain = h)) as [<-|Hne'].
    + rewrite lookup_singleton_eq. now intros [= <-].
    + now rewrite lookup_singleton_ne.
Qed.

Lemma elem_of_subdomains (M : gmap string (list string)) (sd : Subdomain) :
  sd ∈ merge_sort hostLe
         ((fun '(host, sources) =>
             {| sd_Host := host; sd_Sources := deduplicateSources sources |})
            <$> map_to_list M) <->
  exists l, M !! sd_Host sd = Some l /\ sd_Sources sd = deduplicateSources l.
Proof.
  rewrite merge_sort_Permutation, list_elem_of_fmap. split.
  - intros ([h l] & -> & Hin). apply elem_of_map_to_list in Hin. cbn. eauto.
  - intros (l & Hl & Hs). exists (sd_Host sd, l). split.
    + destruct sd as [h ss]. cbn in *. now subst ss.
    + now apply elem_of_map_to_list.
Qed.

Lemma NoDup_subdomains (M : gmap string (list string)) :
  NoDup (sd_Host <$>
         merge_sort hostLe
           ((fun '(host, sources) =>
               {| sd_Host := host; sd_Sources := deduplicateSources sources |})
              <$> map_to_list M)).
Proof.
  rewrite merge_sort_Permutation, <- list_fmap_compose.
  rewrite (list_fmap_ext _ fst (map_to_list M)).
  - apply NoDup_fst_map_to_list.
  - now intros i [h l] _.
Qed.

(** C2.  Whatever the sources answer, and so also when all of them fail,
    [Enumerate] returns no error and a list that holds the lower-cased root
    domain, with "root" in its provenance. *)
Theorem root_always_enumerated :
  let out := (Enumerate env ctx domain concurrency e).1 in
  out.2 = None /\
  exists sd, sd ∈ out.1 /\ sd_Host sd = GoStrings.ToLower domain /\ "root" ∈ sd_Sources sd.
Proof.
  destruct Enumerate_result as (M & e' & -> & _ & Hsome & Helem & _). cbn.
  split; [reflexivity |].
  destruct (proj2 (Hsome (GoStrings.ToLower domain))) as [l Hl]; [now left |].
  exists {| sd_Host := GoStrings.ToLower domain; sd_Sources := deduplicateSources l |}.
  split; [apply elem_of_subdomains; cbn; eauto |]. split; [reflexivity |]. cbn.
  apply deduplicateSources_spec. specialize (Helem (GoStrings.ToLower domain) "root").
  rewrite Hl in Helem. apply Helem. now left.
Qed.

Lemma found_started (src : Source) (h : string) :
  h ∈ found env ctx domain (bruteConcurrency concurrency) (UserAgent e) (AXFR e) src ->
  src ∈ started e.
Proof.
  unfold started. destruct src; intros H; try (apply elem_of_app; left; set_solver).
  unfold found in H. destruct (AXFR e); [| inversion H].
  apply elem_of_app. right. now apply list_elem_of_singleton.
Qed.

(** C5.  In the list [Enumerate] returns the host names are pairwise
    distinct and lower-cased, and every entry has a provenance list that is
    not empty, has no duplicate, and holds exactly: "root", on the entry of
    the root domain; and the name of every source whose goroutine was
    started in this call and returned this host.  So a host that two
    sources return carries the names of both, and every host a source
    returns has an entry. *)
Theorem aggregate_invariant :
  let subs := (Enumerate env ctx domain concurrency e).1.1 in
  let finds := found env ctx domain (bruteConcurrency concurrency) (UserAgent e) (AXFR e) in
  NoDup (sd_Host <$> subs) /\
  (forall sd, sd ∈ subs ->
     GoStrings.ToLower (sd_Host sd) = sd_Host sd /\
     sd_Sources sd <> [] /\ NoDup (sd_Sources sd) /\
     forall s, s ∈ sd_Sources sd <->
       (s = "root" /\ sd_Host sd = GoStrings.ToLower domain) \/
       exists src, src ∈ env_sources env /\ src ∈ started e /\
                   s = sourceName src /\ sd_Host sd ∈ finds src) /\
  (forall src h, src ∈ env_sources env -> h ∈ finds src ->
     exists sd, sd ∈ subs /\ sd_Host sd = h /\ sourceName src ∈ sd_Sources sd).
Proof.
  destruct Enumerate_result as (M & e' & -> & _ & Hsome & Helem & Hne). cbn zeta. cbn [fst].
  split; [apply NoDup_subdomains | split].
  - intros sd Hsd. apply elem_of_subdomains in Hsd as (l & Hl & Hs). rewrite Hs.
    destruct (deduplicateSources_spec l) as [Hnd Hel].
    split; [| split; [| split; [exact Hnd |]]].
    + destruct (proj1 (Hsome (sd_Host sd))) as [->|(src & _ & Hf)]; [eauto | |].
      * apply ToLower_idem.
      * eapply found_lowered, Hf.
    + specialize (Hne _ _ Hl). destruct l as [|s l]; [contradiction |].
      intros Hnil. specialize (proj2 (Hel s)). rewrite Hnil.
      intros H. specialize (H ltac:(apply elem_of_cons; now left)). inversion H.
    + intros s. rewrite Hel. specialize (Helem (sd_Host sd) s). rewrite Hl in Helem.
      cbn in Helem. rewrite Helem. split.
      * intros [H|(src & Hin & -> & Hf)]; [now left |]. right. exists src.
        repeat split; auto. eapply found_started, Hf.
      * intros [H|(src & Hin & _ & -> & Hf)]; [now left |]. right. eauto.
  - intros src h Hin Hf.
    destruct (proj2 (Hsome h)) as [l Hl]; [right; eauto |].
    exists {| sd_Host := h; sd_Sources := deduplicateSources l |}.
    split; [apply elem_of_subdomains; cbn; eauto |]. split; [reflexivity |]. cbn.
    apply deduplicateSources_spec. specialize (Helem h (sourceName src)).
    rewrite Hl in Helem. apply Helem. right. eauto.
Qed.

End Enumerate.

(** ** A failing source is a warning, not a failure of the run *)

Lemma sources_fold_warned env ctx domain bc e0 src msg (recorded : bool)
    (order : list Source) :
  (forall m e1, UserAgent e1 = UserAgent e0 ->
     (runSource env ctx domain bc src (m, e1)).2 =
       if recorded then addWarning msg (report (Warn msg) e1) else report (Warn msg) e1) ->
  src ∈ order ->
  forall m e1, grows e0 e1 ->
    let e' := (fold_left (fun st s => runSource env ctx domain bc s st) order (m, e1)).2 in
    (forall log0, Progress e0 = Some log0 ->
       exists log', Progress e' = Some log' /\ Warn msg ∈ log') /\
    (recorded = true -> msg ∈ warnings e').
Proof.
  intros src_fails. induction order as [|s order IH]; intros Hin m e1 Hg; [inversion Hin |].
  cbn zeta. cbn [fold_left].
  destruct (runSource env ctx domain bc s (m, e1)) as [m2 e2] eqn:Hstep.
  pose proof (runSource_spec env ctx domain bc s m e1) as [_ Hg2]. rewrite Hstep in Hg2.
  cbn [snd] in Hg2.
  destruct (decide (s = src)) as [->|Hne].
  - pose proof (sources_fold env ctx domain bc order m2 e2) as [(_ & _ & Hw3 & Hp3) _].
    pose proof (src_fails m e1 (proj1 Hg)) as He2. rewrite Hstep in He2. cbn [snd] in He2.
    destruct Hg as (_ & _ & _ & Hp). split.
    + intros log0 H0. destruct (Hp log0 H0) as [more H1].
      destruct (Hp3 ((log0 ++ more) ++ [Warn msg])) as [more' H3].
      { subst e2. destruct recorded; cbn; now rewrite H1. }
      eexists. split; [exact H3 |]. rewrite !elem_of_app, list_elem_of_singleton. auto.
    + intros Hr. apply Hw3. subst e2. rewrite Hr. cbn. apply elem_of_app. right.
      now apply list_elem_of_singleton.
  - apply IH.
    + apply elem_of_cons in Hin as [->|Hin]; [contradiction | exact Hin].
    + eapply grows_trans; eassumption.
Qed.

Lemma Enumerate_enumerator env ctx domain concurrency e :
  (Enumerate env ctx domain concurrency e).2 =
  (fold_left (fun st s => runSource env ctx domain (bruteConcurrency concurrency) s st)
             (env_sources env) ({[ GoStrings.ToLower domain := ["root"] ]}, e)).2.
Proof.
  unfold Enumerate. destruct (fold_left _ _ _) as [M e'].
  now destruct (Z.of_nat (size M) =? 0).
Qed.

(** A source that fails leaves its warning behind when [Enumerate] returns. *)
Lemma Enumerate_warned env ctx domain concurrency e src msg (recorded : bool) :
  (forall m e1, UserAgent e1 = UserAgent e ->
     (runSource env ctx domain (bruteConcurrency concurrency) src (m, e1)).2 =
       if recorded then addWarning msg (report (Warn msg) e1) else report (Warn msg) e1) ->
  src ∈ env_sources env ->
  let e' := (Enumerate env ctx domain concurrency e).2 in
  (forall log0, Progress e = Some log0 ->
     exists log', Progress e' = Some log' /\ Warn msg ∈ log') /\
  (recorded = true -> msg ∈ warnings e').
Proof.
  intros Hfails Hin. cbn zeta. rewrite Enumerate_enumerator.
  apply (sources_fold_warned env ctx domain _ e src msg recorded _ Hfails Hin).
  apply grows_refl.
Qed.

Lemma fetch_result doRequest isRateLimit retryDelay ctx net url :
  (fetch doRequest isRateLimit retryDelay ctx net url).2 =
    [Request url; Backoff retryDelay; Request url] ->
  (fetch doRequest isRateLimit retryDelay ctx net url).1 = doRequest (net 1%nat).
Proof.
  unfold fetch. destruct (doRequest (net 0%nat)); [discriminate |].
  destruct (isRateLimit e); [discriminate |]. now destruct (poll ctx).1.
Qed.

Lemma crtsh_rate_limited remote ctx domain userAgent read :
  replies remote 0%nat = HTTPReply 429 read ->
  CrtshEnumerate remote ctx domain userAgent =
    Err ("crt.sh fetch for " +:+ domain +:+ ": " +:+ "crt.sh rate limited (429)").
Proof.
  intros H. unfold CrtshEnumerate, crtshFetch.
  erewrite fetch_rate_limited; [reflexivity | now rewrite H | reflexivity].
Qed.

Lemma hackertarget_rate_limited remote ctx domain userAgent read :
  replies remote 0%nat = HTTPReply 429 read ->
  HackertargetEnumerate remote ctx domain userAgent =
    Err ("hackertarget fetch for " +:+ domain +:+ ": " +:+ "hackertarget rate limited (429)").
Proof.
  intros H. unfold HackertargetEnumerate, hackertargetFetch.
  erewrite fetch_rate_limited; [reflexivity | now rewrite H | reflexivity].
Qed.

Lemma otx_rate_limited remote ctx domain userAgent read :
  replies remote 0%nat = HTTPReply 429 read ->
  OTXEnumerate remote ctx domain userAgent =
    Err ("otx fetch for " +:+ domain +:+ ": " +:+ "otx rate limited (429)").
Proof.
  intros H. unfold OTXEnumerate, otxFetch.
  erewrite fetch_rate_limited; [reflexivity | now rewrite H | reflexivity].
Qed.

Lemma server_error_requests (status : Z) (read : result string) :
  500 <= status <= 599 ->
  crtshDoRequest (HTTPReply status read) =
    Err ("crt.sh returned status " +:+ GoStrings.itoa status) /\
  hackertargetDoRequest (HTTPReply status read) =
    Err ("hackertarget returned status " +:+ GoStrings.itoa status) /\
  otxDoRequest (HTTPReply status read) =
    Err ("otx returned status " +:+ GoStrings.itoa status).
Proof.
  intros Hs. unfold crtshDoRequest, hackertargetDoRequest, otxDoRequest.
  destruct (Z.eqb_spec status 429) as [|_]; [lia |].
  destruct (Z.eqb_spec status 200) as [|_]; [lia |].
  destruct (Z.leb_spec 500 status); [| lia]. auto.
Qed.

(** What the fetch functions do.  Each remote source sends its request
    once or twice, the second time after its fixed delay, and it retries
    exactly when the first request failed with an error that it does not
    take for a rate limit (no "429" in its message) and the context is
    still open after the delay: that covers the 5xx statuses, and, on the
    same condition, transport errors, every other status that is not 200,
    and a body that cannot be read.  A 429 is never retried (nor is
    HackerTarget's plain-text notice of a rate limit); the source then
    fails, and [Enumerate] still returns no error: the failure is a warning
    on its progress reporter and, for HackerTarget and OTX, a warning kept
    for the result. *)
Theorem retry_policy (ctx : Ctx) (net : nat -> Reply) (url : string) :
  let policy :=
    fun (fetched : result string * list FetchEvent) (doRequest : Reply -> result string)
        (rateLimited : error -> bool) (delay : Z) (limited : error) =>
      (fetched.2 = [Request url] \/ fetched.2 = [Request url; Backoff delay; Request url]) /\
      (fetched.2 = [Request url; Backoff delay; Request url] <->
         exists err, doRequest (net 0%nat) = Err err /\ rateLimited err = false /\
                     (poll ctx).1 = false) /\
      (fetched.2 = [Request url; Backoff delay; Request url] ->
         fetched.1 = doRequest (net 1%nat)) /\
      (forall read, net 0%nat = HTTPReply 429 read -> fetched = (Err limited, [Request url])) /\
      (forall status read, net 0%nat = HTTPReply status read -> 500 <= status <= 599 ->
         (poll ctx).1 = false ->
         fetched.2 = [Request url; Backoff delay; Request url]) in
  policy (crtshFetch ctx net url) crtshDoRequest
         (fun err => GoStrings.Contains err "429") 3 "crt.sh rate limited (429)" /\
  policy (hackertargetFetch ctx net url) hackertargetDoRequest
         (fun err => GoStrings.Contains err "429" ||
                     GoStrings.Contains err "API count exceeded")
         2 "hackertarget rate limited (429)" /\
  policy (otxFetch ctx net url) otxDoRequest
         (fun err => GoStrings.Contains err "429") 3 "otx rate limited (429)" /\
  (forall raw, net 0%nat = HTTPReply 200 (Ok raw) ->
     GoStrings.Contains (GoStrings.limit hackertargetMaxBody raw) "API count exceeded" = true ->
     hackertargetFetch ctx net url = (Err "hackertarget: API count exceeded", [Request url])) /\
  (forall env runCtx domain concurrency e,
     let e' := (Enumerate env runCtx domain concurrency e).2 in
     let surfaces := fun (msg : string) (recorded : bool) =>
       (forall log0, Progress e = Some log0 ->
          exists log', Progress e' = Some log' /\ Warn msg ∈ log') /\
       (recorded = true -> msg ∈ warnings e') in
     (Enumerate env runCtx domain concurrency e).1.2 = None /\
     (forall read, crtsh ∈ env_sources env ->
        replies (env_crtsh env) 0%nat = HTTPReply 429 read ->
        surfaces ("crt.sh: crt.sh fetch for " +:+ domain +:+ ": crt.sh rate limited (429)")
                 false) /\
     (forall read, hackertarget ∈ env_sources env ->
        replies (env_hackertarget env) 0%nat = HTTPReply 429 read ->
        surfaces ("hackertarget: hackertarget fetch for " +:+ domain +:+
                  ": hackertarget rate limited (429)") true) /\
     (forall read, otx ∈ env_sources env ->
        replies (env_otx env) 0%nat = HTTPReply 429 read ->
        surfaces ("otx: otx fetch for " +:+ domain +:+ ": otx rate limited (429)") true)).
Proof.
  cbn zeta. cbn beta.
  split; [| split; [| split; [| split]]].
  - unfold crtshFetch. split; [apply fetch_events |]. split; [apply fetch_events |].
    split; [apply fetch_result |]. split.
    + intros read H. apply fetch_rate_limited; [now rewrite H | reflexivity].
    + intros status read H Hs Hp.
      destruct (server_error_requests status read Hs) as (Hreq & _ & _).
      destruct (server_error_not_rate_limit status Hs) as (Hnot & _).
      erewrite fetch_retried; [reflexivity | rewrite H; exact Hreq | exact Hnot | exact Hp].
  - unfold hackertargetFetch. split; [apply fetch_events |]. split; [apply fetch_events |].
    split; [apply fetch_result |]. split.
    + intros read H. apply fetch_rate_limited; [now rewrite H | reflexivity].
    + intros status read H Hs Hp.
      destruct (server_error_requests status read Hs) as (_ & Hreq & _).
      destruct (server_error_not_rate_limit status Hs) as (_ & Hnot & Hnot' & _).
      erewrite fetch_retried; [reflexivity | rewrite H; exact Hreq | | exact Hp].
      cbv beta. now rewrite Hnot, Hnot'.
  - unfold otxFetch. split; [apply fetch_events |]. split; [apply fetch_events |].
    split; [apply fetch_result |]. split.
    + intros read H. apply fetch_rate_limited; [now rewrite H | reflexivity].
    + intros status read H Hs Hp.
      destruct (server_error_requests status read Hs) as (_ & _ & Hreq).
      destruct (server_error_not_rate_limit status Hs) as (_ & _ & _ & Hnot).
      erewrite fetch_retried; [reflexivity | rewrite H; exact Hreq | exact Hnot | exact Hp].
  - intros raw H Hc. unfold hackertargetFetch.
    apply fetch_rate_limited; [| reflexivity].
    rewrite H. cbn [hackertargetDoRequest]. unfold hackertargetRateMsg.
    replace (200 =? 429) with false by reflexivity.
    replace (500 <=? 200) with false by reflexivity.
    replace (negb (200 =? 200)) with false by reflexivity. now rewrite Hc.
  - intros env runCtx domain concurrency e.
    split; [| split; [| split]].
    + now destruct (Enumerate_result env runCtx domain concurrency e) as (M & e' & -> & _).
    + intros read Hin H.
      apply (Enumerate_warned env runCtx domain concurrency e crtsh _ false); [| exact Hin].
      intros m e1 _. unfold runSource. now rewrite (crtsh_rate_limited _ _ _ _ read H).
    + intros read Hin H.
      apply (Enumerate_warned env runCtx domain concurrency e hackertarget _ true);
        [| exact Hin].
      intros m e1 _. unfold runSource. now rewrite (hackertarget_rate_limited _ _ _ _ read H).
    + intros read Hin H.
      apply (Enumerate_warned env runCtx domain concurrency e otx _ true); [| exact Hin].
      intros m e1 _. unfold runSource. now rewrite (otx_rate_limited _ _ _ _ read H).
Qed.

(** C6.  The claim fails on the code: a 404 is neither a transport error
    nor a 5xx status, and each of the three sources sends its request a
    second time after its delay, although the fetch functions announce
    "Retry once after delay for server errors". *)
Theorem fetch_retries_not_found :
  let notFound := fun _ : nat => HTTPReply 404 (Ok "") in
  crtshFetch Background notFound "https://crt.sh/?q=%25.example.com&output=json" =
    (Err "crt.sh returned status 404",
     [Request "https://crt.sh/?q=%25.example.com&output=json"; Backoff 3;
      Request "https://crt.sh/?q=%25.example.com&output=json"]) /\
  hackertargetFetch Background notFound "https://api.hackertarget.com/hostsearch/?q=example.com" =
    (Err "hackertarget returned status 404",
     [Request "https://api.hackertarget.com/hostsearch/?q=example.com"; Backoff 2;
      Request "https://api.hackertarget.com/hostsearch/?q=example.com"]) /\
  otxFetch Background notFound
           "https://otx.alienvault.com/api/v1/indicators/domain/example.com/passive_dns" =
    (Err "otx returned status 404",
     [Request "https://otx.alienvault.com/api/v1/indicators/domain/example.com/passive_dns";
      Backoff 3;
      Request "https://otx.alienvault.com/api/v1/indicators/domain/example.com/passive_dns"]).
Proof. repeat split; reflexivity. Qed.

(** ** The theorems at work on concrete runs *)

Lemma aggregate_invariant_witness :
  let subs := (Enumerate fixtures.liveEnv Background "example.com" 25
                         (w_enumerator fixtures.world0)).1.1 in
  (exists sd, sd ∈ subs /\ sd_Host sd = "www.example.com" /\ "brute" ∈ sd_Sources sd) /\
  (GoStrings.ToLower "www.example.com" = "www.example.com" /\
   ["crt.sh"; "brute"] <> [] /\ NoDup ["crt.sh"; "brute"]).
Proof.
  pose proof (aggregate_invariant fixtures.liveEnv Background "example.com" 25
                (w_enumerator fixtures.world0)) as (_ & Hentry & Hfound).
  split.
  - apply (Hfound brute "www.example.com").
    + apply elem_of_cons; right; apply elem_of_cons; right; apply elem_of_cons; now left.
    + vm_compute. apply list_elem_of_singleton. reflexivity.
  - destruct (Hentry {| sd_Host := "www.example.com"; sd_Sources := ["crt.sh"; "brute"] |})
      as (Hlow & Hne & Hnd & _).
    + vm_compute. apply elem_of_cons; right; apply elem_of_cons; right.
      apply list_elem_of_singleton. reflexivity.
    + exact (conj Hlow (conj Hne Hnd)).
Defined.

Lemma retry_policy_witness :
  let url := "https://otx.alienvault.com/api/v1/indicators/domain/example.com/passive_dns" in
  let flaky := fun n : nat => if (n =? 0)%nat then HTTPReply 503 (Ok "") else HTTPReply 200 (Ok "{}") in
  (otxFetch Background flaky url).2 = [Request url; Backoff 3; Request url] /\
  otxFetch Background (fun _ => HTTPReply 429 (Ok "")) url =
    (Err "otx rate limited (429)", [Request url]) /\
  "otx: otx fetch for example.com: otx rate limited (429)"
    ∈ warnings (Enumerate fixtures.liveEnv Background "example.com" 25
                          (w_enumerator fixtures.world0)).2.
Proof.
  cbn zeta. split; [| split].
  - destruct (retry_policy Background
                (fun n : nat => if (n =? 0)%nat then HTTPReply 503 (Ok "")
                                else HTTPReply 200 (Ok "{}"))
                "https://otx.alienvault.com/api/v1/indicators/domain/example.com/passive_dns")
      as (_ & _ & (_ & _ & _ & _ & Hretry) & _).
    apply (Hretry 503 (Ok "")); [reflexivity | lia | reflexivity].
  - destruct (retry_policy Background (fun _ => HTTPReply 429 (Ok ""))
                "https://otx.alienvault.com/api/v1/indicators/domain/example.com/passive_dns")
      as (_ & _ & (_ & _ & _ & Hlimit & _) & _).
    apply (Hlimit (Ok "")). reflexivity.
  - destruct (retry_policy Background (fun _ => HTTPReply 429 (Ok "")) "")
      as (_ & _ & _ & _ & Hwarn).
    destruct (Hwarn fixtures.liveEnv Background "example.com" 25 (w_enumerator fixtures.world0))
      as (_ & _ & _ & Hotx).
    apply (Hotx (Ok "")); [| reflexivity | reflexivity].
    do 3 (apply elem_of_cons; right). apply elem_of_cons. now left.
Defined.

Lemma matchesRule_semantics_witness :
  matchesRule fixtures.nginx fixtures.nginxData = true /\
  exists svc',
    FingerprintServices [fixtures.cfRay; fixtures.nginx]
      [{| svc_URL := "https://www.example.com:443"; svc_Host := "www.example.com";
          svc_IP := "1.2.3.5"; svc_Port := 443; svc_Scheme := "https"; svc_StatusCode := 200;
          svc_Title := ""; svc_Server := "nginx/1.24.0"; svc_ContentLength := 612;
          svc_Technologies := [] |}]
      {[ "https://www.example.com:443" := fixtures.nginxData ]} !! 0%nat = Some svc' /\
    {| tech_Name := "nginx"; tech_Category := "web-server" |} ∈ svc_Technologies svc'.
Proof.
  split.
  - apply (proj1 (matchesRule_semantics fixtures.nginx fixtures.nginxData)).
    left. eexists _, "nginx/1.24.0". split; [apply elem_of_cons; now left |].
    split; [reflexivity |]. left. eexists. split; reflexivity.
  - destruct (proj2 (proj2 (matchesRule_semantics fixtures.nginx fixtures.nginxData))
                [fixtures.cfRay; fixtures.nginx]
                [{| svc_URL := "https://www.example.com:443"; svc_Host := "www.example.com";
                    svc_IP := "1.2.3.5"; svc_Port := 443; svc_Scheme := "https";
                    svc_StatusCode := 200; svc_Title := ""; svc_Server := "nginx/1.24.0";
                    svc_ContentLength := 612; svc_Technologies := [] |}]
                {[ "https://www.example.com:443" := fixtures.nginxData ]} 0%nat _ eq_refl)
      as (svc' & Hsvc & _ & Htech).
    exists svc'. split; [exact Hsvc |]. apply Htech. exists fixtures.nginx.
    split; [apply elem_of_cons; right; apply elem_of_cons; now left |].
    split; reflexivity.
Defined.

Lemma AttemptZoneTransfers_contract_witness :
  exists r,
    (AttemptZoneTransfers fixtures.refusing Background "example.com").1 = Some r /\
    Transfers r =
      imap (fun i ns => (tryNameserver fixtures.refusing "example.com" i ns).1)
           ["ns1.example.com."; "ns2.example.com."].
Proof.
  destruct (AttemptZoneTransfers_contract fixtures.refusing "example.com" Background)
    as (_ & Hentries & _).
  apply (Hentries ["ns1.example.com."; "ns2.example.com."]); [reflexivity | discriminate].
Defined.

Example AttemptZoneTransfers_refused :
  AttemptZoneTransfers fixtures.refusing Background "example.com" =
    (Some {| Transfers := [{| zt_Nameserver := "ns1.example.com"; zt_Success := false;
                              zt_Records := 0 |};
                           {| zt_Nameserver := "ns2.example.com"; zt_Success := false;
                              zt_Records := 0 |}];
             Hostnames := [] |},
     None).
Proof. reflexivity. Qed.

(** ** Cancellation before the first stage *)

Lemma Enumerate_nonempty env ctx domain concurrency e :
  exists subs e', Enumerate env ctx domain concurrency e = ((subs, None), e') /\ subs <> [].
Proof.
  destruct (Enumerate_result env ctx domain concurrency e) as (M & e' & He & _ & Hsome & _).
  rewrite He. do 2 eexists. split; [reflexivity |].
  destruct (proj2 (Hsome (GoStrings.ToLower domain))) as [l Hl]; [now left |].
  intros Hnil.
  assert ({| sd_Host := GoStrings.ToLower domain; sd_Sources := deduplicateSources l |}
          ∈ @nil Subdomain) as Hin; [| inversion Hin].
  rewrite <- Hnil. apply elem_of_subdomains. cbn. eauto.
Qed.

(** C1, as amended.  Whatever the context, cancelled or not, [Run]
    returns an error and no result exactly when its enumerator returns an
    error or no subdomain at all, and a result and no error otherwise:
    [Run] never looks at the context itself.  The enumerator of [recon]
    always returns the root domain, so with the stages of [recon] a run
    returns a result and no error, on an already-cancelled context too. *)
Theorem Run_fails_iff_enumeration_fails {W} (ctx : Ctx) (cfg : Config) (impl : Stages W)
    (w : W) (tr : list Event) :
  let subs := (enumeration ctx cfg impl w).1.1 in
  let err := (enumeration ctx cfg impl w).1.2 in
  let out := (Run ctx cfg impl (w, tr)).1 in
  ((out.1 = None /\ is_Some out.2) <-> (is_Some err \/ subs = [])) /\
  ((is_Some out.1 /\ out.2 = None) <-> (err = None /\ subs <> [])) /\
  (forall env world,
     let out := (Run ctx cfg (recon.stages env) (world, tr)).1 in
     is_Some out.1 /\ out.2 = None).
Proof.
  cbn zeta. destruct (Run_outcome ctx cfg impl w tr) as [Hfail Hok].
  split; [exact Hfail | split; [exact Hok |]].
  intros env world. apply (Run_outcome ctx cfg (recon.stages env) world tr).
  unfold enumeration, recon.stages.
  cbn [engine.Enumerate engine.Enumerator Now fst snd w_enumerator].
  destruct (Enumerate_nonempty env ctx (cfg_Target cfg) (cfg_Concurrency cfg)
              (w_enumerator world)) as (subs & e' & -> & Hne).
  cbn. auto.
Qed.

Lemma Run_fails_iff_enumeration_fails_witness :
  let out := (Run Cancelled fixtures.cfgTest fixtures.givesUp (tt, [])).1 in
  out.1 = None /\ is_Some out.2.
Proof.
  apply (proj2 (proj1 (Run_fails_iff_enumeration_fails Cancelled fixtures.cfgTest
                         fixtures.givesUp tt []))).
  left. cbn. eauto.
Defined.

(** * Further properties of the stages, the command line and the output *)

(** ** Strings: trimming *)

Lemma isSpace_lowerChar (c : ascii) :
  GoStrings.isSpace (GoStrings.lowerChar c) = GoStrings.isSpace c.
Proof. destruct c as [[] [] [] [] [] [] [] []]; reflexivity. Qed.

Lemma ToLower_trimLeft (s : string) :
  GoStrings.trimLeft (GoStrings.ToLower s) = GoStrings.ToLower (GoStrings.trimLeft s).
Proof.
  induction s as [|c s IH]; [reflexivity|]. cbn [GoStrings.ToLower GoStrings.trimLeft].
  rewrite isSpace_lowerChar. now destruct (GoStrings.isSpace c).
Qed.

Lemma ToLower_trimRight (s : string) :
  GoStrings.trimRight (GoStrings.ToLower s) = GoStrings.ToLower (GoStrings.trimRight s).
Proof.
  induction s as [|c s IH]; [reflexivity|]. cbn [GoStrings.ToLower GoStrings.trimRight].
  rewrite IH, isSpace_lowerChar.
  destruct (GoStrings.trimRight s); cbn [GoStrings.ToLower]; [|reflexivity].
  now destruct (GoStrings.isSpace c).
Qed.

Lemma ToLower_TrimSpace (s : string) :
  GoStrings.TrimSpace (GoStrings.ToLower s) = GoStrings.ToLower (GoStrings.TrimSpace s).
Proof. unfold GoStrings.TrimSpace. now rewrite ToLower_trimLeft, ToLower_trimRight. Qed.

Lemma trimLeft_length (s : string) :
  (String.length (GoStrings.trimLeft s) <= String.length s)%nat.
Proof.
  induction s as [|c s IH]; [reflexivity|]. cbn [GoStrings.trimLeft].
  destruct (GoStrings.isSpace c); cbn [String.length]; lia.
Qed.

(** [trimLeft s = s]: the string starts with no white space. *)
Lemma trimLeft_fixed (c : ascii) (s : string) :
  GoStrings.trimLeft (String c s) = String c s <-> GoStrings.isSpace c = false.
Proof.
  cbn [GoStrings.trimLeft]. destruct (GoStrings.isSpace c); [|easy].
  split; [|discriminate]. intros H. pose proof (trimLeft_length s) as Hl.
  rewrite H in Hl. cbn [String.length] in Hl. lia.
Qed.

Lemma trimLeft_idem (s : string) :
  GoStrings.trimLeft (GoStrings.trimLeft s) = GoStrings.trimLeft s.
Proof.
  induction s as [|c s IH]; [reflexivity|]. cbn [GoStrings.trimLeft].
  destruct (GoStrings.isSpace c) eqn:Hc; [exact IH|]. now apply trimLeft_fixed.
Qed.

Lemma trimLeft_trimRight (s : string) :
  GoStrings.trimLeft s = s ->
  GoStrings.trimLeft (GoStrings.trimRight s) = GoStrings.trimRight s.
Proof.
  destruct s as [|c s]; [reflexivity|]. intros Hc%trimLeft_fixed.
  cbn [GoStrings.trimRight].
  destruct (GoStrings.trimRight s); [rewrite Hc|]; now apply trimLeft_fixed.
Qed.

Lemma trimRight_idem (s : string) :
  GoStrings.trimRight (GoStrings.trimRight s) = GoStrings.trimRight s.
Proof.
  induction s as [|c s IH]; [reflexivity|]. cbn [GoStrings.trimRight].
  destruct (GoStrings.trimRight s) as [|c' r] eqn:Hr.
  - destruct (GoStrings.isSpace c) eqn:Hc; [reflexivity|].
    cbn [GoStrings.trimRight]. now rewrite Hc.
  - cbn [GoStrings.trimRight] in *. now rewrite IH.
Qed.

Lemma TrimSpace_idem (s : string) :
  GoStrings.TrimSpace (GoStrings.TrimSpace s) = GoStrings.TrimSpace s.
Proof.
  unfold GoStrings.TrimSpace.
  rewrite trimLeft_trimRight by apply trimLeft_idem. apply trimRight_idem.
Qed.

(** ** Decimal numbers: [strconv.Atoi] reads what [%d] prints *)

Lemma digits_of_uint_acc (d : Decimal.uint) :
  forall acc : positive,
    strconv.digits (NilEmpty.string_of_uint d) (Z.pos acc) =
      Some (Z.pos (Pos.of_uint_acc d acc)).
Proof.
  induction d; intros acc; cbn [NilEmpty.string_of_uint strconv.digits Pos.of_uint_acc];
    [reflexivity|..];
    (change (strconv.digit _) with (Some 0) || change (strconv.digit _) with (Some 1)
     || change (strconv.digit _) with (Some 2) || change (strconv.digit _) with (Some 3)
     || change (strconv.digit _) with (Some 4) || change (strconv.digit _) with (Some 5)
     || change (strconv.digit _) with (Some 6) || change (strconv.digit _) with (Some 7)
     || change (strconv.digit _) with (Some 8) || change (strconv.digit _) with (Some 9));
    cbv iota; rewrite <- IHd; f_equal; lia.
Qed.

Lemma digits_of_uint (d : Decimal.uint) :
  strconv.digits (NilEmpty.string_of_uint d) 0 = Some (Z.of_N (Pos.of_uint d)).
Proof.
  induction d; cbn [NilEmpty.string_of_uint strconv.digits Pos.of_uint];
    [reflexivity|exact IHd|..];
    (change (strconv.digit _) with (Some 1)
     || change (strconv.digit _) with (Some 2) || change (strconv.digit _) with (Some 3)
     || change (strconv.digit _) with (Some 4) || change (strconv.digit _) with (Some 5)
     || change (strconv.digit _) with (Some 6) || change (strconv.digit _) with (Some 7)
     || change (strconv.digit _) with (Some 8) || change (strconv.digit _) with (Some 9));
    cbv iota; apply digits_of_uint_acc.
Qed.

Lemma digits_to_uint (p : positive) :
  strconv.digits (NilEmpty.string_of_uint (Pos.to_uint p)) 0 = Some (Z.pos p).
Proof. now rewrite digits_of_uint, DecimalPos.Unsigned.of_to. Qed.

(** The decimal digits of a positive number: no sign, no space, no comma. *)
Lemma string_of_uint_digits (d : Decimal.uint) :
  Forall (fun c => is_Some (strconv.digit c))
         (list_ascii_of_string (NilEmpty.string_of_uint d)).
Proof.
  induction d; cbn [NilEmpty.string_of_uint list_ascii_of_string];
    constructor; eauto.
Qed.

Lemma string_of_uint_to_uint (p : positive) :
  exists c r, NilEmpty.string_of_uint (Pos.to_uint p) = String c r /\
              is_Some (strconv.digit c).
Proof.
  pose proof (string_of_uint_digits (Pos.to_uint p)) as Hd.
  pose proof (Unsigned.to_uint_nonnil p) as Hn.
  destruct (Pos.to_uint p); [done|..]; cbn [NilEmpty.string_of_uint] in *;
    eexists _, _; (split; [reflexivity|]); now apply Forall_cons in Hd.
Qed.

Lemma itoa_pos (p : positive) :
  GoStrings.itoa (Z.pos p) = NilEmpty.string_of_uint (Pos.to_uint p).
Proof.
  unfold GoStrings.itoa. cbn [Z.to_int NilZero.string_of_int].
  pose proof (Unsigned.to_uint_nonnil p). now destruct (Pos.to_uint p).
Qed.

Lemma itoa_digits (n : Z) :
  0 <= n ->
  GoStrings.itoa n <> "" /\
  Forall (fun c => is_Some (strconv.digit c)) (list_ascii_of_string (GoStrings.itoa n)).
Proof.
  destruct n as [|p|p]; [intros _|intros _|lia].
  - split; [discriminate|]. repeat constructor. eauto.
  - rewrite itoa_pos. split; [|apply string_of_uint_digits].
    destruct (string_of_uint_to_uint p) as (c & r & -> & _). discriminate.
Qed.

Lemma digit_not_sign (c : ascii) :
  is_Some (strconv.digit c) -> Ascii.eqb c "-" = false /\ Ascii.eqb c "+" = false.
Proof. destruct c as [[] [] [] [] [] [] [] []]; intros [d Hd]; (discriminate || easy). Qed.

Lemma Atoi_itoa (n : Z) :
  - 2 ^ 63 <= n <= 2 ^ 63 - 1 -> strconv.Atoi (GoStrings.itoa n) = Some n.
Proof.
  intros Hn. destruct n as [|p|p]; [reflexivity|..].
  - rewrite itoa_pos. pose proof (digits_to_uint p) as Hd.
    destruct (string_of_uint_to_uint p) as (c & r & Hs & [Hm Hp]%digit_not_sign).
    rewrite Hs in *. unfold strconv.Atoi. rewrite Hm, Hp. cbn [orb].
    rewrite Hd. cbv zeta.
    destruct (Z.leb_spec (- 2 ^ 63) (Z.pos p)); [|lia].
    destruct (Z.leb_spec (Z.pos p) (2 ^ 63 - 1)); [reflexivity|lia].
  - unfold GoStrings.itoa. cbn [Z.to_int NilZero.string_of_int].
    assert (NilZero.string_of_uint (Pos.to_uint p) =
            NilEmpty.string_of_uint (Pos.to_uint p)) as ->.
    { pose proof (Unsigned.to_uint_nonnil p). now destruct (Pos.to_uint p). }
    pose proof (digits_to_uint p) as Hd.
    destruct (string_of_uint_to_uint p) as (c & r & Hs & _).
    rewrite Hs in *. unfold strconv.Atoi. change (Ascii.eqb "-" "-") with true.
    cbn [orb]. rewrite Hd.
    change (- Z.pos p) with (Z.neg p). cbv zeta.
    destruct (Z.leb_spec (- 2 ^ 63) (Z.neg p)); [|lia].
    destruct (Z.leb_spec (Z.neg p) (2 ^ 63 - 1)); [reflexivity|lia].
Qed.

(** ** The [--ports] flag (main.go) *)

Lemma parseParts_spec (parts : list string) :
  forall (seen : gset Z) (result ports : list Z),
    (forall p, p ∈ seen <-> p ∈ result) -> NoDup result ->
    cmd.parseParts parts seen result = inr ports ->
    NoDup ports /\
    (exists more, ports = result ++ more /\ Forall (fun p => 1 <= p <= 65535) more) /\
    (forall port, port ∈ ports <->
       port ∈ result \/
       exists part, part ∈ parts /\ strconv.Atoi (GoStrings.TrimSpace part) = Some port) /\
    (forall part, part ∈ parts ->
       GoStrings.TrimSpace part = "" \/
       exists port, strconv.Atoi (GoStrings.TrimSpace part) = Some port /\
                    1 <= port <= 65535).
Proof.
  induction parts as [|part parts IH]; intros seen result ports Hseen Hnd; cbn [cmd.parseParts].
  - intros [= <-]. split; [exact Hnd|]. split; [exists []; now rewrite app_nil_r|].
    split; [|intros ? []%elem_of_nil].
    intros port. split; [now left|]. now intros [|(? & []%elem_of_nil & _)].
  - destruct (String.eqb_spec (GoStrings.TrimSpace part) "") as [Hblank|Hblank].
    { intros H. destruct (IH _ _ _ Hseen Hnd H) as (Hn & Hm & He & Hp).
      split; [exact Hn|]. split; [exact Hm|]. split.
      - intros port. rewrite He. split; intros [Hr|(q & Hq & Ha)]; auto.
        + right. exists q. split; [now right|exact Ha].
        + apply elem_of_cons in Hq as [->|Hq]; [|right; eauto].
          rewrite Hblank in Ha. discriminate Ha.
      - intros q [->|Hq]%elem_of_cons; auto. }
    destruct (strconv.Atoi (GoStrings.TrimSpace part)) as [port|] eqn:Hport; [|discriminate].
    destruct (Z.ltb_spec port 1) as [?|Hlo]; [discriminate|].
    destruct (Z.ltb_spec 65535 port) as [?|Hhi]; [discriminate|]. cbn [orb].
    destruct (decide (port ∈ seen)) as [Hin|Hin]; intros H.
    + destruct (IH _ _ _ Hseen Hnd H) as (Hn & Hm & He & Hp).
      split; [exact Hn|]. split; [exact Hm|]. split.
      * intros q. rewrite He. split; intros [Hr|(x & Hx & Ha)]; auto.
        -- right. exists x. split; [now right|exact Ha].
        -- apply elem_of_cons in Hx as [->|Hx]; [|right; eauto].
           left. rewrite Hport in Ha. injection Ha as <-. now apply Hseen.
      * intros q [->|Hq]%elem_of_cons; auto. right. exists port. split; [exact Hport|lia].
    + assert (NoDup (result ++ [port])) as Hnd'.
      { apply NoDup_app. split; [exact Hnd|]. split; [|apply NoDup_singleton].
        intros x Hx ->%list_elem_of_singleton. now apply Hin, Hseen. }
      assert (forall p, p ∈ ({[port]} ∪ seen : gset Z) <-> p ∈ result ++ [port]) as Hseen'.
      { intros p. rewrite elem_of_union, elem_of_singleton, elem_of_app,
          list_elem_of_singleton, Hseen. tauto. }
      destruct (IH _ _ _ Hseen' Hnd' H) as (Hn & (more & -> & Hm) & He & Hp).
      split; [exact Hn|]. split.
      { exists (port :: more). rewrite <- app_assoc. split; [reflexivity|].
        constructor; [lia|exact Hm]. }
      split.
      * intros q. rewrite He, elem_of_app, list_elem_of_singleton.
        split; intros [Hr|(x & Hx & Ha)]; auto.
        -- destruct Hr as [Hr| ->]; auto. right. exists part. split; [now left|exact Hport].
        -- right. exists x. split; [now right|exact Ha].
        -- apply elem_of_cons in Hx as [->|Hx]; [|right; eauto].
           left. right. rewrite Hport in Ha. now injection Ha as <-.
      * intros q [->|Hq]%elem_of_cons; auto. right. exists port. split; [exact Hport|lia].
Qed.

Lemma parseParts_blank (parts : list string) (seen : gset Z) (result : list Z) :
  Forall (fun part => GoStrings.TrimSpace part = "") parts ->
  cmd.parseParts parts seen result = inr result.
Proof.
  induction 1 as [|part parts Hb _ IH]; [reflexivity|]. cbn [cmd.parseParts].
  now rewrite Hb.
Qed.

Lemma parseParts_error (parts : list string) :
  forall (seen : gset Z) (result : list Z) (err : cmd.portsError),
    cmd.parseParts parts seen result = inl err ->
    exists part, part ∈ parts /\ GoStrings.TrimSpace part <> "" /\
      match err with
      | cmd.invalidPort p =>
          p = GoStrings.TrimSpace part /\ strconv.Atoi p = None
      | cmd.outOfRange port =>
          strconv.Atoi (GoStrings.TrimSpace part) = Some port /\ (port < 1 \/ 65535 < port)
      | cmd.noValidPorts => False
      end.
Proof.
  induction parts as [|part parts IH]; intros seen result err; cbn [cmd.parseParts];
    [discriminate|].
  assert (forall seen result, cmd.parseParts parts seen result = inl err ->
            exists part0, part0 ∈ part :: parts /\ GoStrings.TrimSpace part0 <> "" /\
              match err with
              | cmd.invalidPort p =>
                  p = GoStrings.TrimSpace part0 /\ strconv.Atoi p = None
              | cmd.outOfRange port =>
                  strconv.Atoi (GoStrings.TrimSpace part0) = Some port /\
                  (port < 1 \/ 65535 < port)
              | cmd.noValidPorts => False
              end) as Hrest.
  { intros s r H. destruct (IH _ _ _ H) as (x & Hx & Hrest). exists x. split; [now right|exact Hrest]. }
  destruct (String.eqb_spec (GoStrings.TrimSpace part) "") as [Hblank|Hblank]; [apply Hrest|].
  destruct (strconv.Atoi (GoStrings.TrimSpace part)) as [port|] eqn:Hport.
  - destruct (Z.ltb_spec port 1) as [?|Hlo]; cbn [orb].
    { intros [= <-]. exists part. split; [now left|]. split; [exact Hblank|]. split; [exact Hport|lia]. }
    destruct (Z.ltb_spec 65535 port) as [?|Hhi].
    { intros [= <-]. exists part. split; [now left|]. split; [exact Hblank|]. split; [exact Hport|lia]. }
    destruct (decide (port ∈ seen)); apply Hrest.
  - intros [= <-]. exists part. split; [now left|]. split; [exact Hblank|]. easy.
Qed.

(** X1.  A port list that [parsePorts] accepts is not empty, free of
    duplicates and within 1-65535; it holds exactly the numbers that the
    comma-separated parts of the flag spell out, each part being blank or a
    port number in range. *)
Theorem parsePorts_accepts (s : string) (ports : list Z) :
  cmd.parsePorts s = inr ports ->
  ports <> [] /\ NoDup ports /\ Forall (fun port => 1 <= port <= 65535) ports /\
  (forall port, port ∈ ports <->
     exists part, part ∈ GoStrings.Split s GoStrings.comma /\
                  strconv.Atoi (GoStrings.TrimSpace part) = Some port) /\
  (forall part, part ∈ GoStrings.Split s GoStrings.comma ->
     GoStrings.TrimSpace part = "" \/
     exists port, strconv.Atoi (GoStrings.TrimSpace part) = Some port /\ 1 <= port <= 65535).
Proof.
  unfold cmd.parsePorts.
  destruct (cmd.parseParts _ _ _) as [err|result] eqn:Hparts; [discriminate|].
  destruct (len result =? 0) eqn:Hlen; [discriminate|]. intros [= <-].
  destruct (parseParts_spec (GoStrings.Split s GoStrings.comma) ∅ [] result)
    as (Hn & (more & Hmore & Hrange) & He & Hp);
    [set_solver|constructor|exact Hparts|].
  split. { intros ->. discriminate Hlen. }
  split; [exact Hn|]. split. { now rewrite Hmore. }
  split; [|exact Hp].
  intros port. rewrite He. split; [intros [[]%elem_of_nil|H]; exact H|now right].
Qed.

Lemma parsePorts_accepts_witness :
  [80; 443] <> [] /\ NoDup [80; 443] /\ Forall (fun port => 1 <= port <= 65535) [80; 443] /\
  (forall port, port ∈ [80; 443] <->
     exists part, part ∈ GoStrings.Split "80, 443,,80 " GoStrings.comma /\
                  strconv.Atoi (GoStrings.TrimSpace part) = Some port) /\
  (forall part, part ∈ GoStrings.Split "80, 443,,80 " GoStrings.comma ->
     GoStrings.TrimSpace part = "" \/
     exists port, strconv.Atoi (GoStrings.TrimSpace part) = Some port /\ 1 <= port <= 65535).
Proof. apply (parsePorts_accepts "80, 443,,80 "). reflexivity. Defined.

(** X2.  [parsePorts] fails with "no valid ports specified" exactly when
    every part of the flag is blank, with "invalid port" for a part that is
    not a decimal number, and with "out of range" for a number outside
    1-65535; and it does fail as soon as one part that is not blank is no
    port number in range. *)
Theorem parsePorts_rejects (s : string) :
  let parts := GoStrings.Split s GoStrings.comma in
  (cmd.parsePorts s = inl cmd.noValidPorts <->
     Forall (fun part => GoStrings.TrimSpace part = "") parts) /\
  (forall p, cmd.parsePorts s = inl (cmd.invalidPort p) ->
     exists part, part ∈ parts /\ p = GoStrings.TrimSpace part /\ p <> "" /\
                  strconv.Atoi p = None) /\
  (forall port, cmd.parsePorts s = inl (cmd.outOfRange port) ->
     exists part, part ∈ parts /\ strconv.Atoi (GoStrings.TrimSpace part) = Some port /\
                  (port < 1 \/ 65535 < port)) /\
  (forall part, part ∈ parts -> GoStrings.TrimSpace part <> "" ->
     (forall port, strconv.Atoi (GoStrings.TrimSpace part) = Some port ->
        port < 1 \/ 65535 < port) ->
     exists err, cmd.parsePorts s = inl err).
Proof.
  intros parts. unfold cmd.parsePorts. fold parts.
  destruct (cmd.parseParts parts ∅ []) as [err|result] eqn:Hparts.
  - destruct (parseParts_error _ _ _ _ Hparts) as (part & Hin & Hnb & Herr).
    split; [|split; [|split]].
    + split.
      * intros [= ->]. destruct Herr.
      * intros Hall. rewrite parseParts_blank in Hparts by exact Hall. discriminate Hparts.
    + intros p [= ->]. exists part. destruct Herr as [-> Hnone]. auto.
    + intros port [= ->]. exists part. destruct Herr. auto.
    + eauto.
  - destruct (parseParts_spec parts ∅ [] result) as (Hn & _ & He & Hp);
      [set_solver|constructor|exact Hparts|].
    split; [|split; [|split]].
    + destruct (len result =? 0) eqn:Hlen; [|split; [discriminate|]].
      * split; [intros _|reflexivity]. apply Forall_forall. intros part Hin.
        destruct (Hp part Hin) as [Hb|(port & Hport & _)]; [exact Hb|].
        assert (port ∈ result) as Hr by (apply He; right; eauto).
        destruct result; [now apply elem_of_nil in Hr|discriminate Hlen].
      * intros Hall. rewrite parseParts_blank in Hparts by exact Hall.
        injection Hparts as <-. discriminate Hlen.
    + destruct (len result =? 0); discriminate.
    + destruct (len result =? 0); discriminate.
    + intros part Hin Hnb Hbad. destruct (Hp part Hin) as [Hb|(port & Hport & Hr)]; [done|].
      specialize (Hbad port Hport). lia.
Qed.

Lemma parsePorts_rejects_witness :
  exists err, cmd.parsePorts "80,http" = inl err.
Proof.
  apply (proj2 (proj2 (proj2 (parsePorts_rejects "80,http"))) "http").
  - apply list_elem_of_In. vm_compute. auto.
  - discriminate.
  - discriminate.
Defined.

Lemma digit_plain (c : ascii) :
  is_Some (strconv.digit c) ->
  Ascii.eqb c GoStrings.comma = false /\ GoStrings.isSpace c = false.
Proof. destruct c as [[] [] [] [] [] [] [] []]; intros [d Hd]; (discriminate || easy). Qed.

Lemma Split_plain (s : string) :
  Forall (fun c => Ascii.eqb c GoStrings.comma = false) (list_ascii_of_string s) ->
  forall r, GoStrings.Split (s +:+ String GoStrings.comma r) GoStrings.comma =
            s :: GoStrings.Split r GoStrings.comma.
Proof.
  induction s as [|c s IH]; cbn [list_ascii_of_string]; intros Hs r.
  - reflexivity.
  - apply Forall_cons in Hs as [Hc Hs].
    change (String c s +:+ String GoStrings.comma r)
      with (String c (s +:+ String GoStrings.comma r)).
    cbn [GoStrings.Split]. now rewrite Hc, IH.
Qed.

Lemma Split_single (s : string) :
  Forall (fun c => Ascii.eqb c GoStrings.comma = false) (list_ascii_of_string s) ->
  GoStrings.Split s GoStrings.comma = [s].
Proof.
  induction s as [|c s IH]; cbn [list_ascii_of_string]; intros Hs; [reflexivity|].
  apply Forall_cons in Hs as [Hc Hs]. cbn [GoStrings.Split]. now rewrite Hc, IH.
Qed.

Lemma Split_Join (elems : list string) :
  elems <> [] ->
  Forall (fun s => Forall (fun c => Ascii.eqb c GoStrings.comma = false)
                          (list_ascii_of_string s)) elems ->
  GoStrings.Split (GoStrings.Join elems ",") GoStrings.comma = elems.
Proof.
  induction elems as [|s [|t rest] IH]; [done|..]; intros _ Hall.
  - apply Forall_cons in Hall as [Hs _]. now apply Split_single.
  - apply Forall_cons in Hall as [Hs Hall].
    change (GoStrings.Join (s :: t :: rest) ",")
      with (s +:+ String GoStrings.comma (GoStrings.Join (t :: rest) ",")).
    rewrite Split_plain by exact Hs. f_equal. now apply IH.
Qed.

Lemma trimRight_plain (s : string) :
  Forall (fun c => GoStrings.isSpace c = false) (list_ascii_of_string s) ->
  GoStrings.trimRight s = s.
Proof.
  induction s as [|c s IH]; cbn [list_ascii_of_string]; intros Hs; [reflexivity|].
  apply Forall_cons in Hs as [Hc Hs]. cbn [GoStrings.trimRight]. rewrite IH by exact Hs.
  destruct s; [now rewrite Hc|reflexivity].
Qed.

Lemma TrimSpace_plain (s : string) :
  Forall (fun c => GoStrings.isSpace c = false) (list_ascii_of_string s) ->
  GoStrings.TrimSpace s = s.
Proof.
  intros Hs. unfold GoStrings.TrimSpace.
  assert (GoStrings.trimLeft s = s) as ->; [|now apply trimRight_plain].
  destruct s as [|c s]; [reflexivity|]. apply trimLeft_fixed.
  cbn [list_ascii_of_string] in Hs. now apply Forall_cons in Hs as [Hc _].
Qed.

Lemma parseParts_itoa (ports : list Z) :
  forall (seen : gset Z) (result : list Z),
    (forall p, p ∈ ports -> p ∉ seen) -> NoDup ports ->
    Forall (fun p => 1 <= p <= 65535) ports ->
    cmd.parseParts (GoStrings.itoa <$> ports) seen result = inr (result ++ ports).
Proof.
  induction ports as [|port ports IH]; intros seen result Hnew Hnd Hrange.
  - cbn. now rewrite app_nil_r.
  - apply NoDup_cons in Hnd as [Hport Hnd]. apply Forall_cons in Hrange as [Hr Hrange].
    rewrite fmap_cons. cbn [cmd.parseParts].
    destruct (itoa_digits port) as [Hne Hd]; [lia|].
    rewrite TrimSpace_plain
      by (eapply Forall_impl; [exact Hd|]; intros c Hc; now apply digit_plain).
    destruct (String.eqb_spec (GoStrings.itoa port) "") as [|_]; [done|].
    rewrite Atoi_itoa by lia.
    destruct (Z.ltb_spec port 1); [lia|]. destruct (Z.ltb_spec 65535 port); [lia|].
    cbn [orb]. destruct (decide (port ∈ seen)) as [Hin|_].
    { exfalso. apply (Hnew port); [now left|exact Hin]. }
    rewrite IH; [now rewrite <- app_assoc| |exact Hnd|exact Hrange].
    intros p Hp [->%elem_of_singleton|Hs]%elem_of_union; [done|].
    apply (Hnew p); [now right|exact Hs].
Qed.

(** X3.  Round trip of the [--ports] flag: a list of distinct ports within
    1-65535, printed in decimal and joined by commas, is parsed back to
    itself. *)
Theorem parsePorts_round_trip (ports : list Z) :
  ports <> [] -> NoDup ports -> Forall (fun p => 1 <= p <= 65535) ports ->
  cmd.parsePorts (GoStrings.Join (GoStrings.itoa <$> ports) ",") = inr ports.
Proof.
  intros Hne Hnd Hrange. unfold cmd.parsePorts. rewrite Split_Join.
  - rewrite parseParts_itoa; [|set_solver|exact Hnd|exact Hrange]. cbn [app].
    destruct ports; [done|reflexivity].
  - now destruct ports.
  - apply Forall_fmap, Forall_forall. intros port Hport. cbn.
    rewrite Forall_forall in Hrange. specialize (Hrange port Hport).
    destruct (itoa_digits port) as [_ Hd]; [lia|].
    eapply Forall_impl; [exact Hd|]. intros c Hc. now apply digit_plain.
Qed.

Lemma parsePorts_round_trip_witness :
  cmd.parsePorts "8080,22,443" = inr [8080; 22; 443].
Proof.
  apply (parsePorts_round_trip [8080; 22; 443]).
  - discriminate.
  - apply (bool_decide_unpack _). vm_compute. reflexivity.
  - repeat constructor; lia.
Defined.

(** ** The default port list (top100.go) *)

Lemma ports_appendUnseen_spec (l : list Z) :
  forall acc : gset Z * list Z,
    (forall x, x ∈ acc.1 <-> x ∈ acc.2) -> NoDup acc.2 ->
    let r := fold_left ports.appendUnseen l acc in
    (forall x, x ∈ r.1 <-> x ∈ r.2) /\ NoDup r.2 /\
    (forall x, x ∈ r.2 <-> x ∈ acc.2 \/ x ∈ l).
Proof.
  induction l as [|p l IH]; intros acc Hseen Hnd; cbn [fold_left].
  - split; [exact Hseen|]. split; [exact Hnd|]. intros x. rewrite elem_of_nil. tauto.
  - assert ((forall x, x ∈ (ports.appendUnseen acc p).1 <-> x ∈ (ports.appendUnseen acc p).2) /\
            NoDup (ports.appendUnseen acc p).2 /\
            (forall x, x ∈ (ports.appendUnseen acc p).2 <-> x ∈ acc.2 \/ x = p))
      as (Hseen' & Hnd' & He).
    { unfold ports.appendUnseen. destruct (decide (p ∈ acc.1)) as [Hin|Hin]; cbn [fst snd].
      - split; [exact Hseen|]. split; [exact Hnd|]. intros x. split; [now left|].
        intros [Hx| ->]; [exact Hx|now apply Hseen].
      - split; [|split].
        + intros x. rewrite elem_of_union, elem_of_singleton, elem_of_app,
            list_elem_of_singleton, Hseen. tauto.
        + apply NoDup_app. split; [exact Hnd|]. split; [|apply NoDup_singleton].
          intros x Hx ->%list_elem_of_singleton. now apply Hin, Hseen.
        + intros x. now rewrite elem_of_app, list_elem_of_singleton. }
    destruct (IH _ Hseen' Hnd') as (H1 & H2 & H3).
    split; [exact H1|]. split; [exact H2|].
    intros x. rewrite H3, He, elem_of_cons. tauto.
Qed.

Lemma insert_middle {A} (l1 l2 : list A) (x y : A) :
  <[length l1 := x]> (l1 ++ y :: l2) = l1 ++ x :: l2.
Proof. rewrite <- (Nat.add_0_r (length l1)), insert_app_r. reflexivity. Qed.

Lemma exchange_middle (pre mid post : list Z) (x y : Z) :
  ports.exchange (length pre) (S (length pre + length mid)) (pre ++ x :: mid ++ y :: post) =
    if y <? x then pre ++ y :: mid ++ x :: post else pre ++ x :: mid ++ y :: post.
Proof.
  unfold ports.exchange.
  rewrite list_lookup_middle by reflexivity.
  assert ((pre ++ x :: mid ++ y :: post) !! S (length pre + length mid) = Some y) as Hy.
  { change (pre ++ x :: mid ++ y :: post) with (pre ++ [x] ++ mid ++ y :: post).
    rewrite !app_assoc. apply list_lookup_middle. rewrite !length_app. cbn. lia. }
  rewrite Hy. destruct (y <? x); [|reflexivity].
  assert (<[S (length pre + length mid) := x]> (pre ++ x :: mid ++ y :: post) =
          pre ++ x :: mid ++ x :: post) as ->.
  { change (pre ++ x :: mid ++ y :: post) with (pre ++ [x] ++ mid ++ y :: post).
    change (pre ++ x :: mid ++ x :: post) with (pre ++ [x] ++ mid ++ x :: post).
    rewrite !app_assoc.
    replace (S (length pre + length mid)) with (length ((pre ++ [x]) ++ mid))
      by (rewrite !length_app; cbn; lia).
    apply insert_middle. }
  apply insert_middle.
Qed.

Lemma inner_loop (pre : list Z) (post : list Z) :
  forall (x : Z) (mid : list Z),
    Forall (fun z => x <= z) mid ->
    exists m rest,
      fold_left (fun d j => ports.exchange (length pre) j d)
                (seq (S (length pre + length mid)) (length post))
                (pre ++ x :: mid ++ post) = pre ++ m :: rest /\
      Forall (fun z => m <= z) rest /\ Permutation (m :: rest) (x :: mid ++ post).
Proof.
  induction post as [|y post IH]; intros x mid Hmid; cbn [length seq fold_left].
  - exists x, mid. rewrite app_nil_r. auto.
  - rewrite exchange_middle. destruct (Z.ltb_spec y x) as [Hlt|Hge].
    + destruct (IH y (mid ++ [x])) as (m & rest & Heq & Hle & Hperm).
      { apply Forall_app. split; [|repeat constructor; lia].
        eapply Forall_impl; [exact Hmid|]. cbn. lia. }
      exists m, rest. rewrite length_app in Heq. cbn [length] in Heq.
      rewrite Nat.add_1_r, Nat.add_succ_r, <- app_assoc in Heq.
      split; [exact Heq|]. split; [exact Hle|]. rewrite Hperm, <- app_assoc. cbn [app].
      rewrite <- !Permutation_middle. apply perm_swap.
    + destruct (IH x (mid ++ [y])) as (m & rest & Heq & Hle & Hperm).
      { apply Forall_app. split; [exact Hmid|]. repeat constructor. lia. }
      exists m, rest. rewrite length_app in Heq. cbn [length] in Heq.
      rewrite Nat.add_1_r, Nat.add_succ_r, <- app_assoc in Heq.
      split; [exact Heq|]. split; [exact Hle|]. now rewrite Hperm, <- app_assoc.
Qed.

Lemma inner_spec (pre : list Z) (x : Z) (post : list Z) :
  exists m rest,
    ports.inner (length pre) (pre ++ x :: post) = pre ++ m :: rest /\
    Forall (fun z => m <= z) rest /\ Permutation (m :: rest) (x :: post).
Proof.
  destruct (inner_loop pre post x []) as (m & rest & Heq & Hle & Hperm); [constructor|].
  exists m, rest. split; [|auto]. unfold ports.inner.
  rewrite length_app. cbn [length app] in *. rewrite Nat.add_0_r in Heq.
  replace (length pre + S (length post) - S (length pre))%nat with (length post) by lia.
  exact Heq.
Qed.

Lemma outer_loop (n : nat) :
  forall pre suffix : list Z,
    length suffix = n -> StronglySorted Z.le pre ->
    (forall a b, a ∈ pre -> b ∈ suffix -> a <= b) ->
    let r := fold_left (fun d i => ports.inner i d) (seq (length pre) n) (pre ++ suffix) in
    StronglySorted Z.le r /\ Permutation r (pre ++ suffix).
Proof.
  induction n as [|n IH]; intros pre suffix Hlen Hsorted Hle; cbn [seq fold_left].
  - destruct suffix; [|discriminate]. rewrite app_nil_r. auto.
  - destruct suffix as [|x post]; [discriminate|]. injection Hlen as Hlen.
    destruct (inner_spec pre x post) as (m & rest & -> & Hm & Hperm).
    assert (forall b, b ∈ m :: rest <-> b ∈ x :: post) as Hsame.
    { intros b. now rewrite Hperm. }
    specialize (IH (pre ++ [m]) rest).
    rewrite length_app, Nat.add_1_r, <- app_assoc in IH. cbn [app] in IH.
    destruct IH as [Hs Hp].
    + apply Permutation_length in Hperm. cbn [length] in Hperm. lia.
    + apply StronglySorted_app_2; [|exact Hsorted|repeat constructor].
      intros a b Ha ->%list_elem_of_singleton. apply Hle; [exact Ha|].
      apply Hsame. now left.
    + intros a b [Ha| ->%list_elem_of_singleton]%elem_of_app Hb.
      * apply Hle; [exact Ha|]. apply Hsame. now right.
      * rewrite Forall_forall in Hm. now apply Hm.
    + split; [exact Hs|]. rewrite Hp. now apply Permutation_app_head.
Qed.

Lemma StronglySorted_lt (l : list Z) :
  StronglySorted Z.le l -> NoDup l -> StronglySorted Z.lt l.
Proof.
  induction 1 as [|x l Hs IH Hx]; intros Hnd; [constructor|].
  apply NoDup_cons in Hnd as [Hnotin Hnd]. constructor; [now apply IH|].
  rewrite Forall_forall in *. intros y Hy. specialize (Hx y Hy).
  assert (x <> y) by (intros ->; done). lia.
Qed.

Lemma init_outcome (Top100 : list Z) :
  StronglySorted Z.le (ports.init Top100) /\ NoDup (ports.init Top100) /\
  (forall p, p ∈ ports.init Top100 <-> p ∈ Top100).
Proof.
  unfold ports.init.
  destruct (ports_appendUnseen_spec Top100 (∅, [])) as (_ & Hnd & He);
    [set_solver|constructor|]. cbn [fst snd] in *.
  set (deduped := (fold_left ports.appendUnseen Top100 (∅, [])).2) in *.
  destruct (outer_loop (length deduped) [] deduped) as [Hs Hp];
    [reflexivity|constructor|intros ? ? []%elem_of_nil|].
  cbn [app length] in *. split; [exact Hs|]. split; [now rewrite Hp|].
  intros p. rewrite Hp, He, elem_of_nil. tauto.
Qed.

(** X4.  Whatever list the package variable holds, [init] leaves it
    strictly ascending, hence free of duplicates, with the same ports in
    it. *)
Theorem init_sorted (Top100 : list Z) :
  StronglySorted Z.lt (ports.init Top100) /\
  (forall p, p ∈ ports.init Top100 <-> p ∈ Top100) /\
  (length (ports.init Top100) <= length Top100)%nat.
Proof.
  destruct (init_outcome Top100) as (Hs & Hnd & He). split; [|split].
  - now apply StronglySorted_lt.
  - exact He.
  - apply submseteq_length, NoDup_submseteq; [exact Hnd|].
    intros p Hp. now apply He.
Qed.

Lemma init_valid (l : list Z) :
  l <> [] -> Forall (fun p => 1 <= p <= 65535) l ->
  ports.init l <> [] /\ NoDup (ports.init l) /\
  Forall (fun p => 1 <= p <= 65535) (ports.init l).
Proof.
  intros Hne Hr. destruct (init_outcome l) as (_ & Hnd & He). split; [|split].
  - destruct l as [|p l]; [done|]. intros Hnil.
    assert (p ∈ ports.init (p :: l)) as H by (apply He; now left).
    rewrite Hnil in H. now apply elem_of_nil in H.
  - exact Hnd.
  - rewrite Forall_forall in Hr. apply Forall_forall. intros p Hp. apply Hr, He, Hp.
Qed.

Lemma Top100_literal_valid :
  ports.Top100_literal <> [] /\ Forall (fun p => 1 <= p <= 65535) ports.Top100_literal.
Proof.
  split; [discriminate|]. unfold ports.Top100_literal.
  repeat (apply Forall_cons_2; [split; [apply Z.leb_le|apply Z.leb_le]; reflexivity|]).
  apply Forall_nil_2.
Qed.

Lemma Top100_valid :
  ports.Top100 <> [] /\ NoDup ports.Top100 /\
  Forall (fun p => 1 <= p <= 65535) ports.Top100.
Proof. unfold ports.Top100. apply init_valid; apply Top100_literal_valid. Qed.

(** X5.  The configuration that the command hands to the pipeline has a
    target that is not empty, lower-cased and trimmed, and a port list that
    is not empty, free of duplicates and within 1-65535: the default list
    when the flag is empty, the parsed flag otherwise. *)
Theorem config_valid (arg portsList : string) (timeout concurrency : Z)
    (version : string) (cfg : Config) :
  cmd.config arg portsList timeout concurrency version = inr cfg ->
  cfg_Target cfg <> "" /\
  GoStrings.ToLower (cfg_Target cfg) = cfg_Target cfg /\
  GoStrings.TrimSpace (cfg_Target cfg) = cfg_Target cfg /\
  cfg_Ports cfg <> [] /\ NoDup (cfg_Ports cfg) /\
  Forall (fun p => 1 <= p <= 65535) (cfg_Ports cfg) /\
  (if String.eqb portsList "" then cfg_Ports cfg = ports.Top100
   else cmd.parsePorts portsList = inr (cfg_Ports cfg)) /\
  cfg_Concurrency cfg = concurrency /\ cfg_Timeout cfg = timeout.
Proof.
  unfold cmd.config.
  destruct (String.eqb_spec (GoStrings.ToLower (GoStrings.TrimSpace arg)) "") as [|Hd];
    [discriminate|].
  assert (forall scanPorts,
            scanPorts <> [] /\ NoDup scanPorts /\ Forall (fun p => 1 <= p <= 65535) scanPorts ->
            (if String.eqb portsList "" then scanPorts = ports.Top100
             else cmd.parsePorts portsList = inr scanPorts) ->
            inr {| cfg_Target := GoStrings.ToLower (GoStrings.TrimSpace arg);
                   cfg_Ports := scanPorts; cfg_Timeout := timeout;
                   cfg_Concurrency := concurrency;
                   cfg_UserAgent := "sweep/" +:+ version +:+
                                    " (+https://github.com/vulnverified/sweep)" |}
              = inr (A := cmd.usageError) cfg ->
            cfg_Target cfg <> "" /\
            GoStrings.ToLower (cfg_Target cfg) = cfg_Target cfg /\
            GoStrings.TrimSpace (cfg_Target cfg) = cfg_Target cfg /\
            cfg_Ports cfg <> [] /\ NoDup (cfg_Ports cfg) /\
            Forall (fun p => 1 <= p <= 65535) (cfg_Ports cfg) /\
            (if String.eqb portsList "" then cfg_Ports cfg = ports.Top100
             else cmd.parsePorts portsList = inr (cfg_Ports cfg)) /\
            cfg_Concurrency cfg = concurrency /\ cfg_Timeout cfg = timeout) as Hcfg.
  { intros scanPorts (Hne & Hnd & Hr) Hfrom [= <-].
    cbn [cfg_Target cfg_Ports cfg_Concurrency cfg_Timeout].
    split; [exact Hd|]. split; [apply ToLower_idem|].
    split; [now rewrite ToLower_TrimSpace, TrimSpace_idem|]. auto 10. }
  destruct (String.eqb portsList "") eqn:Hflag; cbn [negb].
  - apply Hcfg; [apply Top100_valid|reflexivity].
  - destruct (cmd.parsePorts portsList) as [err|scanPorts] eqn:Hparse; [discriminate|].
    apply Hcfg; [|reflexivity].
    unfold cmd.parsePorts in Hparse.
    destruct (cmd.parseParts _ _ _) as [|result] eqn:Hparts; [discriminate|].
    destruct (len result =? 0) eqn:Hlen; [discriminate|]. injection Hparse as <-.
    destruct (parseParts_spec (GoStrings.Split portsList GoStrings.comma) ∅ [] result)
      as (Hn & (more & -> & Hrange) & _);
      [intros p; rewrite elem_of_empty, elem_of_nil; tauto|constructor|exact Hparts|].
    split; [|auto]. intros Hnil. rewrite Hnil in Hlen. discriminate Hlen.
Qed.

Lemma config_valid_witness :
  "example.com" <> "" /\
  GoStrings.ToLower "example.com" = "example.com" /\
  GoStrings.TrimSpace "example.com" = "example.com" /\
  [8080; 443] <> [] /\ NoDup [8080; 443] /\
  Forall (fun p => 1 <= p <= 65535) [8080; 443] /\
  cmd.parsePorts "8080, 443" = inr [8080; 443] /\
  25 = 25 /\ 2000000000 = 2000000000.
Proof.
  apply (config_valid " Example.COM " "8080, 443" 2000000000 25 "dev"
           {| cfg_Target := "example.com"; cfg_Ports := [8080; 443];
              cfg_Timeout := 2000000000; cfg_Concurrency := 25;
              cfg_UserAgent := "sweep/dev (+https://github.com/vulnverified/sweep)" |}).
  reflexivity.
Defined.

(** ** The embedded word list (wordlist.go) *)

(** X6.  Every word of the embedded list is trimmed, not empty and no
    comment, and is the trimmed text of a line of the file; when the file
    cannot be read the list is empty, and the brute-force source fails
    with its "empty subdomain wordlist" error. *)
Theorem Subdomains_clean (file : result string) :
  (forall w, w ∈ wordlist.Subdomains file ->
     w <> "" /\ GoStrings.TrimSpace w = w /\ GoStrings.HasPrefix w "#" = false /\
     exists data line, file = Ok data /\ line ∈ bufio.Lines data /\
                       w = GoStrings.TrimSpace line) /\
  (forall err, file = Err err ->
     wordlist.Subdomains file = [] /\
     forall lookupHost order ctx domain concurrency,
       BruteEnumerate (wordlist.Subdomains file) lookupHost order ctx domain concurrency =
         Err "empty subdomain wordlist").
Proof.
  split.
  - intros w. unfold wordlist.Subdomains. destruct file as [data|err];
      [|intros []%elem_of_nil].
    intros (line & Hline & Hw)%list_elem_of_omap.
    destruct (String.eqb_spec (GoStrings.TrimSpace line) "") as [|Hne]; [discriminate|].
    destruct (GoStrings.HasPrefix (GoStrings.TrimSpace line) "#") eqn:Hc; [discriminate|].
    injection Hw as <-. split; [exact Hne|]. split; [apply TrimSpace_idem|].
    split; [exact Hc|]. eauto.
  - intros err ->. split; reflexivity.
Qed.

Lemma Subdomains_clean_witness :
  "mail" <> "" /\ GoStrings.TrimSpace "mail" = "mail" /\
  GoStrings.HasPrefix "mail" "#" = false.
Proof.
  destruct (Subdomains_clean
              (Ok ("www" +:+ String GoStrings.newline "# comment" +:+
                   String GoStrings.newline "  mail  "))) as [Hw _].
  destruct (Hw "mail") as (H1 & H2 & H3 & _).
  - apply list_elem_of_In. vm_compute. auto.
  - auto.
Defined.

(** ** De-duplication of resolved addresses (dns.go) *)

Lemma appendUnseen_fresh (l : list string) :
  forall acc : gset string * list string,
    NoDup l -> (forall x, x ∈ l -> x ∉ acc.1) ->
    (fold_left appendUnseen l acc).2 = acc.2 ++ l.
Proof.
  induction l as [|x l IH]; intros acc Hnd Hnew; cbn [fold_left].
  - now rewrite app_nil_r.
  - apply NoDup_cons in Hnd as [Hx Hnd]. unfold appendUnseen at 2.
    destruct (decide (x ∈ acc.1)) as [Hin|_].
    { exfalso. apply (Hnew x); [now left|exact Hin]. }
    rewrite IH; cbn [fst snd]; [now rewrite <- app_assoc|exact Hnd|].
    intros y Hy [->%elem_of_singleton|Hs]%elem_of_union; [done|].
    apply (Hnew y); [now right|exact Hs].
Qed.

Lemma deduplicateStrings_NoDup (ss : list string) : NoDup (deduplicateStrings ss).
Proof.
  unfold deduplicateStrings.
  destruct (appendUnseen_spec ss (∅, [])) as (_ & Hnd & _); [|constructor|exact Hnd].
  intros x. cbn. rewrite elem_of_empty, elem_of_nil. tauto.
Qed.

(** X7.  [deduplicateStrings] keeps one copy of every string of its input
    and nothing else, leaves a list without duplicates as it is, and so
    changes nothing when applied twice. *)
Theorem deduplicateStrings_spec (ss : list string) :
  NoDup (deduplicateStrings ss) /\
  (forall s, s ∈ deduplicateStrings ss <-> s ∈ ss) /\
  (length (deduplicateStrings ss) <= length ss)%nat /\
  (NoDup ss -> deduplicateStrings ss = ss) /\
  deduplicateStrings (deduplicateStrings ss) = deduplicateStrings ss.
Proof.
  unfold deduplicateStrings.
  destruct (appendUnseen_spec ss (∅, [])) as (_ & Hnd & He);
    [intros x; cbn; rewrite elem_of_empty, elem_of_nil; tauto|constructor|].
  cbn [fst snd] in *.
  assert (forall l, NoDup l -> (fold_left appendUnseen l (∅, [])).2 = l) as Hfix.
  { intros l Hl. rewrite appendUnseen_fresh; [reflexivity|exact Hl|].
    intros x _. cbn. apply not_elem_of_empty. }
  split; [exact Hnd|]. split.
  { intros s. rewrite He, elem_of_nil. tauto. }
  split.
  { apply submseteq_length, NoDup_submseteq; [exact Hnd|].
    intros x Hx. apply He in Hx as [[]%elem_of_nil|Hx]. exact Hx. }
  split; [exact (Hfix ss)|]. now apply Hfix.
Qed.

Lemma deduplicateStrings_spec_witness :
  deduplicateStrings ["1.2.3.4"; "5.6.7.8"] = ["1.2.3.4"; "5.6.7.8"].
Proof.
  destruct (deduplicateStrings_spec ["1.2.3.4"; "5.6.7.8"]) as (_ & _ & _ & Hfix & _).
  apply Hfix. apply (bool_decide_unpack _). vm_compute. reflexivity.
Defined.

(** ** What the resolver stage returns (dns.go) *)

Lemma lowered_TrimSuffix (s suf : string) :
  GoStrings.ToLower s = s ->
  GoStrings.ToLower (GoStrings.TrimSuffix s suf) = GoStrings.TrimSuffix s suf.
Proof.
  induction s as [|c s IH]; intros Hs; cbn [GoStrings.TrimSuffix].
  - now destruct (String.eqb "" suf).
  - destruct (String.eqb (String c s) suf); [reflexivity|].
    destruct (GoStrings.HasSuffix s suf); [|exact Hs].
    apply lowered_cons in Hs as [Hc Hs]. apply lowered_cons. auto.
Qed.

Lemma resolveHost_record (dns : DNS) (i : nat) (host : string) (r : DNSResult) :
  resolveHost dns i host = Some (inl r) ->
  dr_Host r = host /\
  (exists ips, LookupHost dns i host = inr ips /\ dr_IPs r = deduplicateStrings ips) /\
  (dr_CNAME r = "" \/
   dr_CNAME r <> host /\
   exists c, LookupCNAME dns i host = Some c /\
             dr_CNAME r = GoStrings.TrimSuffix (GoStrings.ToLower c) ".").
Proof.
  unfold resolveHost. destruct (LookupHost dns i host) as [err|ips].
  { destruct (negb _); [|discriminate]. destruct (checkDangling _ _ _); discriminate. }
  intros [= <-]. cbn [dr_Host dr_IPs dr_CNAME]. split; [reflexivity|].
  split; [eauto|]. destruct (LookupCNAME dns i host) as [c|]; [|now left].
  destruct (String.eqb_spec (GoStrings.TrimSuffix (GoStrings.ToLower c) ".") host) as [|Hne];
    [now left|].
  destruct (String.eqb_spec (GoStrings.TrimSuffix (GoStrings.ToLower c) ".") "");
    [now left|]. cbn [negb andb]. right. eauto.
Qed.

Lemma NoDup_omap_key {B K} (g : nat -> option B) (key : B -> K) (work : list K)
    (order : list nat) :
  (forall i b, g i = Some b -> work !! i = Some (key b)) ->
  NoDup work -> NoDup order -> NoDup (key <$> omap g order).
Proof.
  intros Hkey Hwork. induction 1 as [|j order Hj Hnd IH]; [constructor|].
  cbn [omap list_omap]. change (list_omap nat B g order) with (omap g order).
  destruct (g j) as [b|] eqn:Hb; [|exact IH].
  rewrite fmap_cons. constructor; [|exact IH].
  intros (b' & Hk & (k & Hin & Hb')%list_elem_of_omap)%list_elem_of_fmap.
  apply Hkey in Hb, Hb'. rewrite <- Hk in Hb'.
  now rewrite (NoDup_lookup _ _ _ _ Hwork Hb Hb') in Hj.
Qed.

Lemma NoDup_lefts_rights {A B K} (keyA : A -> K) (keyB : B -> K) (l : list (A + B)) :
  NoDup ((fun x => match x with inl a => keyA a | inr b => keyB b end) <$> l) ->
  NoDup (keyA <$> lefts l) /\ NoDup (keyB <$> rights l) /\
  forall a b, a ∈ lefts l -> b ∈ rights l -> keyA a <> keyB b.
Proof.
  set (key := fun x : A + B => match x with inl a => keyA a | inr b => keyB b end).
  induction l as [|x l IH]; intros Hnd.
  - split; [constructor|]. split; [constructor|]. intros a b []%elem_of_nil.
  - rewrite fmap_cons in Hnd. apply NoDup_cons in Hnd as [Hx Hnd].
    destruct (IH Hnd) as (Hl & Hr & Hd).
    assert (forall a, a ∈ lefts l -> keyA a ∈ key <$> l) as HinA.
    { intros a Ha%elem_of_lefts. apply list_elem_of_fmap. now exists (inl a). }
    assert (forall b, b ∈ rights l -> keyB b ∈ key <$> l) as HinB.
    { intros b Hb%elem_of_rights. apply list_elem_of_fmap. now exists (inr b). }
    destruct x as [a0|b0]; unfold lefts, rights; cbn [omap list_omap];
      fold (lefts l); fold (rights l).
    + split; [|split; [exact Hr|]].
      * rewrite fmap_cons. constructor; [|exact Hl].
        intros (a & Hk & Ha)%list_elem_of_fmap. apply Hx. cbn. rewrite Hk. now apply HinA.
      * intros a b [->|Ha]%elem_of_cons Hb; [|now apply Hd].
        intros Hk. apply Hx. cbn. rewrite Hk. now apply HinB.
    + split; [exact Hl|split].
      * rewrite fmap_cons. constructor; [|exact Hr].
        intros (b & Hk & Hb)%list_elem_of_fmap. apply Hx. cbn. rewrite Hk. now apply HinB.
      * intros a b Ha [->|Hb]%elem_of_cons; [|now apply Hd].
        intros Hk. apply Hx. cbn. rewrite <- Hk. now apply HinA.
Qed.

Lemma length_lefts_rights {A B} (l : list (A + B)) :
  (length (lefts l) + length (rights l) = length l)%nat.
Proof.
  induction l as [|[a|b] l IH]; [reflexivity|..]; unfold lefts, rights in *;
    cbn [omap list_omap length]; lia.
Qed.

(** X8.  The records of [DNSResolve] hold no address twice, and a CNAME only
    when it is lower-cased and not the host itself; its candidates have a
    CNAME that is not empty, lower-cased, and not the host.  For distinct
    hosts, each taken once from the channel, no host has two records or two
    candidates, none is both resolved and a candidate, and there are no
    more results than hosts. *)
Theorem DNSResolve_invariants (dns : DNS) (order : list nat) (ctx : Ctx)
    (hosts : list string) (concurrency : Z) :
  let out := DNSResolve dns order ctx hosts concurrency in
  (forall r, r ∈ out.1.1 ->
     NoDup (dr_IPs r) /\ GoStrings.ToLower (dr_CNAME r) = dr_CNAME r /\
     (dr_CNAME r = "" \/ dr_CNAME r <> dr_Host r)) /\
  (forall d, d ∈ out.1.2 ->
     dc_CNAME d <> "" /\ dc_CNAME d <> dc_Host d /\
     GoStrings.ToLower (dc_CNAME d) = dc_CNAME d) /\
  (NoDup hosts -> NoDup order ->
     NoDup (dr_Host <$> out.1.1) /\ NoDup (dc_Host <$> out.1.2) /\
     (forall r d, r ∈ out.1.1 -> d ∈ out.1.2 -> dr_Host r <> dc_Host d) /\
     (length out.1.1 + length out.1.2 <= length hosts)%nat).
Proof.
  cbv zeta. unfold DNSResolve. cbn [fst snd].
  set (out := pool ctx concurrency order hosts (resolveHost dns)).
  split; [|split].
  - intros r (i & h & _ & _ & Hr)%elem_of_lefts%elem_of_pool.
    apply resolveHost_record in Hr as (-> & (ips & _ & ->) & Hc).
    split; [apply deduplicateStrings_NoDup|].
    destruct Hc as [->|(Hne & c & _ & Hc)]; [split; [reflexivity|now left]|].
    split; [|now right]. rewrite Hc. apply lowered_TrimSuffix, ToLower_idem.
  - intros d (i & h & _ & _ & Hd)%elem_of_rights%elem_of_pool.
    destruct (resolveHost_candidate _ _ _ _ Hd) as (c & Hc & Hcn & Hne & Hne').
    pose proof (resolveHost_dangling _ _ _ _ Hd) as (<- & _).
    split; [exact Hne'|]. split; [exact Hne|].
    rewrite Hcn. apply lowered_TrimSuffix, ToLower_idem.
  - intros Hhosts Horder.
    assert (NoDup ((fun x => match x with inl r => dr_Host r | inr d => dc_Host d end)
                     <$> out) /\ (length out <= length hosts)%nat) as [Hnd Hlen].
    { subst out. unfold pool. destruct (_ || _).
      { split; [constructor|cbn; lia]. }
      split.
      - apply (NoDup_omap_key _ _ hosts); [|exact Hhosts|exact Horder].
        intros i [r|d] Hi; destruct (hosts !! i) as [h|]; try discriminate; cbn in Hi.
        + now apply resolveHost_record in Hi as (-> & _).
        + now apply resolveHost_dangling in Hi as (-> & _).
      - assert (length (omap (fun i => x ← hosts !! i; resolveHost dns i x)
                             (filter (fun i => (i < length hosts)%nat) order))
                <= length hosts)%nat as Hle.
        { etransitivity; [apply length_omap_le|].
          assert (length (filter (fun i => (i < length hosts)%nat) order)
                  <= length (seq 0%nat (length hosts)))%nat as H;
            [|now rewrite length_seq in H].
          apply submseteq_length, NoDup_submseteq; [now apply NoDup_filter|].
          intros i [Hi _]%list_elem_of_filter. apply elem_of_seq. lia. }
        etransitivity; [|exact Hle]. clear. apply Nat.eq_le_incl.
        induction order as [|i order IH]; [reflexivity|].
        cbn [omap list_omap]. rewrite filter_cons.
        destruct (decide (i < length hosts)%nat) as [Hi|Hi].
        + cbn [omap list_omap]. destruct (hosts !! i ≫= resolveHost dns i);
            cbn [length]; now rewrite <- IH.
        + rewrite (lookup_ge_None_2 hosts i) by lia. exact IH. }
    destruct (NoDup_lefts_rights dr_Host dc_Host out Hnd) as (Hl & Hr & Hd).
    split; [exact Hl|]. split; [exact Hr|]. split; [exact Hd|].
    now rewrite length_lefts_rights.
Qed.

Lemma DNSResolve_invariants_witness :
  let out := DNSResolve fixtures.resolver [2; 0; 1]%nat Background fixtures.hosts3 10 in
  NoDup (dr_Host <$> out.1.1) /\ NoDup (dc_Host <$> out.1.2) /\
  (forall r d, r ∈ out.1.1 -> d ∈ out.1.2 -> dr_Host r <> dc_Host d) /\
  (length out.1.1 + length out.1.2 <= length fixtures.hosts3)%nat.
Proof.
  apply (DNSResolve_invariants fixtures.resolver [2; 0; 1]%nat Background fixtures.hosts3 10).
  - apply (bool_decide_unpack _). vm_compute. reflexivity.
  - apply (bool_decide_unpack _). vm_compute. reflexivity.
Defined.

(** ** Live hosts and their addresses (dns.go, portscan.go) *)

Lemma live_iff (r : DNSResult) :
  0 < len (dr_IPs r) <-> exists ip rest, dr_IPs r = ip :: rest.
Proof.
  unfold len. destruct (dr_IPs r) as [|ip rest]; cbn [length].
  - split; [lia|intros (? & ? & [=])].
  - split; [eauto|lia].
Qed.

Lemma elem_of_LiveHostsFromDNS (records : list DNSResult) (host : string) :
  host ∈ LiveHostsFromDNS records <->
  exists r ip rest, r ∈ records /\ dr_Host r = host /\ dr_IPs r = ip :: rest.
Proof.
  unfold LiveHostsFromDNS. rewrite list_elem_of_fmap. split.
  - intros (r & -> & [(ip & rest & Hl)%live_iff Hr]%list_elem_of_filter). eauto 6.
  - intros (r & ip & rest & Hr & <- & Hl). exists r. split; [reflexivity|].
    apply list_elem_of_filter. split; [apply live_iff; eauto|exact Hr].
Qed.

Lemma IPForHost_cons (r : DNSResult) (records : list DNSResult) (host : string) :
  IPForHost (r :: records) host =
    match dr_IPs r with
    | ip :: _ => if String.eqb (dr_Host r) host then ip else IPForHost records host
    | [] => IPForHost records host
    end.
Proof.
  cbn [IPForHost]. unfold len. destruct (dr_IPs r) as [|ip rest]; cbn [length].
  - now rewrite andb_false_r.
  - destruct (String.eqb (dr_Host r) host); reflexivity.
Qed.

Lemma IPForHost_first (records : list DNSResult) (host : string) :
  NoDup (dr_Host <$> records) ->
  forall r ip rest, r ∈ records -> dr_Host r = host -> dr_IPs r = ip :: rest ->
    IPForHost records host = ip.
Proof.
  induction records as [|r0 records IH]; intros Hnd r ip rest Hr Hh Hips.
  { now apply elem_of_nil in Hr. }
  rewrite fmap_cons in Hnd. apply NoDup_cons in Hnd as [Hfresh Hnd].
  rewrite IPForHost_cons. apply elem_of_cons in Hr as [<-|Hr].
  - rewrite Hips. destruct (String.eqb_spec (dr_Host r) host); [reflexivity|done].
  - assert (dr_Host r0 <> host) as Hne.
    { intros H0. apply Hfresh. rewrite H0, <- Hh. apply list_elem_of_fmap. eauto. }
    destruct (dr_IPs r0); [now apply (IH Hnd r ip rest)|].
    destruct (String.eqb_spec (dr_Host r0) host); [done|now apply (IH Hnd r ip rest)].
Qed.

(** X9.  [IPForHost] is empty for a host that [LiveHostsFromDNS] does not
    list; an address it returns is the first one of a record of that host;
    and when no host has two records, it is the first address of the
    host's record.  [LiveHostsFromDNS] lists as many hosts as the
    orchestrator counts as live. *)
Theorem IPForHost_spec (records : list DNSResult) (host : string) :
  (host ∉ LiveHostsFromDNS records -> IPForHost records host = "") /\
  (IPForHost records host <> "" ->
     exists r rest, r ∈ records /\ dr_Host r = host /\
                    dr_IPs r = IPForHost records host :: rest) /\
  (NoDup (dr_Host <$> records) ->
     forall r ip rest, r ∈ records -> dr_Host r = host -> dr_IPs r = ip :: rest ->
       IPForHost records host = ip) /\
  len (LiveHostsFromDNS records) = countLive records.
Proof.
  split; [|split; [|split]].
  - rewrite elem_of_LiveHostsFromDNS. induction records as [|r records IH]; [reflexivity|].
    intros Hnot. rewrite IPForHost_cons.
    assert (IPForHost records host = "") as Hrest.
    { apply IH. intros (r' & ip & rest & Hr & Hh & Hl). apply Hnot.
      exists r', ip, rest. split; [now right|auto]. }
    destruct (dr_IPs r) as [|ip rest] eqn:Hips; [exact Hrest|].
    destruct (String.eqb_spec (dr_Host r) host) as [Hh|_]; [|exact Hrest].
    exfalso. apply Hnot. exists r, ip, rest. split; [now left|auto].
  - induction records as [|r records IH]; [done|]. rewrite IPForHost_cons.
    assert (IPForHost records host <> "" ->
            exists r0 rest, r0 ∈ r :: records /\ dr_Host r0 = host /\
                            dr_IPs r0 = IPForHost records host :: rest) as Hrest.
    { intros (r0 & rest & H0 & H1)%IH. exists r0, rest. split; [now right|exact H1]. }
    destruct (dr_IPs r) as [|ip rest] eqn:Hips; [exact Hrest|].
    destruct (String.eqb_spec (dr_Host r) host) as [Hh|_]; [|exact Hrest].
    intros _. exists r, rest. split; [now left|auto].
  - apply IPForHost_first.
  - unfold LiveHostsFromDNS, countLive, len. now rewrite length_fmap.
Qed.

Lemma IPForHost_spec_witness :
  IPForHost [{| dr_Host := "dead.example.com"; dr_IPs := []; dr_CNAME := "" |};
             {| dr_Host := "www.example.com"; dr_IPs := ["1.2.3.4"; "5.6.7.8"];
                dr_CNAME := "" |}] "www.example.com" = "1.2.3.4".
Proof.
  destruct (IPForHost_spec
              [{| dr_Host := "dead.example.com"; dr_IPs := []; dr_CNAME := "" |};
               {| dr_Host := "www.example.com"; dr_IPs := ["1.2.3.4"; "5.6.7.8"];
                  dr_CNAME := "" |}] "www.example.com") as (_ & _ & Hfirst & _).
  apply Hfirst with (r := {| dr_Host := "www.example.com"; dr_IPs := ["1.2.3.4"; "5.6.7.8"];
                              dr_CNAME := "" |}) (rest := ["5.6.7.8"]).
  - apply (bool_decide_unpack _). vm_compute. reflexivity.
  - apply list_elem_of_In. vm_compute. auto.
  - reflexivity.
  - reflexivity.
Defined.

Lemma elem_of_buildTargets (dnsRecords : list DNSResult) (ports : list Z) (t : target) :
  t ∈ buildTargets dnsRecords ports <->
  exists r rest, r ∈ dnsRecords /\ dr_IPs r = t_ip t :: rest /\
                 t_host t = dr_Host r /\ t_port t ∈ ports.
Proof.
  unfold buildTargets. rewrite list_elem_of_bind. split.
  - intros (r & Ht & Hr). destruct (dr_IPs r) as [|ip rest] eqn:Hips;
      [now apply elem_of_nil in Ht|].
    apply list_elem_of_fmap in Ht as (port & -> & Hport). exists r, rest. auto.
  - intros (r & rest & Hr & Hips & Hh & Hport). exists r. split; [|exact Hr].
    rewrite Hips. apply list_elem_of_fmap. exists (t_port t). split; [|exact Hport].
    destruct t. cbn in *. now subst.
Qed.

Lemma length_buildTargets (dnsRecords : list DNSResult) (ports : list Z) :
  len (buildTargets dnsRecords ports) = countLive dnsRecords * len ports.
Proof.
  unfold buildTargets, countLive, len. induction dnsRecords as [|r records IH]; [reflexivity|].
  cbn [mbind list_bind]. rewrite length_app, filter_cons, Nat2Z.inj_add.
  change (list_bind _ _ ?f records) with (records ≫= f). rewrite IH.
  destruct (dr_IPs r) as [|ip rest] eqn:Hips.
  - destruct (decide _) as [H|_]; [cbn in H; lia|]. cbn [length]. lia.
  - destruct (decide _) as [_|H]; [|cbn [length] in H; lia].
    rewrite length_fmap. cbn [length]. lia.
Qed.

(** X10.  Every open port that [PortScan] reports is one of the ports asked
    for, on a host that [LiveHostsFromDNS] lists, at the first address of a
    record of that host, which is [IPForHost] of the host when no host has
    two records; each target taken once from the channel, there are at most
    as many results as live records times ports. *)
Theorem PortScan_targets (dial : nat -> string -> bool) (order : list nat) (ctx : Ctx)
    (dnsRecords : list DNSResult) (ports : list Z) (concurrency timeout : Z) :
  let out := (PortScan dial order ctx dnsRecords ports concurrency timeout).1 in
  (forall p, p ∈ out ->
     pr_Port p ∈ ports /\ pr_Host p ∈ LiveHostsFromDNS dnsRecords /\
     (exists r rest, r ∈ dnsRecords /\ dr_Host r = pr_Host p /\ dr_IPs r = pr_IP p :: rest) /\
     (NoDup (dr_Host <$> dnsRecords) -> pr_IP p = IPForHost dnsRecords (pr_Host p))) /\
  (schedule_ok ctx (length (buildTargets dnsRecords ports)) order ->
     len out <= countLive dnsRecords * len ports).
Proof.
  cbv zeta. split.
  - intros p (i & t & _ & Ht & _ & ->)%PortScan_results. cbn [pr_Host pr_IP pr_Port].
    apply list_elem_of_lookup_2, elem_of_buildTargets in Ht
      as (r & rest & Hr & Hips & Hh & Hport).
    split; [exact Hport|]. split; [apply elem_of_LiveHostsFromDNS; eauto 6|].
    split; [eauto 6|]. intros Hnd. symmetry.
    now apply (IPForHost_first dnsRecords (t_host t) Hnd r _ rest).
  - intros Hok. rewrite <- length_buildTargets. unfold PortScan, len. cbn [fst].
    apply Nat2Z.inj_le. now apply length_pool.
Qed.

Lemma PortScan_targets_witness :
  443 ∈ [80; 443] /\
  "www.example.com" ∈
    LiveHostsFromDNS [{| dr_Host := "www.example.com"; dr_IPs := ["1.2.3.5"]; dr_CNAME := "" |}] /\
  "1.2.3.5" =
    IPForHost [{| dr_Host := "www.example.com"; dr_IPs := ["1.2.3.5"]; dr_CNAME := "" |}]
              "www.example.com".
Proof.
  destruct (PortScan_targets (fun _ addr => String.eqb addr "1.2.3.5:443") [0; 1]%nat
              Background
              [{| dr_Host := "www.example.com"; dr_IPs := ["1.2.3.5"]; dr_CNAME := "" |}]
              [80; 443] 25 2) as [Hp _].
  destruct (Hp {| pr_Host := "www.example.com"; pr_IP := "1.2.3.5"; pr_Port := 443 |})
    as (H1 & H2 & _ & H4).
  - vm_compute. apply list_elem_of_singleton. reflexivity.
  - split; [exact H1|]. split; [exact H2|]. apply H4.
    apply (bool_decide_unpack _). vm_compute. reflexivity.
Defined.

(** ** Which stages a run gets to (engine.go) *)

Lemma len_nonzero {A} (l : list A) : (len l =? 0) = false -> l <> [].
Proof. intros H ->. discriminate H. Qed.

Ltac in_trace :=
  solve [repeat first [apply list_elem_of_here | apply list_elem_of_further]].

Ltac not_in_trace :=
  let H := fresh in
  intros H; repeat (apply elem_of_cons in H as [H|H]; [discriminate H|]);
  now apply elem_of_nil in H.

Ltac gate_case :=
  match goal with
  | |- _ ∈ _ => in_trace
  | |- _ <-> _ =>
      split;
      [ first [ intros _; first [ apply Z.eqb_neq; assumption
                                | apply len_nonzero; assumption ]
              | let H := fresh in intros H; exfalso; revert H; not_in_trace ]
      | first [ intros _; in_trace
              | let H := fresh in
                intros H; exfalso; apply H;
                first [ apply Z.eqb_eq; assumption | apply len_zero; assumption
                      | reflexivity ] ] ]
  end.

Section Gating.

Context {W : Type}.
Variables (ctx : Ctx) (cfg : Config) (impl : Stages W).

(** X11.  A result that [Run] returns is for the target of the
    configuration, holds at least one subdomain, is stamped with the first
    reading of the clock, and carries the summary of its own collections.
    The enumerator and the resolver were called; the scanner was called
    exactly when a record has an address, the prober exactly when a port is
    open, the fingerprinter only after that; and without a live host there
    is no open port, without an open port no service. *)
Theorem Run_stage_gating (w : W) (r : ScanResult) (w' : W) (trace : list Event) :
  Run ctx cfg impl (w, []) = ((Some r, None), (w', trace)) ->
  Target r = cfg_Target cfg /\ Subdomains r <> [] /\
  StartedAt r = (Now impl w).1 /\ DurationSecs r = CompletedAt r - StartedAt r /\
  res_Summary r = buildSummary r /\
  CallEnumerate ∈ trace /\ CallResolve ∈ trace /\
  (CallScan ∈ trace <-> countLive (DNSRecords r) <> 0) /\
  (CallProbe ∈ trace <-> OpenPorts r <> []) /\
  (CallFingerprint ∈ trace -> OpenPorts r <> []) /\
  (countLive (DNSRecords r) = 0 -> OpenPorts r = []) /\
  (OpenPorts r = [] -> HTTPServices r = []).
Proof.
  run_unfold. destruct (Now impl w) as [t0 w0]. cbn [fst snd].
  destruct (engine.Enumerate _ _ _ _ _) as [[subs [err|]] w1]; cbn [fst snd];
    [discriminate|].
  destruct (len subs =? 0) eqn:Hsubs; [discriminate|]. apply len_nonzero in Hsubs.
  run_cases; simpl; intros [= <- <- <-];
    (split; [reflexivity|]); (split; [exact Hsubs|]); (split; [reflexivity|]);
    (split; [reflexivity|]); (split; [apply complete_Summary|]);
    (split; [in_trace|]); (split; [in_trace|]);
    cbn [DNSRecords OpenPorts HTTPServices complete].
  all: split; [gate_case|]; split; [gate_case|].
  all: split;
    [ first [ intros _; apply len_nonzero; assumption
            | let H := fresh in intros H; exfalso; revert H; not_in_trace ] |].
  all: split;
    [ first [ reflexivity
            | let H := fresh in
              intros H; exfalso;
              match goal with E : (countLive _ =? 0) = false |- _ =>
                apply Z.eqb_neq in E; contradiction end ] |].
  all: first [ reflexivity
             | let H := fresh in
               intros H; exfalso;
               match goal with E : (len _ =? 0) = false |- _ =>
                 apply len_nonzero in E; contradiction end ].
Qed.

End Gating.

Lemma Run_stage_gating_witness :
  let out := Run Background fixtures.cfgTest fixtures.noLiveHosts (tt, []) in
  CallEnumerate ∈ out.2.2 /\ CallResolve ∈ out.2.2 /\
  (CallScan ∈ out.2.2 <-> countLive (default [] (DNSRecords <$> out.1.1)) <> 0).
Proof.
  pose proof (Run_stage_gating Background fixtures.cfgTest fixtures.noLiveHosts tt _ _ _ eq_refl)
    as (_ & _ & _ & _ & _ & He & Hr & Hs & _).
  split; [exact He|]. split; [exact Hr|exact Hs].
Defined.

(** ** The summary (engine.go) *)

Lemma size_list_to_set_le (l : list string) :
  (size (list_to_set l : gset string) <= length l)%nat.
Proof.
  unfold size, set_size. cbn. apply submseteq_length, NoDup_submseteq; [apply NoDup_elements|].
  intros x Hx%elem_of_elements%elem_of_list_to_set. exact Hx.
Qed.

Lemma size_list_to_set_zero (l : list string) :
  size (list_to_set l : gset string) = 0%nat <-> l = [].
Proof.
  rewrite size_empty_iff. split.
  - intros He. destruct l as [|x l]; [reflexivity|].
    exfalso. apply (not_elem_of_empty (C := gset string) x). rewrite <- He.
    apply elem_of_list_to_set. now left.
  - now intros ->.
Qed.

Lemma techCount_concat (services : list HTTPService) :
  techCount services = len (concat (svc_Technologies <$> services)).
Proof.
  unfold techCount.
  assert (forall n, fold_left (fun n svc => n + len (svc_Technologies svc)) services n =
                    n + len (concat (svc_Technologies <$> services))) as H; [|apply H].
  induction services as [|svc services IH]; intros n; cbn [fold_left fmap list_fmap concat].
  - unfold len. cbn. lia.
  - rewrite IH. unfold len. rewrite length_app. lia.
Qed.

(** X12.  The summary never counts more than the result holds: the live
    hosts are at most the records with an address, and exactly these when no
    host has two records; no live host is counted exactly when the
    orchestrator's own count of records with an address, on which it ends
    the run early, is zero; the technologies are at most the instances the
    fingerprinter reports, the vulnerable nameservers at most those
    tested. *)
Theorem buildSummary_counts (result : ScanResult) :
  let s := buildSummary result in
  0 <= LiveHosts s <= countLive (DNSRecords result) /\
  countLive (DNSRecords result) <= len (DNSRecords result) /\
  (LiveHosts s = 0 <-> countLive (DNSRecords result) = 0) /\
  (NoDup (dr_Host <$> DNSRecords result) -> LiveHosts s = countLive (DNSRecords result)) /\
  LiveHosts s = Z.of_nat (size (list_to_set (LiveHostsFromDNS (DNSRecords result)) : gset string)) /\
  0 <= TechCount s <= techCount (HTTPServices result) /\
  (TechCount s = 0 <-> techCount (HTTPServices result) = 0) /\
  0 <= ZoneTransferCount s <= len (ZoneTransfers result).
Proof.
  cbv zeta. unfold buildSummary. cbn [LiveHosts TechCount ZoneTransferCount].
  rewrite techCount_concat. unfold countLive, len.
  set (live := filter (fun r => 0 < Z.of_nat (length (dr_IPs r))) (DNSRecords result)).
  set (techs := concat (svc_Technologies <$> HTTPServices result)).
  pose proof (size_list_to_set_le (dr_Host <$> live)) as Hl.
  pose proof (size_list_to_set_le (tech_Name <$> techs)) as Ht.
  pose proof (size_list_to_set_zero (dr_Host <$> live)) as Hl0.
  pose proof (size_list_to_set_zero (tech_Name <$> techs)) as Ht0.
  rewrite length_fmap in Hl. rewrite length_fmap in Ht.
  split; [lia|]. split.
  { apply Nat2Z.inj_le. subst live. apply length_filter. }
  split.
  { split; intros H.
    - assert (dr_Host <$> live = []) as Hnil by (apply Hl0; lia).
      apply fmap_nil_inv in Hnil. now rewrite Hnil.
    - assert (live = []) as -> by (destruct live; [reflexivity|discriminate H]).
      reflexivity. }
  split.
  { intros Hnd. f_equal. rewrite size_list_to_set, length_fmap; [reflexivity|].
    subst live. clear -Hnd. induction (DNSRecords result) as [|r l IH]; [constructor|].
    rewrite fmap_cons in Hnd. apply NoDup_cons in Hnd as [Hr Hnd].
    rewrite filter_cons. destruct (decide _); [|now apply IH].
    rewrite fmap_cons. constructor; [|now apply IH].
    intros (r' & Hh & [_ Hin]%list_elem_of_filter)%list_elem_of_fmap.
    apply Hr. rewrite Hh. apply list_elem_of_fmap. eauto. }
  split; [reflexivity|]. split; [lia|]. split.
  { split; intros H.
    - assert (tech_Name <$> techs = []) as Hnil by (apply Ht0; lia).
      apply fmap_nil_inv in Hnil. now rewrite Hnil.
    - assert (techs = []) as -> by (destruct techs; [reflexivity|discriminate H]).
      reflexivity. }
  split; [lia|]. apply Nat2Z.inj_le, length_filter.
Qed.

Lemma buildSummary_counts_witness :
  let result :=
    complete 0 1 "example.com" [] [] []
      [{| dr_Host := "www.example.com"; dr_IPs := ["1.2.3.4"]; dr_CNAME := "" |};
       {| dr_Host := "dead.example.com"; dr_IPs := []; dr_CNAME := "" |}] [] [] [] in
  LiveHosts (buildSummary result) = countLive (DNSRecords result).
Proof.
  destruct (buildSummary_counts
              (complete 0 1 "example.com" [] [] []
                 [{| dr_Host := "www.example.com"; dr_IPs := ["1.2.3.4"]; dr_CNAME := "" |};
                  {| dr_Host := "dead.example.com"; dr_IPs := []; dr_CNAME := "" |}] [] [] []))
    as (_ & _ & _ & Hdistinct & _).
  apply Hdistinct. apply (bool_decide_unpack _). vm_compute. reflexivity.
Defined.

Lemma DNSResolve_no_worker dns order ctx hosts concurrency :
  concurrency <= 0 -> DNSResolve dns order ctx hosts concurrency = ([], [], None).
Proof.
  intros Hc. unfold DNSResolve, pool. destruct (Z.leb_spec concurrency 0); [|lia].
  reflexivity.
Qed.

(** X13.  With a concurrency of zero or less the resolver stage starts no
    worker and resolves nothing, while the enumerator still runs its
    brute-force sweep with one worker: the run then ends early, without
    error, with the subdomains it found, no DNS record, no open port and no
    service, whatever the network would have answered. *)
Theorem Run_without_workers (env : Env) (ctx : Ctx) (cfg : Config) (w : World) :
  cfg_Concurrency cfg <= 0 ->
  bruteConcurrency (cfg_Concurrency cfg) = 1 /\
  exists r w' trace,
    Run ctx cfg (recon.stages env) (w, []) = ((Some r, None), (w', trace)) /\
    Subdomains r <> [] /\ DNSRecords r = [] /\ DanglingCNAMEs r = [] /\
    OpenPorts r = [] /\ HTTPServices r = [] /\ LiveHosts (res_Summary r) = 0 /\
    (CallScan ∉ trace) /\
    Warn "No live hosts found, skipping port scan and HTTP probe" ∈ trace.
Proof.
  intros Hc. split.
  { unfold bruteConcurrency.
    assert (cfg_Concurrency cfg `quot` 2 <= 0) by (apply Z.quot_le_upper_bound; lia).
    destruct (Z.ltb_spec (cfg_Concurrency cfg `quot` 2) 1); [reflexivity|lia]. }
  run_unfold. cbn [recon.stages Now engine.Enumerator engine.Enumerate GetZoneTransfers
                   GetWarnings Resolver fst snd].
  destruct (Enumerate_nonempty env ctx (cfg_Target cfg) (cfg_Concurrency cfg) (w_enumerator w))
    as (subs & e' & He & Hne).
  cbn [w_enumerator]. rewrite He. cbn [fst snd].
  destruct (len subs =? 0) eqn:Hlen; [apply len_zero in Hlen; contradiction|].
  rewrite DNSResolve_no_worker by exact Hc. cbn [fst snd].
  unfold emit, engine.ret; cbn [fst snd]. simpl.
  do 3 eexists. split; [reflexivity|].
  split; [exact Hne|]. repeat (split; [reflexivity|]). split.
  - intros H. repeat (apply elem_of_cons in H as [H|H]; [discriminate H|]).
    now apply elem_of_nil in H.
  - repeat first [apply list_elem_of_here | apply list_elem_of_further].
Qed.

Lemma Run_without_workers_witness :
  bruteConcurrency 0 = 1 /\
  exists r w' trace,
    Run Background
        {| cfg_Target := "example.com"; cfg_Ports := [80; 443]; cfg_Timeout := 2;
           cfg_Concurrency := 0; cfg_UserAgent := "sweep/dev" |}
        (recon.stages fixtures.liveEnv) (fixtures.world0, []) = ((Some r, None), (w', trace)) /\
    Subdomains r <> [] /\ DNSRecords r = [] /\ DanglingCNAMEs r = [] /\
    OpenPorts r = [] /\ HTTPServices r = [] /\ LiveHosts (res_Summary r) = 0 /\
    (CallScan ∉ trace) /\
    Warn "No live hosts found, skipping port scan and HTTP probe" ∈ trace.
Proof.
  apply (Run_without_workers fixtures.liveEnv Background
           {| cfg_Target := "example.com"; cfg_Ports := [80; 443]; cfg_Timeout := 2;
              cfg_Concurrency := 0; cfg_UserAgent := "sweep/dev" |} fixtures.world0).
  cbn. lia.
Defined.

(** ** What the prober keeps for the fingerprinter (httpprobe.go) *)

Lemma limit_length (n : N) (s : string) :
  (N.of_nat (String.length (GoStrings.limit n s)) <= n)%N.
Proof.
  revert n. induction s as [|c s IH]; intros n; cbn [GoStrings.limit String.length]; [lia|].
  destruct (N.eqb_spec n 0); cbn [String.length]; [lia|].
  specialize (IH (N.pred n)). lia.
Qed.

Lemma probeURL_data (Do : string -> option Response) (url : string) (pr : PortResult)
    (scheme : string) (svc : HTTPService) (pd : probeData) :
  probeURL Do url pr scheme = Some (svc, pd) ->
  svc_URL svc = url /\ svc_Technologies svc = [] /\
  GoStrings.TrimSpace (svc_Title svc) = svc_Title svc /\
  (N.of_nat (String.length (body pd)) <= httpProbeMaxBody)%N /\
  (forall k v, headers pd !! k = Some v -> GoStrings.ToLower k = k).
Proof.
  unfold probeURL. destruct (Do url) as [resp|]; [|discriminate]. intros [= <- <-].
  cbn [svc_URL svc_Technologies svc_Title body headers].
  split; [reflexivity|]. split; [reflexivity|]. split.
  { destruct (resp_Title resp); [apply TrimSpace_idem|reflexivity]. }
  split; [apply limit_length|].
  intros k v Hk. apply elem_of_list_to_map_2, list_elem_of_omap in Hk
    as ([name vals] & _ & Hnv).
  destruct vals; [discriminate|]. injection Hnv as <- _. apply ToLower_idem.
Qed.

Lemma probeSchemes_data (Do : string -> option Response) (pr : PortResult)
    (schemes : list string) (svc : HTTPService) (pd : probeData) :
  (probeSchemes Do pr schemes).1 = Some (svc, pd) ->
  exists scheme, scheme ∈ schemes /\ probeURL Do (urlFor scheme pr) pr scheme = Some (svc, pd).
Proof.
  induction schemes as [|scheme schemes IH]; cbn [probeSchemes]; [discriminate|].
  destruct (probeURL Do (urlFor scheme pr) pr scheme) as [r|] eqn:Hr.
  - cbn [fst]. intros [= ->]. exists scheme. split; [now left|exact Hr].
  - destruct (probeSchemes Do pr schemes) as [r tried]. cbn [fst] in *.
    intros (s & Hs & Hp)%IH. exists s. split; [now right|exact Hp].
Qed.

Lemma ProbeData_fold (out : list (HTTPService * probeData)) :
  forall (m : gmap string probeData) (url : string),
    let m' := fold_left (fun m '(svc, pd) => <[svc_URL svc := pd]> m) out m in
    (forall pd, m' !! url = Some pd ->
       m !! url = Some pd \/ exists svc, (svc, pd) ∈ out /\ svc_URL svc = url) /\
    ((exists svc pd, (svc, pd) ∈ out /\ svc_URL svc = url) -> is_Some (m' !! url)).
Proof.
  induction out as [|[svc0 pd0] out IH]; intros m url; cbn [fold_left].
  - split; [auto|]. intros (? & ? & []%elem_of_nil & _).
  - destruct (IH (<[svc_URL svc0 := pd0]> m) url) as [Hfrom Hto]. split.
    + intros pd [Hm|(svc & Hin & Hu)]%Hfrom.
      * destruct (decide (svc_URL svc0 = url)) as [Heq|Hne].
        -- rewrite Heq, lookup_insert_eq in Hm. injection Hm as <-.
           right. exists svc0. split; [now left|exact Heq].
        -- rewrite lookup_insert_ne in Hm by exact Hne. now left.
      * right. exists svc. split; [now right|exact Hu].
    + intros (svc & pd & [[= -> ->]|Hin]%elem_of_cons & Hu).
      * destruct (fold_left _ out _ !! url) as [pd'|] eqn:Hl; [eauto|].
        exfalso. clear -Hl Hu.
        assert (forall m : gmap string probeData, is_Some (m !! url) ->
                  is_Some (fold_left (fun m '(svc, pd) => <[svc_URL svc := pd]> m) out m
                             !! url)) as Hkeep.
        { clear. induction out as [|[s p] out IH]; intros m Hm; [exact Hm|].
          cbn [fold_left]. apply IH. destruct (decide (svc_URL s = url)) as [->|Hne].
          - rewrite lookup_insert_eq. eauto.
          - now rewrite lookup_insert_ne. }
        destruct (Hkeep (<[svc_URL svc0 := pd0]> m)) as [x Hx].
        { rewrite Hu, lookup_insert_eq. eauto. }
        congruence.
      * apply Hto. eauto.
Qed.

(** X14.  The prober keeps probe data under the URL of every service it
    returns, and under no other URL, so that the fingerprinter never falls
    back to the [Server] header for a service of the same run; the data
    hold at most 1 MiB of body and their header names are lower-cased; a
    service comes with a trimmed title and no technology yet. *)
Theorem HTTPProbe_data (Do : nat -> string -> option Response) (order : list nat)
    (ctx : Ctx) (openPorts : list PortResult) (concurrency timeout : Z)
    (userAgent : string) :
  let out := (HTTPProbe Do order ctx openPorts concurrency timeout userAgent).1 in
  (forall svc, svc ∈ Services out ->
     (exists pd, ProbeData out !! svc_URL svc = Some pd /\
                 dataFor (ProbeData out) svc = pd) /\
     svc_Technologies svc = [] /\
     GoStrings.TrimSpace (svc_Title svc) = svc_Title svc /\
     svc_URL svc = svc_Scheme svc +:+ "://" +:+ svc_Host svc +:+ ":" +:+
                   GoStrings.itoa (svc_Port svc)) /\
  (forall url pd, ProbeData out !! url = Some pd ->
     (exists svc, svc ∈ Services out /\ svc_URL svc = url) /\
     (N.of_nat (String.length (body pd)) <= httpProbeMaxBody)%N /\
     (forall k v, headers pd !! k = Some v -> GoStrings.ToLower k = k)).
Proof.
  cbv zeta. unfold HTTPProbe. cbn [fst Services ProbeData].
  set (out := pool ctx concurrency order openPorts (fun i pr => (probePort (Do i) pr).1)).
  assert (forall svc pd, (svc, pd) ∈ out ->
            exists i pr scheme, probeURL (Do i) (urlFor scheme pr) pr scheme = Some (svc, pd))
    as Hout.
  { intros svc pd (i & pr & _ & _ & Hp)%elem_of_pool.
    apply probeSchemes_data in Hp as (scheme & _ & Hp). eauto. }
  split.
  - intros svc ([svc' pd] & -> & Hin)%list_elem_of_fmap. cbn [fst].
    destruct (ProbeData_fold out ∅ (svc_URL svc')) as [_ Hto].
    destruct Hto as [pd' Hpd']; [eauto|].
    destruct (Hout _ _ Hin) as (i & pr & scheme & Hp).
    split; [exists pd'; split; [exact Hpd'|unfold dataFor; now rewrite Hpd']|].
    pose proof (probeURL_data _ _ _ _ _ _ Hp) as (_ & Ht & Htitle & _).
    apply probeURL_inv in Hp as (Hh & _ & Hport & Hu & Hs & _).
    split; [exact Ht|]. split; [exact Htitle|].
    rewrite Hu, Hh, Hport, Hs. reflexivity.
  - intros url pd Hl. destruct (ProbeData_fold out ∅ url) as [Hfrom _].
    apply Hfrom in Hl as [Hl|(svc & Hin & Hu)]; [now rewrite lookup_empty in Hl|].
    split.
    + exists svc. split; [|exact Hu]. apply list_elem_of_fmap. now exists (svc, pd).
    + destruct (Hout _ _ Hin) as (i & pr & scheme & Hp).
      now apply probeURL_data in Hp as (_ & _ & _ & Hb & Hk).
Qed.

Lemma HTTPProbe_data_witness :
  let out := (HTTPProbe (fun _ => fixtures.plainOnly) [0]%nat Background
                        [fixtures.port8080] 12 2 "sweep/dev").1 in
  exists pd, ProbeData out !! "http://www.example.com:8080" = Some pd /\
    dataFor (ProbeData out)
            {| svc_URL := "http://www.example.com:8080"; svc_Host := "www.example.com";
               svc_IP := "1.2.3.5"; svc_Port := 8080; svc_Scheme := "http";
               svc_StatusCode := 400; svc_Title := ""; svc_Server := "";
               svc_ContentLength := 0; svc_Technologies := [] |} = pd.
Proof.
  pose proof (HTTPProbe_data (fun _ => fixtures.plainOnly) [0]%nat Background
                [fixtures.port8080] 12 2 "sweep/dev") as [Hsvc _].
  apply (Hsvc {| svc_URL := "http://www.example.com:8080"; svc_Host := "www.example.com";
                 svc_IP := "1.2.3.5"; svc_Port := 8080; svc_Scheme := "http";
                 svc_StatusCode := 400; svc_Title := ""; svc_Server := "";
                 svc_ContentLength := 0; svc_Technologies := [] |}).
  vm_compute. apply list_elem_of_singleton. reflexivity.
Defined.

(** ** Fingerprinting a list of services (fingerprint.go) *)

Lemma dataFor_setTechnologies (probeResults : gmap string probeData) (svc : HTTPService)
    (techs : list Technology) :
  dataFor probeResults (setTechnologies svc techs) = dataFor probeResults svc.
Proof. reflexivity. Qed.

(** X15.  [FingerprintServices] returns the services it is given, in their
    order, changed in their technologies only; what it sets does not depend
    on the technologies a service held before, so that fingerprinting twice
    is fingerprinting once; and the technologies of a service are listed in
    the order of the rule table. *)
Theorem FingerprintServices_in_place (rules : list FingerprintRule)
    (services : list HTTPService) (probeResults : gmap string probeData) :
  let out := FingerprintServices rules services probeResults in
  length out = length services /\
  (forall i svc, services !! i = Some svc ->
     exists techs, out !! i = Some (setTechnologies svc techs) /\
       techs `sublist_of`
         ((fun rule => {| tech_Name := rule_Name rule; tech_Category := rule_Category rule |})
            <$> rules)) /\
  FingerprintServices rules out probeResults = out /\
  FingerprintServices rules ((fun svc => setTechnologies svc []) <$> services) probeResults
    = out.
Proof.
  cbv zeta. unfold FingerprintServices. split; [apply length_fmap|]. split; [|split].
  - intros i svc Hi. rewrite list_lookup_fmap, Hi. cbn. eexists. split; [reflexivity|].
    apply fmap_sublist, sublist_filter.
  - rewrite <- list_fmap_compose. apply list_fmap_ext. intros svc. reflexivity.
  - rewrite <- list_fmap_compose. apply list_fmap_ext. intros svc. reflexivity.
Qed.

Lemma FingerprintServices_in_place_witness :
  exists techs,
    FingerprintServices [fixtures.nginx]
      [{| svc_URL := "http://www.example.com:8080"; svc_Host := "www.example.com";
          svc_IP := "1.2.3.5"; svc_Port := 8080; svc_Scheme := "http";
          svc_StatusCode := 200; svc_Title := ""; svc_Server := "nginx/1.25";
          svc_ContentLength := 0; svc_Technologies := [] |}] ∅ !! 0%nat =
      Some (setTechnologies
              {| svc_URL := "http://www.example.com:8080"; svc_Host := "www.example.com";
                 svc_IP := "1.2.3.5"; svc_Port := 8080; svc_Scheme := "http";
                 svc_StatusCode := 200; svc_Title := ""; svc_Server := "nginx/1.25";
                 svc_ContentLength := 0; svc_Technologies := [] |} techs) /\
    techs `sublist_of` [{| tech_Name := "nginx"; tech_Category := "web-server" |}].
Proof.
  destruct (FingerprintServices_in_place [fixtures.nginx]
              [{| svc_URL := "http://www.example.com:8080"; svc_Host := "www.example.com";
                  svc_IP := "1.2.3.5"; svc_Port := 8080; svc_Scheme := "http";
                  svc_StatusCode := 200; svc_Title := ""; svc_Server := "nginx/1.25";
                  svc_ContentLength := 0; svc_Technologies := [] |}] ∅) as (_ & Hat & _).
  apply (Hat 0%nat). reflexivity.
Defined.

Lemma Contains_empty (sub : string) : GoStrings.Contains "" sub = true <-> sub = "".
Proof. destruct sub; cbn; [tauto|]. split; discriminate. Qed.

Lemma ToLower_empty (s : string) : GoStrings.ToLower s = "" <-> s = "".
Proof. destruct s; cbn; [tauto|]. split; discriminate. Qed.

(** X16.  A service for which no probe data were kept is fingerprinted
    from its [Server] header alone: a rule fires on it exactly when the
    header is not empty and one of the rule's header conditions is on the
    [Server] header (in any case) and either has a pattern that matches it
    or has no pattern; or, the body being taken as empty, when the rule
    lists the empty string among its body substrings.  Cookie conditions
    never fire. *)
Theorem fingerprint_fallback (rule : FingerprintRule) (svc : HTTPService)
    (probeResults : gmap string probeData) :
  probeResults !! svc_URL svc = None ->
  (matchesRule rule (dataFor probeResults svc) = true <->
     (svc_Server svc <> "" /\
      exists hm, hm ∈ rule_Headers rule /\ GoStrings.ToLower (hm_Name hm) = "server" /\
        ((exists re, regex hm = Some re /\ re (svc_Server svc) = true) \/
         hm_Pattern hm = "")) \/
     "" ∈ rule_Body rule).
Proof.
  intros Hnone. unfold dataFor. rewrite Hnone. unfold matchesRule.
  cbn [headers body cookies GoStrings.ToLower existsb].
  assert (existsb (fun _ : string => false) (rule_Cookies rule) = false) as ->.
  { induction (rule_Cookies rule); [reflexivity|exact IHl]. }
  rewrite orb_false_r, orb_true_iff, !existsb_elem_of. split.
  - intros [(hm & Hin & Hm)|(substr & Hin & Hc)].
    + left. apply headerMatches_true in Hm as (v & Hv & Hcase). cbn [headers] in Hv.
      destruct (String.eqb_spec (svc_Server svc) "") as [|Hne]; cbn [negb] in Hv.
      { now rewrite lookup_empty in Hv. }
      split; [exact Hne|]. exists hm. split; [exact Hin|].
      destruct (decide (GoStrings.ToLower (hm_Name hm) = "server")) as [Hs|Hs].
      * rewrite Hs, lookup_singleton_eq in Hv. injection Hv as <-.
        split; [exact Hs|]. destruct Hcase as [?|[? _]]; auto.
      * rewrite lookup_singleton_ne in Hv by congruence. discriminate Hv.
    + right. apply (proj1 (Contains_empty _)) in Hc.
      apply (proj1 (ToLower_empty _)) in Hc. rewrite Hc in Hin. exact Hin.
  - intros [(Hne & hm & Hin & Hs & Hcase)|Hin].
    + left. exists hm. split; [exact Hin|]. apply headerMatches_true.
      exists (svc_Server svc). cbn [headers].
      destruct (String.eqb_spec (svc_Server svc) "") as [|_]; [done|]. cbn [negb].
      rewrite Hs, lookup_singleton_eq. split; [reflexivity|].
      destruct Hcase as [?|?]; auto.
    + right. exists "". split; [exact Hin|]. reflexivity.
Qed.

Lemma fingerprint_fallback_witness :
  matchesRule fixtures.nginx
    (dataFor ∅ {| svc_URL := "http://www.example.com:8080"; svc_Host := "www.example.com";
                  svc_IP := "1.2.3.5"; svc_Port := 8080; svc_Scheme := "http";
                  svc_StatusCode := 200; svc_Title := ""; svc_Server := "nginx/1.25";
                  svc_ContentLength := 0; svc_Technologies := [] |}) = true <->
  ("nginx/1.25" <> "" /\
   exists hm, hm ∈ rule_Headers fixtures.nginx /\ GoStrings.ToLower (hm_Name hm) = "server" /\
     ((exists re, regex hm = Some re /\ re "nginx/1.25" = true) \/ hm_Pattern hm = "")) \/
  "" ∈ rule_Body fixtures.nginx.
Proof.
  apply (fingerprint_fallback fixtures.nginx
           {| svc_URL := "http://www.example.com:8080"; svc_Host := "www.example.com";
              svc_IP := "1.2.3.5"; svc_Port := 8080; svc_Scheme := "http";
              svc_StatusCode := 200; svc_Title := ""; svc_Server := "nginx/1.25";
              svc_ContentLength := 0; svc_Technologies := [] |} ∅).
  reflexivity.
Defined.

(** ** What the remote sources return (crtsh.go, hackertarget.go, otx.go) *)

Lemma uniq_spec (candidates : list string) :
  NoDup (uniq candidates) /\ forall x, x ∈ uniq candidates <-> x ∈ candidates.
Proof.
  unfold uniq. destruct (appendUnseen_spec candidates (∅, [])) as (_ & Hnd & Hel).
  - intros x. cbn. rewrite elem_of_empty, elem_of_nil. tauto.
  - constructor.
  - split; [exact Hnd|]. intros x. rewrite Hel. cbn. rewrite elem_of_nil. tauto.
Qed.

Lemma HasSuffix_lowered (s suf : string) :
  GoStrings.HasSuffix s suf = true -> GoStrings.ToLower s = s ->
  GoStrings.ToLower suf = suf.
Proof.
  induction s as [|c s IH]; cbn [GoStrings.HasSuffix].
  - rewrite orb_false_r. now intros ->%String.eqb_eq.
  - intros [->%String.eqb_eq|H]%orb_true_iff Hs; [exact Hs|].
    apply lowered_cons in Hs as [_ Hs]. now apply IH.
Qed.

Lemma inTarget_lowered (name domain : string) :
  inTarget name domain = true -> GoStrings.ToLower name = name ->
  GoStrings.ToLower domain = domain.
Proof.
  unfold inTarget. intros [H| ->%String.eqb_eq]%orb_true_iff Hn; [|exact Hn].
  apply HasSuffix_lowered in H; [|exact Hn].
  change ("." +:+ domain) with (String "." domain) in H.
  now apply lowered_cons in H as [_ H].
Qed.

Lemma crtshName_inTarget (domain name h : string) :
  crtshName domain name = Some h -> inTarget h domain = true.
Proof.
  unfold crtshName. destruct (String.eqb _ ""); [discriminate|].
  destruct (inTarget _ domain) eqn:Hin; [|discriminate]. now intros [= <-].
Qed.

Lemma hackertargetLine_inTarget (domain line h : string) :
  hackertargetLine domain line = Some h -> inTarget h domain = true /\ h <> "".
Proof.
  unfold hackertargetLine. destruct (String.eqb _ ""); [discriminate|].
  destruct (String.eqb_spec
              (GoStrings.ToLower (GoStrings.TrimSpace
                 (GoStrings.SplitN2_0 (GoStrings.TrimSpace line) GoStrings.comma))) "")
    as [|Hne]; [discriminate|].
  destruct (inTarget _ domain) eqn:Hin; [|discriminate]. now intros [= <-].
Qed.

Lemma otxHost_inTarget (domain hostname h : string) :
  otxHost domain hostname = Some h -> inTarget h domain = true /\ h <> "".
Proof.
  unfold otxHost.
  destruct (String.eqb_spec (GoStrings.ToLower (GoStrings.TrimSpace hostname)) "")
    as [|Hne]; [discriminate|].
  destruct (inTarget _ domain) eqn:Hin; [|discriminate]. now intros [= <-].
Qed.

(** X17.  The list a remote source returns holds no host twice, and only
    lower-cased names that are the queried domain or end in a dot followed by
    it; the comparison being exact, a source returns no host at all for a
    domain that is not lower-cased (the command lower-cases its argument
    before the run). *)
Theorem remote_sources_in_target (remote : Remote) (ctx : Ctx) (domain userAgent : string)
    (hosts : list string) :
  CrtshEnumerate remote ctx domain userAgent = Ok hosts \/
  HackertargetEnumerate remote ctx domain userAgent = Ok hosts \/
  OTXEnumerate remote ctx domain userAgent = Ok hosts ->
  NoDup hosts /\
  (forall h, h ∈ hosts ->
     GoStrings.ToLower h = h /\
     (h = domain \/ GoStrings.HasSuffix h ("." +:+ domain) = true)) /\
  (GoStrings.ToLower domain <> domain -> hosts = []).
Proof.
  intros Hsrc.
  assert (NoDup hosts /\ forall h, h ∈ hosts ->
            GoStrings.ToLower h = h /\ inTarget h domain = true) as [Hnd Hin].
  { destruct Hsrc as [H|[H|H]].
    - split; [|intros h Hh; split; [eapply CrtshEnumerate_lowered; eauto|]];
        unfold CrtshEnumerate in H; destruct (crtshFetch _ _ _).1; try discriminate;
        destruct (unmarshal remote _); try discriminate; injection H as <-.
      + apply uniq_spec.
      + apply uniq_spec, list_elem_of_bind in Hh as (nameValue & Hh & _).
        apply list_elem_of_omap in Hh as (name & _ & Hh). eapply crtshName_inTarget, Hh.
    - split; [|intros h Hh; split; [eapply HackertargetEnumerate_lowered; eauto|]];
        unfold HackertargetEnumerate, parseHackertargetResponse in H;
        destruct (hackertargetFetch _ _ _).1; try discriminate; injection H as <-.
      + apply uniq_spec.
      + apply uniq_spec, list_elem_of_omap in Hh as (line & _ & Hh).
        eapply hackertargetLine_inTarget, Hh.
    - split; [|intros h Hh; split; [eapply OTXEnumerate_lowered; eauto|]];
        unfold OTXEnumerate, parseOTXResponse in H;
        destruct (otxFetch _ _ _).1; try discriminate;
        destruct (unmarshal remote _); try discriminate; injection H as <-.
      + apply uniq_spec.
      + apply uniq_spec, list_elem_of_omap in Hh as (hostname & _ & Hh).
        eapply otxHost_inTarget, Hh. }
  split; [exact Hnd|]. split.
  - intros h Hh. destruct (Hin h Hh) as [Hl Ht]. split; [exact Hl|].
    unfold inTarget in Ht. apply orb_true_iff in Ht as [Ht|Ht%String.eqb_eq]; auto.
  - intros Hdomain. destruct hosts as [|h hosts]; [reflexivity|].
    destruct (Hin h) as [Hl Ht]; [now left|].
    exfalso. apply Hdomain. exact (inTarget_lowered _ _ Ht Hl).
Qed.

Lemma remote_sources_in_target_witness :
  NoDup ["api.example.com"] /\
  (forall h, h ∈ ["api.example.com"] ->
     GoStrings.ToLower h = h /\
     (h = "example.com" \/ GoStrings.HasSuffix h ("." +:+ "example.com") = true)) /\
  (GoStrings.ToLower "example.com" <> "example.com" -> ["api.example.com"] = []).
Proof.
  apply (remote_sources_in_target (env_hackertarget fixtures.liveEnv) Background
           "example.com" "sweep/dev" ["api.example.com"]).
  right. left. vm_compute. reflexivity.
Defined.

Lemma fetch_ok (doRequest : Reply -> result string) (isRateLimit : error -> bool)
    (retryDelay : Z) (ctx : Ctx) (net : nat -> Reply) (url body : string) :
  (fetch doRequest isRateLimit retryDelay ctx net url).1 = Ok body ->
  doRequest (net 0%nat) = Ok body \/
  (exists err, doRequest (net 0%nat) = Err err) /\ doRequest (net 1%nat) = Ok body.
Proof.
  unfold fetch. destruct (doRequest (net 0%nat)) as [b|err]; cbn [fst]; [intros [= ->]; auto|].
  destruct (isRateLimit err); [discriminate|]. destruct (poll ctx).1; [discriminate|].
  cbn [fst]. eauto.
Qed.

(** X18.  A remote source accepts a body only from a reply with status 200
    whose body could be read, the first of its at most two requests or the
    second after a failed first, and keeps no more of it than its limit (50,
    5 and 10 MiB); HackerTarget moreover accepts no body that holds its
    rate-limit notice. *)
Theorem fetch_accepts (ctx : Ctx) (net : nat -> Reply) (url body : string) :
  let accepted := fun (limit : N) =>
    exists n raw, (n = 0 \/ n = 1)%nat /\ net n = HTTPReply 200 (Ok raw) /\
                  body = GoStrings.limit limit raw /\
                  (N.of_nat (String.length body) <= limit)%N in
  ((crtshFetch ctx net url).1 = Ok body -> accepted crtshMaxBody) /\
  ((hackertargetFetch ctx net url).1 = Ok body ->
     accepted hackertargetMaxBody /\
     GoStrings.Contains body "API count exceeded" = false) /\
  ((otxFetch ctx net url).1 = Ok body -> accepted otxMaxBody).
Proof.
  cbv zeta.
  assert (forall reply,
            (crtshDoRequest reply = Ok body ->
               exists raw, reply = HTTPReply 200 (Ok raw) /\
                           body = GoStrings.limit crtshMaxBody raw) /\
            (hackertargetDoRequest reply = Ok body ->
               (exists raw, reply = HTTPReply 200 (Ok raw) /\
                            body = GoStrings.limit hackertargetMaxBody raw) /\
               GoStrings.Contains body "API count exceeded" = false) /\
            (otxDoRequest reply = Ok body ->
               exists raw, reply = HTTPReply 200 (Ok raw) /\
                           body = GoStrings.limit otxMaxBody raw)) as Hreq.
  { intros [text|status read];
      unfold crtshDoRequest, hackertargetDoRequest, otxDoRequest;
      [repeat split; discriminate|].
    destruct (Z.eqb_spec status 429); [repeat split; discriminate|].
    destruct (Z.leb_spec 500 status);
      destruct (Z.eqb_spec status 200) as [->|]; cbn [negb]; try lia;
      try (repeat split; discriminate).
    destruct read as [raw|text]; [|repeat split; discriminate].
    split; [intros [= <-]; eauto|]. split; [|intros [= <-]; eauto].
    change hackertargetRateMsg with "API count exceeded".
    destruct (GoStrings.Contains (GoStrings.limit hackertargetMaxBody raw) _) eqn:Hc;
      [discriminate|].
    intros [= <-]. eauto. }
  split; [|split].
  - intros [H|[_ H]]%fetch_ok; apply Hreq in H as (raw & Hn & ->);
      [exists 0%nat, raw|exists 1%nat, raw]; (split; [auto|]); (split; [exact Hn|]);
      (split; [reflexivity|apply limit_length]).
  - intros [H|[_ H]]%fetch_ok; apply Hreq in H as ((raw & Hn & Hb) & Hc);
      (split; [|exact Hc]); subst body;
      [exists 0%nat, raw|exists 1%nat, raw]; (split; [auto|]); (split; [exact Hn|]);
      (split; [reflexivity|apply limit_length]).
  - intros [H|[_ H]]%fetch_ok; apply Hreq in H as (raw & Hn & ->);
      [exists 0%nat, raw|exists 1%nat, raw]; (split; [auto|]); (split; [exact Hn|]);
      (split; [reflexivity|apply limit_length]).
Qed.

Lemma fetch_accepts_witness :
  exists n raw, (n = 0 \/ n = 1)%nat /\
    (fun n : nat => if Nat.eqb n 0 then HTTPReply 503 (Ok "") else HTTPReply 200 (Ok "[]")) n
      = HTTPReply 200 (Ok raw) /\
    "[]" = GoStrings.limit crtshMaxBody raw /\
    (N.of_nat (String.length "[]") <= crtshMaxBody)%N.
Proof.
  apply (fetch_accepts Background
           (fun n : nat => if Nat.eqb n 0 then HTTPReply 503 (Ok "") else HTTPReply 200 (Ok "[]"))
           "https://crt.sh/?q=%25.example.com&output=json" "[]").
  reflexivity.
Defined.

(** ** The brute-force source (brute.go) *)

(** X19.  [BruteEnumerate] fails exactly when the word list is empty.
    Otherwise the hosts it returns are the lower-cased candidates
    [word.domain], of words that were worked on, whose lookup gave one
    address at least; with a worker and an open context every such candidate
    is returned; a lookup error or an empty answer is passed over; a context
    that is cancelled from the start gives the empty list and no error. *)
Theorem BruteEnumerate_spec (words : list string)
    (lookupHost : nat -> string -> LookupErr + list string) (order : list nat) (ctx : Ctx)
    (domain : string) (concurrency : Z) :
  let out := BruteEnumerate words lookupHost order ctx domain concurrency in
  (out = Err "empty subdomain wordlist" <-> words = []) /\
  (words <> [] -> exists hosts, out = Ok hosts) /\
  (forall hosts h, out = Ok hosts -> h ∈ hosts ->
     exists i word ips, i ∈ order /\ words !! i = Some word /\
       lookupHost i (word +:+ "." +:+ domain) = inr ips /\ ips <> [] /\
       h = GoStrings.ToLower (word +:+ "." +:+ domain)) /\
  (forall hosts i word ips, out = Ok hosts ->
     0 < concurrency -> (poll ctx).1 = false ->
     i ∈ order -> words !! i = Some word ->
     lookupHost i (word +:+ "." +:+ domain) = inr ips -> ips <> [] ->
     GoStrings.ToLower (word +:+ "." +:+ domain) ∈ hosts) /\
  (forall hosts, out = Ok hosts -> schedule_ok ctx (length words) order ->
     (length hosts <= length words)%nat) /\
  (words <> [] ->
   BruteEnumerate words lookupHost order Cancelled domain concurrency = Ok []).
Proof.
  cbv zeta. unfold BruteEnumerate.
  destruct (len words =? 0) eqn:Hlen.
  { apply len_zero in Hlen. subst words.
    split; [tauto|]. split; [done|]. split; [discriminate|]. split; [discriminate|].
    split; [discriminate|done]. }
  assert (words <> []) as Hne by (intros ->; discriminate Hlen).
  split; [split; [discriminate|done]|]. split; [eauto|]. split; [|split; [|split]].
  - intros hosts h [= <-] (i & candidate & Hi & Hc & Hjob)%elem_of_pool.
    rewrite list_lookup_fmap in Hc. destruct (words !! i) as [word|] eqn:Hw; [|discriminate].
    injection Hc as <-. destruct (lookupHost i _) as [|ips] eqn:Hl; [discriminate|].
    destruct (len ips =? 0) eqn:Hips; [discriminate|]. injection Hjob as <-.
    exists i, word, ips. repeat (split; [done|]). split; [|reflexivity].
    intros ->. discriminate Hips.
  - intros hosts i word ips [= <-] Hc Hp Hi Hw Hl Hips.
    apply (pool_complete _ _ _ _ _ i (word +:+ "." +:+ domain)); try assumption.
    + now rewrite list_lookup_fmap, Hw.
    + rewrite Hl. destruct ips; [done|reflexivity].
  - intros hosts [= <-] Hok. etransitivity; [apply length_pool|]; rewrite length_fmap; auto.
  - intros _. now rewrite pool_cancelled.
Qed.

Lemma BruteEnumerate_spec_witness :
  "www.example.com" ∈ ["www.example.com"].
Proof.
  destruct (BruteEnumerate_spec (env_words fixtures.liveEnv)
              (env_bruteLookup fixtures.liveEnv) (env_bruteOrder fixtures.liveEnv)
              Background "example.com" 12) as (_ & _ & _ & Hall & _).
  apply (Hall ["www.example.com"] 0%nat "www" ["1.2.3.5"]).
  - vm_compute. reflexivity.
  - lia.
  - reflexivity.
  - apply list_elem_of_In. vm_compute. auto.
  - reflexivity.
  - vm_compute. reflexivity.
  - discriminate.
Defined.

(** ** The host names of a zone transfer (zonetransfer.go) *)

Lemma axfrName_spec (domain name h : string) :
  axfrName domain name = Some h <->
  h = GoStrings.ToLower (GoStrings.TrimSuffix name ".") /\ h <> "" /\
  (h = GoStrings.ToLower domain \/
   GoStrings.HasSuffix h ("." +:+ GoStrings.ToLower domain) = true).
Proof.
  unfold axfrName.
  destruct (String.eqb_spec (GoStrings.ToLower (GoStrings.TrimSuffix name ".")) "") as [He|He].
  { split; [discriminate|]. intros (-> & Hne & _). done. }
  destruct (GoStrings.HasSuffix _ ("." +:+ GoStrings.ToLower domain)) eqn:Hs; cbn [negb andb].
  { split; [intros [= <-]; auto|]. now intros (-> & _). }
  destruct (String.eqb_spec (GoStrings.ToLower (GoStrings.TrimSuffix name "."))
                            (GoStrings.ToLower domain)) as [Hd|Hd]; cbn [negb].
  - split; [intros [= <-]; auto|]. now intros (-> & _).
  - split; [discriminate|]. intros (-> & _ & [H|H]); [done|congruence].
Qed.

Lemma readEnvelopes_spec (domain nameserver : string) (envelopes : list Envelope) :
  forall (acc : gset string * list string) (hostnames : list string),
    (forall x, x ∈ acc.1 <-> x ∈ acc.2) -> NoDup acc.2 ->
    readEnvelopes domain nameserver envelopes acc = Ok hostnames ->
    NoDup hostnames /\
    Forall (fun e => env_Error e = None) envelopes /\
    (forall h, h ∈ hostnames <->
       h ∈ acc.2 \/
       exists e name, e ∈ envelopes /\ name ∈ env_RR e /\ axfrName domain name = Some h).
Proof.
  induction envelopes as [|e envelopes IH]; intros acc hostnames Hseen Hnd;
    cbn [readEnvelopes].
  - intros [= <-]. split; [exact Hnd|]. split; [constructor|].
    intros h. split; [auto|]. now intros [H|(? & ? & []%elem_of_nil & _)].
  - destruct (env_Error e) eqn:He; [discriminate|].
    destruct (appendUnseen_spec (omap (axfrName domain) (env_RR e)) acc Hseen Hnd)
      as (Hseen' & Hnd' & Hel).
    intros H. destruct (IH _ _ Hseen' Hnd' H) as (Hn & Hok & Hh).
    split; [exact Hn|]. split; [now constructor|].
    intros h. rewrite Hh, Hel, list_elem_of_omap. split.
    + intros [[Ha|(name & Hname & Hax)]|(e' & name & He' & Hrest)]; [now left|right..].
      * exists e, name. split; [now left|auto].
      * exists e', name. split; [now right|exact Hrest].
    + intros [Ha|(e' & name & [->|He']%elem_of_cons & Hname & Hax)]; [now left; left|..].
      * left. right. eauto.
      * right. eauto.
Qed.

Lemma readEnvelopes_error (domain nameserver : string) (envelopes : list Envelope)
    (e : Envelope) (err : error) :
  e ∈ envelopes -> env_Error e = Some err ->
  forall acc, exists msg, readEnvelopes domain nameserver envelopes acc = Err msg.
Proof.
  intros Hin He. induction envelopes as [|e0 envelopes IH]; intros acc.
  { now apply elem_of_nil in Hin. }
  cbn [readEnvelopes]. destruct (env_Error e0) eqn:He0; [eauto|].
  apply elem_of_cons in Hin as [->|Hin]; [congruence|]. now apply IH.
Qed.

Lemma attemptAXFR_names (zn : ZoneNet) (n : nat) (domain nameserver : string)
    (hostnames : list string) :
  attemptAXFR zn n domain nameserver = Ok hostnames ->
  NoDup hostnames /\
  exists envelopes,
    TransferIn zn n domain nameserver = Ok envelopes /\
    Forall (fun e => env_Error e = None) envelopes /\
    forall h, h ∈ hostnames <->
      exists e name, e ∈ envelopes /\ name ∈ env_RR e /\ axfrName domain name = Some h.
Proof.
  unfold attemptAXFR. destruct (TransferIn zn n domain nameserver) as [envelopes|];
    [|discriminate].
  intros H. apply readEnvelopes_spec in H as (Hnd & Hok & Hh); [|set_solver|constructor].
  split; [exact Hnd|]. exists envelopes. split; [reflexivity|]. split; [exact Hok|].
  intros h. rewrite Hh. cbn. rewrite elem_of_nil. tauto.
Qed.

(** X20.  A zone transfer is all or nothing: one envelope with an error
    makes the attempt fail, whatever the envelopes before it held.  The
    names of a completed transfer are listed once each; they are the owner
    names of its records, without the final dot and lower-cased, that are
    not empty and are the zone's name or end in a dot followed by it. *)
Theorem attemptAXFR_spec (zn : ZoneNet) (n : nat) (domain nameserver : string) :
  (forall hostnames, attemptAXFR zn n domain nameserver = Ok hostnames ->
     NoDup hostnames /\
     exists envelopes,
       TransferIn zn n domain nameserver = Ok envelopes /\
       Forall (fun e => env_Error e = None) envelopes /\
       forall h, h ∈ hostnames <->
         exists e name, e ∈ envelopes /\ name ∈ env_RR e /\
           h = GoStrings.ToLower (GoStrings.TrimSuffix name ".") /\ h <> "" /\
           (h = GoStrings.ToLower domain \/
            GoStrings.HasSuffix h ("." +:+ GoStrings.ToLower domain) = true)) /\
  (forall envelopes e err,
     TransferIn zn n domain nameserver = Ok envelopes ->
     e ∈ envelopes -> env_Error e = Some err ->
     exists msg, attemptAXFR zn n domain nameserver = Err msg).
Proof.
  split.
  - intros hostnames (Hnd & envelopes & Ht & Hok & Hh)%attemptAXFR_names.
    split; [exact Hnd|]. exists envelopes. split; [exact Ht|]. split; [exact Hok|].
    intros h. rewrite Hh. split; intros (e & name & He & Hname & Hax);
      exists e, name; (split; [exact He|]); (split; [exact Hname|]);
      now apply axfrName_spec.
  - intros envelopes e err Ht Hin He. unfold attemptAXFR. rewrite Ht.
    now apply (readEnvelopes_error _ _ _ e err).
Qed.

Lemma attemptAXFR_spec_witness :
  NoDup ["example.com"; "www.example.com"] /\
  exists msg,
    attemptAXFR
      {| LookupNS := fun _ => Ok ["ns1.example.com."];
         TransferIn := fun _ _ _ =>
           Ok [{| env_Error := None; env_RR := ["www.example.com."] |};
               {| env_Error := Some "unexpected EOF"; env_RR := [] |}] |}
      0 "example.com" "ns1.example.com" = Err msg.
Proof.
  split.
  - destruct (attemptAXFR_spec fixtures.leaking 1 "example.com" "ns2.example.com")
      as [Hok _].
    apply (Hok ["example.com"; "www.example.com"]). vm_compute. reflexivity.
  - destruct (attemptAXFR_spec
                {| LookupNS := fun _ => Ok ["ns1.example.com."];
                   TransferIn := fun _ _ _ =>
                     Ok [{| env_Error := None; env_RR := ["www.example.com."] |};
                         {| env_Error := Some "unexpected EOF"; env_RR := [] |}] |}
                0 "example.com" "ns1.example.com") as [_ Hfail].
    apply (Hfail [{| env_Error := None; env_RR := ["www.example.com."] |};
                  {| env_Error := Some "unexpected EOF"; env_RR := [] |}]
                 {| env_Error := Some "unexpected EOF"; env_RR := [] |} "unexpected EOF").
    + reflexivity.
    + apply list_elem_of_In. vm_compute. auto.
    + reflexivity.
Defined.

Lemma elem_of_tryNameserver (zn : ZoneNet) (domain : string) (i : nat) (ns h : string) :
  h ∈ (tryNameserver zn domain i ns).2 <->
  exists hostnames,
    attemptAXFR zn i domain (GoStrings.TrimSuffix ns ".") = Ok hostnames /\ h ∈ hostnames.
Proof.
  unfold tryNameserver. destruct (attemptAXFR _ _ _ _) as [hostnames|err]; cbn [snd].
  - split; [eauto|]. now intros (? & [= <-] & H).
  - split; [intros []%elem_of_nil|]. now intros (? & [=] & _).
Qed.

Lemma tryNameservers_hostnames (zn : ZoneNet) (domain : string) (nameservers : list string) :
  forall (ctx : Ctx) (transfers : list ZoneTransfer) (acc : gset string * list string)
         (r : ZoneTransferResult) (err : option error),
    (forall x, x ∈ acc.1 <-> x ∈ acc.2) -> NoDup acc.2 ->
    tryNameservers zn ctx domain nameservers transfers acc = (Some r, err) ->
    NoDup (Hostnames r) /\
    exists k, (k <= length nameservers)%nat /\
      length (Transfers r) = (length transfers + k)%nat /\
      (err = None -> k = length nameservers) /\
      forall h, h ∈ Hostnames r <->
        h ∈ acc.2 \/
        exists i ns, (i < k)%nat /\ nameservers !! i = Some ns /\
                     h ∈ (tryNameserver zn domain (length transfers + i) ns).2.
Proof.
  induction nameservers as [|ns rest IH]; intros ctx transfers acc r err Hseen Hnd;
    cbn [tryNameservers].
  - intros [= <- <-]. cbn [Hostnames Transfers]. split; [exact Hnd|].
    exists 0%nat. split; [reflexivity|]. split; [lia|]. split; [reflexivity|].
    intros h. split; [auto|]. intros [H|(i & ? & Hi & _)]; [exact H|lia].
  - destruct (poll ctx) as [[] ctx'].
    { intros [= <- <-]. cbn [Hostnames Transfers]. split; [exact Hnd|].
      exists 0%nat. split; [cbn; lia|]. split; [lia|]. split; [discriminate|].
      intros h. split; [auto|]. intros [H|(i & ? & Hi & _)]; [exact H|lia]. }
    destruct (tryNameserver zn domain (length transfers) ns) as [transfer hostnames] eqn:Hns.
    destruct (appendUnseen_spec hostnames acc Hseen Hnd) as (Hseen' & Hnd' & Hel).
    intros H. destruct (IH _ _ _ _ _ Hseen' Hnd' H) as (Hn & k & Hk & Hlen & Hall & Hh).
    split; [exact Hn|]. exists (S k). split; [cbn; lia|].
    rewrite length_app in Hlen, Hh. cbn [length] in Hlen, Hh.
    split; [lia|]. split; [intros He; cbn; now rewrite Hall|].
    intros h. rewrite Hh, Hel. split.
    + intros [[Ha|Hhs]|(i & ns' & Hi & Hl & Hin)]; [now left|right..].
      * exists 0%nat, ns. split; [lia|]. split; [reflexivity|].
        now rewrite Nat.add_0_r, Hns.
      * exists (S i), ns'. split; [lia|]. split; [exact Hl|].
        now replace (length transfers + S i)%nat with (length transfers + 1 + i)%nat by lia.
    + intros [Ha|([|i] & ns' & Hi & Hl & Hin)]; [now left; left|..].
      * left. right. cbn in Hl. injection Hl as <-.
        now rewrite Nat.add_0_r, Hns in Hin.
      * right. exists i, ns'. split; [lia|]. split; [exact Hl|].
        now replace (length transfers + 1 + i)%nat with (length transfers + S i)%nat by lia.
Qed.

(** X21.  The host names that [AttemptZoneTransfers] harvests are listed
    once each, also when two nameservers hand out the same name; they are
    exactly the names of the transfers that completed, among the
    nameservers tried before the context was cancelled; every one is
    lower-cased, not empty, and the zone's name or a name below it. *)
Theorem AttemptZoneTransfers_hostnames (zn : ZoneNet) (ctx : Ctx) (domain : string)
    (r : ZoneTransferResult) (err : option error) :
  AttemptZoneTransfers zn ctx domain = (Some r, err) ->
  NoDup (Hostnames r) /\
  (exists nameservers,
     LookupNS zn domain = Ok nameservers /\
     (length (Transfers r) <= length nameservers)%nat /\
     (err = None -> length (Transfers r) = length nameservers) /\
     forall h, h ∈ Hostnames r <->
       exists i ns hostnames,
         (i < length (Transfers r))%nat /\ nameservers !! i = Some ns /\
         attemptAXFR zn i domain (GoStrings.TrimSuffix ns ".") = Ok hostnames /\
         h ∈ hostnames) /\
  (forall h, h ∈ Hostnames r ->
     GoStrings.ToLower h = h /\ h <> "" /\
     (h = GoStrings.ToLower domain \/
      GoStrings.HasSuffix h ("." +:+ GoStrings.ToLower domain) = true)).
Proof.
  unfold AttemptZoneTransfers.
  destruct (LookupNS zn domain) as [nameservers|] eqn:Hns; [|discriminate].
  destruct (len nameservers =? 0); [discriminate|]. intros H.
  apply tryNameservers_hostnames in H as (Hnd & k & Hk & Hlen & Hall & Hh);
    [|set_solver|constructor].
  cbn [length Nat.add snd] in *. subst k.
  assert (forall h, h ∈ Hostnames r <->
            exists i ns hostnames,
              (i < length (Transfers r))%nat /\ nameservers !! i = Some ns /\
              attemptAXFR zn i domain (GoStrings.TrimSuffix ns ".") = Ok hostnames /\
              h ∈ hostnames) as Hfrom.
  { intros h. rewrite Hh, elem_of_nil. split.
    - intros [[]|(i & ns & Hi & Hl & (hs & Ha & Hin)%elem_of_tryNameserver)]. eauto 8.
    - intros (i & ns & hs & Hi & Hl & Ha & Hin). right. exists i, ns.
      split; [exact Hi|]. split; [exact Hl|]. apply elem_of_tryNameserver. eauto. }
  split; [exact Hnd|]. split; [exists nameservers; auto|].
  intros h (i & ns & hs & _ & _ & Ha & Hin)%Hfrom.
  apply attemptAXFR_names in Ha as (_ & envelopes & _ & _ & Hhs).
  apply Hhs in Hin as (e & name & _ & _ & (-> & Hne & Hzone)%axfrName_spec).
  split; [apply ToLower_idem|auto].
Qed.

Lemma AttemptZoneTransfers_hostnames_witness :
  NoDup ["example.com"; "www.example.com"] /\
  forall h, h ∈ ["example.com"; "www.example.com"] ->
    GoStrings.ToLower h = h /\ h <> "" /\
    (h = GoStrings.ToLower "Example.com" \/
     GoStrings.HasSuffix h ("." +:+ GoStrings.ToLower "Example.com") = true).
Proof.
  destruct (AttemptZoneTransfers_hostnames fixtures.leaking Background "Example.com"
              {| Transfers := [{| zt_Nameserver := "ns1.example.com"; zt_Success := false;
                                  zt_Records := 0 |};
                               {| zt_Nameserver := "ns2.example.com"; zt_Success := true;
                                  zt_Records := 2 |}];
                 Hostnames := ["example.com"; "www.example.com"] |} None)
    as (Hnd & _ & Hzone).
  - vm_compute. reflexivity.
  - split; [exact Hnd|exact Hzone].
Defined.

(** ** The order of the enumerated hosts (stages.go) *)

Lemma leb_iff (a b : string) :
  String.leb a b = true <-> a = b \/ OrderedTypeEx.String_as_OT.lt a b.
Proof.
  unfold String.leb. destruct (String.compare a b) eqn:Hc.
  - apply OrderedTypeEx.String_as_OT.cmp_eq in Hc. tauto.
  - apply OrderedTypeEx.String_as_OT.cmp_lt in Hc. tauto.
  - split; [discriminate|]. intros [He|Hl].
    + apply OrderedTypeEx.String_as_OT.cmp_eq in He.
      unfold OrderedTypeEx.String_as_OT.cmp in He. congruence.
    + apply OrderedTypeEx.String_as_OT.cmp_lt in Hl.
      unfold OrderedTypeEx.String_as_OT.cmp in Hl. congruence.
Qed.

Lemma ltb_iff (a b : string) :
  String.ltb a b = true <-> OrderedTypeEx.String_as_OT.lt a b.
Proof.
  rewrite <- OrderedTypeEx.String_as_OT.cmp_lt. unfold OrderedTypeEx.String_as_OT.cmp, String.ltb.
  destruct (String.compare a b); split; (discriminate || reflexivity).
Qed.

#[local] Instance hostLe_total : Total hostLe.
Proof. intros a b. apply String.leb_total. Qed.

#[local] Instance hostLe_trans : Transitive hostLe.
Proof.
  intros a b c. unfold hostLe. intros Hab%leb_iff Hbc%leb_iff. apply leb_iff.
  destruct Hab as [Hab|Hab], Hbc as [Hbc|Hbc].
  - left. congruence.
  - right. now rewrite Hab.
  - right. now rewrite <- Hbc.
  - right. exact (OrderedTypeEx.String_as_OT.lt_trans _ _ _ Hab Hbc).
Qed.

Lemma subdomains_sorted (l : list Subdomain) :
  NoDup (sd_Host <$> merge_sort hostLe l) ->
  StronglySorted (fun a b => String.ltb (sd_Host a) (sd_Host b) = true) (merge_sort hostLe l).
Proof.
  pose proof (StronglySorted_merge_sort hostLe l) as Hs.
  induction Hs as [|sd rest _ IH Hle]; intros Hnd; [constructor|].
  rewrite fmap_cons in Hnd. apply NoDup_cons in Hnd as [Hfresh Hnd].
  constructor; [now apply IH|].
  rewrite Forall_forall in *. intros sd' Hin. specialize (Hle sd' Hin).
  apply ltb_iff. apply leb_iff in Hle as [He|Hl]; [|exact Hl].
  exfalso. apply Hfresh. rewrite He. apply list_elem_of_fmap. eauto.
Qed.

(** X22.  [Enumerate] returns its subdomains in strictly ascending order of
    host name, bytes compared, whatever the sources found and in whichever
    order they finished. *)
Theorem Enumerate_sorted (env : Env) (ctx : Ctx) (domain : string) (concurrency : Z)
    (e : Enumerator) :
  StronglySorted (fun a b => String.ltb (sd_Host a) (sd_Host b) = true)
                 (Enumerate env ctx domain concurrency e).1.1.
Proof.
  destruct (Enumerate_result env ctx domain concurrency e) as (M & e' & -> & _).
  cbn [fst]. apply subdomains_sorted, NoDup_subdomains.
Qed.

Lemma found_withSources (order : list Source) env ctx domain bc userAgent axfrOn src :
  found (withSources order env) ctx domain bc userAgent axfrOn src =
  found env ctx domain bc userAgent axfrOn src.
Proof. now destruct src. Qed.

Lemma sorted_hosts_unique (a b : list string) :
  StronglySorted (fun x y => String.ltb x y = true) a ->
  StronglySorted (fun x y => String.ltb x y = true) b ->
  NoDup a -> NoDup b -> (forall h, h ∈ a <-> h ∈ b) -> a = b.
Proof.
  intros Ha Hb Hna Hnb Hsame.
  apply (StronglySorted_unique_strong (fun x y => String.ltb x y = true)); try assumption.
  - intros x y _ _ Hxy%ltb_iff Hyx%ltb_iff.
    exfalso. apply (OrderedTypeEx.String_as_OT.lt_not_eq x x); [|reflexivity].
    exact (OrderedTypeEx.String_as_OT.lt_trans _ _ _ Hxy Hyx).
  - now apply NoDup_Permutation.
Qed.

Lemma StronglySorted_hosts (l : list Subdomain) :
  StronglySorted (fun a b => String.ltb (sd_Host a) (sd_Host b) = true) l ->
  StronglySorted (fun x y => String.ltb x y = true) (sd_Host <$> l).
Proof.
  induction 1 as [|sd l _ IH Hall]; [constructor|]. rewrite fmap_cons.
  constructor; [exact IH|]. now apply Forall_fmap.
Qed.

(** X23.  The order in which the source goroutines get to merge their
    findings changes neither the hosts that [Enumerate] returns nor their
    order, and for each host not the set of its sources; only the order of
    the sources within an entry follows the order of arrival. *)
Theorem Enumerate_schedule_independent (env : Env) (ctx : Ctx) (domain : string)
    (concurrency : Z) (e : Enumerator) (order : list Source) :
  (forall src, src ∈ order <-> src ∈ env_sources env) ->
  let a := (Enumerate env ctx domain concurrency e).1.1 in
  let b := (Enumerate (withSources order env) ctx domain concurrency e).1.1 in
  sd_Host <$> a = sd_Host <$> b /\
  (forall sd sd', sd ∈ a -> sd' ∈ b -> sd_Host sd = sd_Host sd' ->
     forall s, s ∈ sd_Sources sd <-> s ∈ sd_Sources sd').
Proof.
  intros Hsame a b. subst a b.
  destruct (Enumerate_result env ctx domain concurrency e)
    as (M & e1 & -> & _ & Hdom & Hsrc & _).
  destruct (Enumerate_result (withSources order env) ctx domain concurrency e)
    as (M' & e2 & -> & _ & Hdom' & Hsrc' & _).
  cbn [fst] in *.
  assert (forall h s, s ∈ default [] (M !! h) <-> s ∈ default [] (M' !! h)) as Hprov.
  { intros h s. rewrite Hsrc, Hsrc'. cbn [env_sources withSources].
    split; (intros [H|(src & Hin & Hs & Hf)]; [now left|right; exists src]).
    - rewrite found_withSources. split; [now apply Hsame|auto].
    - rewrite found_withSources in Hf. split; [now apply Hsame|auto]. }
  assert (forall h, is_Some (M !! h) <-> is_Some (M' !! h)) as Hkeys.
  { intros h. rewrite Hdom, Hdom'. cbn [env_sources withSources].
    split; (intros [H|(src & Hin & Hf)]; [now left|right; exists src]).
    - rewrite found_withSources. split; [now apply Hsame|auto].
    - rewrite found_withSources in Hf. split; [now apply Hsame|auto]. }
  split.
  - apply sorted_hosts_unique;
      [apply StronglySorted_hosts, subdomains_sorted, NoDup_subdomains..
      |apply NoDup_subdomains|apply NoDup_subdomains|].
    intros h. rewrite !list_elem_of_fmap. split.
    + intros (sd & -> & (l & Hl & _)%elem_of_subdomains).
      destruct (proj1 (Hkeys (sd_Host sd))) as [l' Hl']; [eauto|].
      exists {| sd_Host := sd_Host sd; sd_Sources := deduplicateSources l' |}.
      split; [reflexivity|]. apply elem_of_subdomains. eauto.
    + intros (sd & -> & (l & Hl & _)%elem_of_subdomains).
      destruct (proj2 (Hkeys (sd_Host sd))) as [l' Hl']; [eauto|].
      exists {| sd_Host := sd_Host sd; sd_Sources := deduplicateSources l' |}.
      split; [reflexivity|]. apply elem_of_subdomains. eauto.
  - intros sd sd' (l & Hl & ->)%elem_of_subdomains (l' & Hl' & ->)%elem_of_subdomains Hh s.
    rewrite !(proj2 (deduplicateSources_spec _)).
    specialize (Hprov (sd_Host sd) s). rewrite <- Hh in Hl'.
    rewrite Hl, Hl' in Hprov. exact Hprov.
Qed.

Lemma Enumerate_schedule_independent_witness :
  sd_Host <$> (Enumerate fixtures.liveEnv Background "example.com" 25
                         (w_enumerator fixtures.world0)).1.1 =
  sd_Host <$> (Enumerate (withSources [otx; brute; crtsh; hackertarget] fixtures.liveEnv)
                         Background "example.com" 25 (w_enumerator fixtures.world0)).1.1.
Proof.
  apply (Enumerate_schedule_independent fixtures.liveEnv Background "example.com" 25
           (w_enumerator fixtures.world0) [otx; brute; crtsh; hackertarget]).
  intros src. rewrite !list_elem_of_In. destruct src; vm_compute; intuition discriminate.
Defined.

(** ** What [Enumerate] leaves in the enumerator (stages.go) *)

Lemma runSource_zoneTransfers env ctx domain bc src m e :
  zoneTransfers (runSource env ctx domain bc src (m, e)).2 =
    match src with
    | axfr =>
        if AXFR e then
          match AttemptZoneTransfers (env_zone env) (env_observe env ctx axfr) domain with
          | (Some r, None) => Transfers r
          | _ => zoneTransfers e
          end
        else zoneTransfers e
    | _ => zoneTransfers e
    end.
Proof.
  unfold runSource. destruct src.
  - now destruct (CrtshEnumerate _ _ _ _).
  - now destruct (BruteEnumerate _ _ _ _ _ _).
  - now destruct (HackertargetEnumerate _ _ _ _).
  - now destruct (OTXEnumerate _ _ _ _).
  - destruct (AXFR e); cbn [negb]; [|reflexivity].
    destruct (AttemptZoneTransfers _ _ _) as [[r|] [err|]]; try reflexivity.
    now destruct (0 <? _).
Qed.

Lemma sources_fold_zoneTransfers env ctx domain bc (order : list Source) :
  forall m e,
    zoneTransfers (fold_left (fun st src => runSource env ctx domain bc src st) order (m, e)).2 =
      if decide (axfr ∈ order) then
        if AXFR e then
          match AttemptZoneTransfers (env_zone env) (env_observe env ctx axfr) domain with
          | (Some r, None) => Transfers r
          | _ => zoneTransfers e
          end
        else zoneTransfers e
      else zoneTransfers e.
Proof.
  induction order as [|src order IH]; intros m e; cbn [fold_left].
  - destruct (decide (axfr ∈ [])) as [[]%elem_of_nil|]; reflexivity.
  - destruct (runSource env ctx domain bc src (m, e)) as [m1 e1] eqn:Hrun.
    pose proof (runSource_zoneTransfers env ctx domain bc src m e) as Hz.
    pose proof (proj2 (runSource_spec env ctx domain bc src m e)) as (_ & Hax & _).
    rewrite Hrun in Hz, Hax. cbn [snd] in Hz, Hax. rewrite IH, Hax, Hz.
    destruct (decide (src = axfr)) as [->|Hne].
    + destruct (decide (axfr ∈ axfr :: order)) as [_|Hn]; [|exfalso; apply Hn; now left].
      destruct (decide (axfr ∈ order)); [|reflexivity].
      destruct (AXFR e); [|reflexivity].
      now destruct (AttemptZoneTransfers _ _ _) as [[r|] [err|]].
    + assert (match src with
              | axfr =>
                  if AXFR e then
                    match AttemptZoneTransfers (env_zone env) (env_observe env ctx axfr)
                                               domain with
                    | (Some r, None) => Transfers r
                    | _ => zoneTransfers e
                    end
                  else zoneTransfers e
              | _ => zoneTransfers e
              end = zoneTransfers e) as -> by now destruct src.
      destruct (decide (axfr ∈ order)) as [Hin|Hin];
        destruct (decide (axfr ∈ src :: order)) as [Hin'|Hin']; try reflexivity.
      * exfalso. apply Hin'. now right.
      * apply elem_of_cons in Hin' as [?|?]; [congruence|done].
Qed.

(** X24.  [Enumerate] replaces the zone-transfer entries of its enumerator
    only by those of an attempt that returns without error: with AXFR off,
    and after an attempt that fails or is cancelled midway, whose partial
    entries are dropped, the entries of an earlier run stay.  It never
    resets the warnings: those of an earlier run on the same enumerator are
    still there, and reach the next result. *)
Theorem Enumerate_zone_transfers (env : Env) (ctx : Ctx) (domain : string)
    (concurrency : Z) (e : Enumerator) :
  let e' := (Enumerate env ctx domain concurrency e).2 in
  let attempt := AttemptZoneTransfers (env_zone env) (env_observe env ctx axfr) domain in
  (AXFR e = false -> zoneTransfers e' = zoneTransfers e) /\
  (axfr ∉ env_sources env -> zoneTransfers e' = zoneTransfers e) /\
  (forall r err, attempt = (r, Some err) -> zoneTransfers e' = zoneTransfers e) /\
  (forall r, AXFR e = true -> axfr ∈ env_sources env -> attempt = (Some r, None) ->
     zoneTransfers e' = Transfers r) /\
  (forall w, w ∈ warnings e -> w ∈ warnings e') /\
  AXFR e' = AXFR e /\ UserAgent e' = UserAgent e.
Proof.
  cbv zeta. rewrite Enumerate_enumerator, sources_fold_zoneTransfers.
  split; [|split; [|split; [|split]]].
  - intros ->. now destruct (decide _).
  - intros Hn. now destruct (decide _).
  - intros r err ->. destruct (decide _); [|reflexivity]. now destruct (AXFR e), r.
  - intros r -> Hin ->. now destruct (decide _).
  - rewrite <- Enumerate_enumerator.
    destruct (Enumerate_result env ctx domain concurrency e) as (M & e' & -> & Hg & _).
    destruct Hg as (Hu & Ha & Hw & _). cbn [snd]. auto.
Qed.

Lemma Enumerate_zone_transfers_witness :
  zoneTransfers (Enumerate fixtures.liveEnv Background "example.com" 25
                           (w_enumerator fixtures.world0)).2 =
  zoneTransfers (w_enumerator fixtures.world0).
Proof.
  destruct (Enumerate_zone_transfers fixtures.liveEnv Background "example.com" 25
              (w_enumerator fixtures.world0)) as (Hoff & _).
  apply Hoff. reflexivity.
Defined.

(** ** The table of services (table.go) *)

Lemma length_string_append (a b : string) :
  String.length (a +:+ b) = (String.length a + String.length b)%nat.
Proof.
  induction a as [|c a IH]; [reflexivity|].
  change (String c a +:+ b) with (String c (a +:+ b)). cbn [String.length]. now rewrite IH.
Qed.

Lemma length_takeN (n : nat) (s : string) :
  (n <= String.length s)%nat -> String.length (GoStrings.takeN n s) = n.
Proof.
  revert s. induction n as [|n IH]; intros s Hn; [reflexivity|].
  destruct s as [|c s]; cbn in *; [lia|]. rewrite IH; lia.
Qed.

Lemma truncate_fits (s : string) (max : Z) :
  3 <= max ->
  exists t, output.truncate s max = Some t /\ Z.of_nat (String.length t) <= max /\
    (Z.of_nat (String.length s) <= max -> t = s) /\
    (max < Z.of_nat (String.length s) ->
       t = GoStrings.takeN (Z.to_nat (max - 3)) s +:+ "..." /\
       Z.of_nat (String.length t) = max).
Proof.
  intros Hmax. unfold output.truncate.
  destruct (Z.leb_spec (Z.of_nat (String.length s)) max) as [Hle|Hgt].
  - exists s. split; [reflexivity|]. split; [exact Hle|]. split; [reflexivity|lia].
  - destruct (Z.ltb_spec (max - 3) 0); [lia|]. eexists. split; [reflexivity|].
    assert (Z.of_nat (String.length (GoStrings.takeN (Z.to_nat (max - 3)) s +:+ "...")) = max)
      as Hlen.
    { rewrite length_string_append, length_takeN by lia. cbn [String.length]. lia. }
    split; [lia|]. split; [lia|]. auto.
Qed.

(** X25.  [truncate] never returns more than [max] bytes when [max] is 3
    at least: a string that fits is returned as it is, a longer one is cut
    to [max - 3] bytes followed by three dots, [max] bytes in all.  With
    [max] below 3 a string that does not fit makes it panic. *)
Theorem truncate_spec (s : string) (max : Z) :
  (3 <= max ->
   exists t, output.truncate s max = Some t /\ Z.of_nat (String.length t) <= max /\
     (Z.of_nat (String.length s) <= max -> t = s) /\
     (max < Z.of_nat (String.length s) ->
        t = GoStrings.takeN (Z.to_nat (max - 3)) s +:+ "..." /\
        Z.of_nat (String.length t) = max)) /\
  (max < 3 -> max < Z.of_nat (String.length s) -> output.truncate s max = None).
Proof.
  split; [apply truncate_fits|]. intros Hmax Hlen. unfold output.truncate.
  destruct (Z.leb_spec (Z.of_nat (String.length s)) max); [lia|].
  destruct (Z.ltb_spec (max - 3) 0); [reflexivity|lia].
Qed.

Lemma truncate_spec_witness :
  exists t, output.truncate "Apache Tomcat" 10 = Some t /\
    Z.of_nat (String.length t) <= 10 /\
    (Z.of_nat (String.length "Apache Tomcat") <= 10 -> t = "Apache Tomcat") /\
    (10 < Z.of_nat (String.length "Apache Tomcat") ->
       t = GoStrings.takeN (Z.to_nat (10 - 3)) "Apache Tomcat" +:+ "..." /\
       Z.of_nat (String.length t) = 10).
Proof. apply (truncate_spec "Apache Tomcat" 10). lia. Defined.

Lemma cells_Some (row : output.hostRow) :
  exists technologies title,
    output.cells row =
      Some [output.host row; output.ip row; GoStrings.Join (output.ports row) ",";
            technologies; title] /\
    Z.of_nat (String.length technologies) <= 40 /\
    Z.of_nat (String.length title) <= 30.
Proof.
  unfold output.cells.
  destruct (truncate_fits (output.title row) 30) as (title & -> & Ht & _); [lia|].
  cbn [mbind option_bind].
  match goal with
  | |- context [output.truncate ?techStr 40] =>
      destruct (truncate_fits techStr 40) as (technologies & -> & Hl & _); [lia|]
  end.
  cbn [mbind option_bind]. eauto.
Qed.

Lemma addTechnology_host (row : output.hostRow) (t : Technology) :
  output.host (output.addTechnology row t) = output.host row.
Proof.
  unfold output.addTechnology.
  repeat match goal with
         | |- context [if ?b then _ else _] => destruct b
         end; reflexivity.
Qed.

Lemma addTechnologies_host (techs : list Technology) :
  forall row, output.host (fold_left output.addTechnology techs row) = output.host row.
Proof.
  induction techs as [|t techs IH]; intros row; [reflexivity|].
  cbn [fold_left]. now rewrite IH, addTechnology_host.
Qed.

(** The grouping loop keeps one row per host seen so far, under its host,
    and lists the hosts once each in the order of their first service. *)
Lemma addService_fold (services : list HTTPService) :
  forall (hostMap : gmap string output.hostRow) (hostOrder : list string),
    NoDup hostOrder ->
    (forall h, is_Some (hostMap !! h) <-> h ∈ hostOrder) ->
    (forall h row, hostMap !! h = Some row -> output.host row = h) ->
    let st := fold_left output.addService services (hostMap, hostOrder) in
    NoDup st.2 /\
    (forall h, is_Some (st.1 !! h) <-> h ∈ st.2) /\
    (forall h row, st.1 !! h = Some row -> output.host row = h) /\
    (forall h, h ∈ st.2 <-> h ∈ hostOrder \/ exists svc, svc ∈ services /\ svc_Host svc = h).
Proof.
  induction services as [|svc services IH]; intros hostMap hostOrder Hnd Hdom Hhost;
    cbn [fold_left].
  - cbn [fst snd]. split; [exact Hnd|]. split; [exact Hdom|]. split; [exact Hhost|].
    intros h. split; [auto|]. now intros [H|(? & []%elem_of_nil & _)].
  - destruct (output.addService (hostMap, hostOrder) svc) as [hostMap1 hostOrder1] eqn:Hadd.
    assert (NoDup hostOrder1 /\
            (forall h, is_Some (hostMap1 !! h) <-> h ∈ hostOrder1) /\
            (forall h row, hostMap1 !! h = Some row -> output.host row = h) /\
            (forall h, h ∈ hostOrder1 <-> h ∈ hostOrder \/ svc_Host svc = h))
      as (Hnd1 & Hdom1 & Hhost1 & Hel1).
    { unfold output.addService in Hadd.
      destruct (hostMap !! svc_Host svc) as [row0|] eqn:Hrow;
        match type of Hadd with
        | (<[_ := ?row]> _, _) = _ =>
            assert (output.host row = svc_Host svc) as Hr
        end;
        try (repeat match goal with
                    | |- context [if ?b then _ else _] => destruct b
                    end; cbn [output.host];
             rewrite ?addTechnologies_host; cbn [output.host];
             first [now apply Hhost | reflexivity]);
        injection Hadd as <- <-.
      - assert (svc_Host svc ∈ hostOrder) as Hin by (apply Hdom; eauto).
        split; [exact Hnd|]. split; [|split].
        + intros h. destruct (decide (svc_Host svc = h)) as [<-|Hne].
          * rewrite lookup_insert_eq. split; [auto|eauto].
          * rewrite lookup_insert_ne by exact Hne. apply Hdom.
        + intros h row. destruct (decide (svc_Host svc = h)) as [<-|Hne].
          * rewrite lookup_insert_eq. now intros [= <-].
          * rewrite lookup_insert_ne by exact Hne. apply Hhost.
        + intros h. split; [auto|]. now intros [H|<-].
      - assert (svc_Host svc ∉ hostOrder) as Hnotin.
        { intros Hin%Hdom. rewrite Hrow in Hin. now destruct Hin. }
        split; [|split; [|split]].
        + apply NoDup_app. split; [exact Hnd|]. split; [|apply NoDup_singleton].
          now intros x Hx ->%list_elem_of_singleton.
        + intros h. rewrite elem_of_app, list_elem_of_singleton.
          destruct (decide (svc_Host svc = h)) as [<-|Hne].
          * rewrite lookup_insert_eq. split; [auto|eauto].
          * rewrite lookup_insert_ne by exact Hne. rewrite Hdom. split; [auto|].
            intros [?|?]; [done|congruence].
        + intros h row. destruct (decide (svc_Host svc = h)) as [<-|Hne].
          * rewrite lookup_insert_eq. now intros [= <-].
          * rewrite lookup_insert_ne by exact Hne. apply Hhost.
        + intros h. rewrite elem_of_app, list_elem_of_singleton. split; intros [?|?]; auto. }
    destruct (IH hostMap1 hostOrder1 Hnd1 Hdom1 Hhost1) as (Hn & Hd & Hh & He).
    split; [exact Hn|]. split; [exact Hd|]. split; [exact Hh|].
    intros h. rewrite He, Hel1. split.
    + intros [[?|?]|(s & Hs & ?)]; [now left|right..].
      * exists svc. split; [now left|done].
      * exists s. split; [now right|done].
    + intros [?|(s & [->|Hs]%elem_of_cons & ?)]; [now left; left|now left; right|].
      right. eauto.
Qed.

#[local] Instance rowLe_total : Total output.rowLe.
Proof. intros a b. apply String.leb_total. Qed.

#[local] Instance rowLe_trans : Transitive output.rowLe.
Proof.
  intros a b c. unfold output.rowLe. intros Hab%leb_iff Hbc%leb_iff. apply leb_iff.
  destruct Hab as [Hab|Hab], Hbc as [Hbc|Hbc].
  - left. congruence.
  - right. now rewrite Hab.
  - right. now rewrite <- Hbc.
  - right. exact (OrderedTypeEx.String_as_OT.lt_trans _ _ _ Hab Hbc).
Qed.

Lemma rows_sorted (rows : list (list string)) :
  StronglySorted output.rowLe rows ->
  NoDup ((fun row => default "" (row !! 0%nat)) <$> rows) ->
  StronglySorted (fun x y => String.ltb x y = true)
                 ((fun row => default "" (row !! 0%nat)) <$> rows).
Proof.
  induction 1 as [|row rows _ IH Hle]; intros Hnd; [constructor|].
  rewrite fmap_cons in *. apply NoDup_cons in Hnd as [Hfresh Hnd].
  constructor; [now apply IH|]. apply Forall_fmap.
  rewrite Forall_forall in *. intros row' Hin. specialize (Hle row' Hin).
  apply ltb_iff. apply leb_iff in Hle as [He|Hl]; [|exact Hl].
  exfalso. apply Hfresh. cbn. rewrite He. apply list_elem_of_fmap. eauto.
Qed.

(** X26.  For a result without HTTP services [WriteTable] prints its
    notice; otherwise it never panics and renders one row per host that has
    a service, in strictly ascending order of host name, each of five cells,
    with at most 40 bytes of technologies and 30 of title. *)
Theorem WriteTable_rows (result : ScanResult) :
  (HTTPServices result = [] -> output.WriteTable result = Some output.NoServices) /\
  (HTTPServices result <> [] ->
   exists rows,
     output.WriteTable result = Some (output.Rows rows) /\
     StronglySorted (fun x y => String.ltb x y = true)
                    ((fun row => default "" (row !! 0%nat)) <$> rows) /\
     (forall h, h ∈ (fun row => default "" (row !! 0%nat)) <$> rows <->
        exists svc, svc ∈ HTTPServices result /\ svc_Host svc = h) /\
     Forall (fun row =>
               exists host ip ports technologies title,
                 row = [host; ip; ports; technologies; title] /\
                 Z.of_nat (String.length technologies) <= 40 /\
                 Z.of_nat (String.length title) <= 30) rows).
Proof.
  unfold output.WriteTable. split.
  { now intros ->. }
  intros Hne. destruct (len (HTTPServices result) =? 0) eqn:Hlen.
  { apply len_zero in Hlen. contradiction. }
  destruct (addService_fold (HTTPServices result) ∅ []) as (Hnd & Hdom & Hhost & Hel).
  { constructor. }
  { intros h. rewrite lookup_empty, elem_of_nil. split; [intros [? [=]]|done]. }
  { intros h row. now rewrite lookup_empty. }
  destruct (fold_left output.addService (HTTPServices result) (∅, []))
    as [hostMap hostOrder]. cbn [fst snd] in *.
  assert (exists rows0,
            mapM (fun host => row ← hostMap !! host; output.cells row) hostOrder = Some rows0 /\
            (fun row => default "" (row !! 0%nat)) <$> rows0 = hostOrder /\
            Forall (fun row =>
                      exists host ip ports technologies title,
                        row = [host; ip; ports; technologies; title] /\
                        Z.of_nat (String.length technologies) <= 40 /\
                        Z.of_nat (String.length title) <= 30) rows0)
    as (rows0 & -> & Hfirst & Hcells).
  { assert (forall h, h ∈ hostOrder -> is_Some (hostMap !! h)) as Hrows
      by (intros h; apply Hdom).
    clear Hnd Hel Hdom. induction hostOrder as [|h hostOrder IH].
    - exists []. repeat split; constructor.
    - destruct IH as (rows0 & Hm & Hf & Hc).
      { intros h' Hh'. apply Hrows. now right. }
      destruct (Hrows h) as [row Hrow]; [now left|].
      destruct (cells_Some row) as (technologies & title & Hcell & Ht & Hl).
      exists ([output.host row; output.ip row; GoStrings.Join (output.ports row) ",";
               technologies; title] :: rows0).
      split; [|split].
      + cbn [mapM]. rewrite Hrow. cbn [mbind option_bind]. rewrite Hcell.
        cbn [mbind option_bind]. rewrite Hm. reflexivity.
      + rewrite fmap_cons, Hf. cbn. f_equal. now apply Hhost.
      + constructor; [|exact Hc]. eauto 10. }
  cbn [mbind option_bind]. eexists. split; [reflexivity|].
  pose proof (merge_sort_Permutation output.rowLe rows0) as Hperm.
  assert ((fun row => default "" (row !! 0%nat)) <$> merge_sort output.rowLe rows0
          ≡ₚ hostOrder) as Hhosts.
  { rewrite Hperm. now rewrite Hfirst. }
  split; [|split].
  - apply rows_sorted; [apply StronglySorted_merge_sort; apply _|]. now rewrite Hhosts.
  - intros h. rewrite Hhosts, Hel, elem_of_nil. tauto.
  - now rewrite Hperm.
Qed.

Lemma WriteTable_rows_witness :
  output.WriteTable (complete 0 1 "example.com" [] [] [] [] [] [] []) =
    Some output.NoServices /\
  exists rows,
    output.WriteTable (complete 0 1 "example.com" [] [] [] [] [] [] [fixtures.oneService]) =
      Some (output.Rows rows) /\
    forall h, h ∈ (fun row => default "" (row !! 0%nat)) <$> rows <->
      exists svc, svc ∈ [fixtures.oneService] /\ svc_Host svc = h.
Proof.
  split.
  - apply (WriteTable_rows (complete 0 1 "example.com" [] [] [] [] [] [] [])). reflexivity.
  - destruct (proj2 (WriteTable_rows
                       (complete 0 1 "example.com" [] [] [] [] [] [] [fixtures.oneService])))
      as (rows & Hw & _ & Hh & _).
    + discriminate.
    + exists rows. split; [exact Hw|exact Hh].
Defined.
